(** * Verification of the natural-language-to-SQL service [main.py]

    The service is a sequential pipeline: schema introspection
    ([get_schema]), translation of the question into SQL by a language
    model ([human_query_to_sql]), execution ([query]), summarisation of
    the rows by the language model ([build_answer]) and the request
    handler that chains them ([human_query_endpoint]).

    The development is organised as follows.
    - [Text]: Python [str] values as sequences of Unicode code points,
      with the [str] methods that main.py calls.
    - [Py]: the dynamically typed values the program passes around
      (dicts, lists, strings, ...), subscripting, membership and
      [json.dumps(_, indent=2)].
    - [Run]: exceptions, the calls to the database driver and to the
      model service, and the monad in which the program is written.
    - [Main]: the five functions of main.py.
    - [Samples]: concrete environments on which the functions are
      evaluated.
    - The properties, one section per function. *)

From Stdlib Require Import List NArith ZArith String Ascii Bool Lia.
From Stdlib Require Import DecimalString.
Import ListNotations.

Set Implicit Arguments.
Set Warnings "-register-all".

(* ===================================================================== *)
(** * Text: Python [str] *)
(* ===================================================================== *)

Module Text.

(** A Python [str] is a sequence of Unicode code points. *)
Definition str := list N.

(** ** Literals

    String literals of this file are UTF-8 encoded; [lit] decodes them to
    code points (the Spanish messages of main.py contain accented
    letters). *)

Definition cont (b : N) : N := N.land b 0x3F.

Fixpoint utf8_decode (bs : list N) : str :=
  match bs with
  | [] => []
  | b1 :: r1 =>
    if (b1 <? 0x80)%N then b1 :: utf8_decode r1
    else match r1 with
    | [] => [0xFFFD%N]
    | b2 :: r2 =>
      if (b1 <? 0xE0)%N
      then (N.land b1 0x1F * 64 + cont b2)%N :: utf8_decode r2
      else match r2 with
      | [] => [0xFFFD%N]
      | b3 :: r3 =>
        if (b1 <? 0xF0)%N
        then (N.land b1 0x0F * 4096 + cont b2 * 64 + cont b3)%N
               :: utf8_decode r3
        else match r3 with
        | [] => [0xFFFD%N]
        | b4 :: r4 =>
          (N.land b1 0x07 * 262144 + cont b2 * 4096 + cont b3 * 64
           + cont b4)%N :: utf8_decode r4
        end
      end
    end
  end.

Definition lit (s : string) : str :=
  utf8_decode (map N_of_ascii (list_ascii_of_string s)).

(** The character [chr(34)], the double quote. *)
Definition dquote : str := [34%N].

(** ** Comparison, prefixes, suffixes, substrings *)

Fixpoint eqb (a b : str) : bool :=
  match a, b with
  | [], [] => true
  | x :: a', y :: b' => (x =? y)%N && eqb a' b'
  | _, _ => false
  end.

(** [s.startswith(p)] *)
Fixpoint startswith (s p : str) {struct p} : bool :=
  match p, s with
  | [], _ => true
  | _ :: _, [] => false
  | y :: p', x :: s' => (x =? y)%N && startswith s' p'
  end.

(** [s.endswith(p)] *)
Definition endswith (s p : str) : bool := startswith (rev s) (rev p).

(** [needle in hay] for two strings: [needle] occurs at some offset. *)
Fixpoint contains (needle hay : str) : bool :=
  startswith hay needle ||
  match hay with
  | [] => false
  | _ :: hay' => contains needle hay'
  end.

(** [s[n:]] and [s[:-n]] for [n <= len(s)], [0 < n]. *)
Definition drop_prefix (n : nat) (s : str) : str := skipn n s.
Definition drop_suffix (n : nat) (s : str) : str :=
  firstn (List.length s - n) s.

(** ** [str.strip()]

    With no argument, [strip] removes the characters for which
    [str.isspace] holds; the list is that of CPython's
    [_PyUnicode_IsWhitespace]. *)

Definition whitespace : list N :=
  [0x09; 0x0A; 0x0B; 0x0C; 0x0D; 0x1C; 0x1D; 0x1E; 0x1F; 0x20; 0x85; 0xA0;
   0x1680; 0x2000; 0x2001; 0x2002; 0x2003; 0x2004; 0x2005; 0x2006; 0x2007;
   0x2008; 0x2009; 0x200A; 0x2028; 0x2029; 0x202F; 0x205F; 0x3000]%N.

Definition isspace (c : N) : bool := existsb (N.eqb c) whitespace.

Fixpoint lstrip (s : str) : str :=
  match s with
  | c :: s' => if isspace c then lstrip s' else s
  | [] => []
  end.

Definition rstrip (s : str) : str := rev (lstrip (rev s)).

Definition strip (s : str) : str := rstrip (lstrip s).

(** ** [str.upper()]

    [upper] replaces every character by its full uppercase mapping, which
    may be several characters long.  [upper_table] lists the code points
    that are changed by it (Unicode 14.0, the character database of
    CPython 3.11); every other code point is left as it is. *)

Definition upper_table : list (N * list N) :=
  [(0x61, [0x41]); (0x62, [0x42]); (0x63, [0x43]); (0x64, [0x44]);
   (0x65, [0x45]); (0x66, [0x46]); (0x67, [0x47]); (0x68, [0x48]);
   (0x69, [0x49]); (0x6A, [0x4A]); (0x6B, [0x4B]); (0x6C, [0x4C]);
   (0x6D, [0x4D]); (0x6E, [0x4E]); (0x6F, [0x4F]); (0x70, [0x50]);
   (0x71, [0x51]); (0x72, [0x52]); (0x73, [0x53]); (0x74, [0x54]);
   (0x75, [0x55]); (0x76, [0x56]); (0x77, [0x57]); (0x78, [0x58]);
   (0x79, [0x59]); (0x7A, [0x5A]); (0xB5, [0x39C]); (0xDF, [0x53; 0x53]);
   (0xE0, [0xC0]); (0xE1, [0xC1]); (0xE2, [0xC2]); (0xE3, [0xC3]);
   (0xE4, [0xC4]); (0xE5, [0xC5]); (0xE6, [0xC6]); (0xE7, [0xC7]);
   (0xE8, [0xC8]); (0xE9, [0xC9]); (0xEA, [0xCA]); (0xEB, [0xCB]);
   (0xEC, [0xCC]); (0xED, [0xCD]); (0xEE, [0xCE]); (0xEF, [0xCF]);
   (0xF0, [0xD0]); (0xF1, [0xD1]); (0xF2, [0xD2]); (0xF3, [0xD3]);
   (0xF4, [0xD4]); (0xF5, [0xD5]); (0xF6, [0xD6]); (0xF8, [0xD8]);
   (0xF9, [0xD9]); (0xFA, [0xDA]); (0xFB, [0xDB]); (0xFC, [0xDC]);
   (0xFD, [0xDD]); (0xFE, [0xDE]); (0xFF, [0x178]); (0x101, [0x100]);
   (0x103, [0x102]); (0x105, [0x104]); (0x107, [0x106]); (0x109, [0x108]);
   (0x10B, [0x10A]); (0x10D, [0x10C]); (0x10F, [0x10E]); (0x111, [0x110]);
   (0x113, [0x112]); (0x115, [0x114]); (0x117, [0x116]); (0x119, [0x118]);
   (0x11B, [0x11A]); (0x11D, [0x11C]); (0x11F, [0x11E]); (0x121, [0x120]);
   (0x123, [0x122]); (0x125, [0x124]); (0x127, [0x126]); (0x129, [0x128]);
   (0x12B, [0x12A]); (0x12D, [0x12C]); (0x12F, [0x12E]); (0x131, [0x49]);
   (0x133, [0x132]); (0x135, [0x134]); (0x137, [0x136]); (0x13A, [0x139]);
   (0x13C, [0x13B]); (0x13E, [0x13D]); (0x140, [0x13F]); (0x142, [0x141]);
   (0x144, [0x143]); (0x146, [0x145]); (0x148, [0x147]);
   (0x149, [0x2BC; 0x4E]); (0x14B, [0x14A]); (0x14D, [0x14C]);
   (0x14F, [0x14E]); (0x151, [0x150]); (0x153, [0x152]); (0x155, [0x154]);
   (0x157, [0x156]); (0x159, [0x158]); (0x15B, [0x15A]); (0x15D, [0x15C]);
   (0x15F, [0x15E]); (0x161, [0x160]); (0x163, [0x162]); (0x165, [0x164]);
   (0x167, [0x166]); (0x169, [0x168]); (0x16B, [0x16A]); (0x16D, [0x16C]);
   (0x16F, [0x16E]); (0x171, [0x170]); (0x173, [0x172]); (0x175, [0x174]);
   (0x177, [0x176]); (0x17A, [0x179]); (0x17C, [0x17B]); (0x17E, [0x17D]);
   (0x17F, [0x53]); (0x180, [0x243]); (0x183, [0x182]); (0x185, [0x184]);
   (0x188, [0x187]); (0x18C, [0x18B]); (0x192, [0x191]); (0x195, [0x1F6]);
   (0x199, [0x198]); (0x19A, [0x23D]); (0x19E, [0x220]); (0x1A1, [0x1A0]);
   (0x1A3, [0x1A2]); (0x1A5, [0x1A4]); (0x1A8, [0x1A7]); (0x1AD, [0x1AC]);
   (0x1B0, [0x1AF]); (0x1B4, [0x1B3]); (0x1B6, [0x1B5]); (0x1B9, [0x1B8]);
   (0x1BD, [0x1BC]); (0x1BF, [0x1F7]); (0x1C5, [0x1C4]); (0x1C6, [0x1C4]);
   (0x1C8, [0x1C7]); (0x1C9, [0x1C7]); (0x1CB, [0x1CA]); (0x1CC, [0x1CA]);
   (0x1CE, [0x1CD]); (0x1D0, [0x1CF]); (0x1D2, [0x1D1]); (0x1D4, [0x1D3]);
   (0x1D6, [0x1D5]); (0x1D8, [0x1D7]); (0x1DA, [0x1D9]); (0x1DC, [0x1DB]);
   (0x1DD, [0x18E]); (0x1DF, [0x1DE]); (0x1E1, [0x1E0]); (0x1E3, [0x1E2]);
   (0x1E5, [0x1E4]); (0x1E7, [0x1E6]); (0x1E9, [0x1E8]); (0x1EB, [0x1EA]);
   (0x1ED, [0x1EC]); (0x1EF, [0x1EE]); (0x1F0, [0x4A; 0x30C]);
   (0x1F2, [0x1F1]); (0x1F3, [0x1F1]); (0x1F5, [0x1F4]); (0x1F9, [0x1F8]);
   (0x1FB, [0x1FA]); (0x1FD, [0x1FC]); (0x1FF, [0x1FE]); (0x201, [0x200]);
   (0x203, [0x202]); (0x205, [0x204]); (0x207, [0x206]); (0x209, [0x208]);
   (0x20B, [0x20A]); (0x20D, [0x20C]); (0x20F, [0x20E]); (0x211, [0x210]);
   (0x213, [0x212]); (0x215, [0x214]); (0x217, [0x216]); (0x219, [0x218]);
   (0x21B, [0x21A]); (0x21D, [0x21C]); (0x21F, [0x21E]); (0x223, [0x222]);
   (0x225, [0x224]); (0x227, [0x226]); (0x229, [0x228]); (0x22B, [0x22A]);
   (0x22D, [0x22C]); (0x22F, [0x22E]); (0x231, [0x230]); (0x233, [0x232]);
   (0x23C, [0x23B]); (0x23F, [0x2C7E]); (0x240, [0x2C7F]); (0x242, [0x241]);
   (0x247, [0x246]); (0x249, [0x248]); (0x24B, [0x24A]); (0x24D, [0x24C]);
   (0x24F, [0x24E]); (0x250, [0x2C6F]); (0x251, [0x2C6D]); (0x252, [0x2C70]);
   (0x253, [0x181]); (0x254, [0x186]); (0x256, [0x189]); (0x257, [0x18A]);
   (0x259, [0x18F]); (0x25B, [0x190]); (0x25C, [0xA7AB]); (0x260, [0x193]);
   (0x261, [0xA7AC]); (0x263, [0x194]); (0x265, [0xA78D]); (0x266, [0xA7AA]);
   (0x268, [0x197]); (0x269, [0x196]); (0x26A, [0xA7AE]); (0x26B, [0x2C62]);
   (0x26C, [0xA7AD]); (0x26F, [0x19C]); (0x271, [0x2C6E]); (0x272, [0x19D]);
   (0x275, [0x19F]); (0x27D, [0x2C64]); (0x280, [0x1A6]); (0x282, [0xA7C5]);
   (0x283, [0x1A9]); (0x287, [0xA7B1]); (0x288, [0x1AE]); (0x289, [0x244]);
   (0x28A, [0x1B1]); (0x28B, [0x1B2]); (0x28C, [0x245]); (0x292, [0x1B7]);
   (0x29D, [0xA7B2]); (0x29E, [0xA7B0]); (0x345, [0x399]); (0x371, [0x370]);
   (0x373, [0x372]); (0x377, [0x376]); (0x37B, [0x3FD]); (0x37C, [0x3FE]);
   (0x37D, [0x3FF]); (0x390, [0x399; 0x308; 0x301]); (0x3AC, [0x386]);
   (0x3AD, [0x388]); (0x3AE, [0x389]); (0x3AF, [0x38A]);
   (0x3B0, [0x3A5; 0x308; 0x301]); (0x3B1, [0x391]); (0x3B2, [0x392]);
   (0x3B3, [0x393]); (0x3B4, [0x394]); (0x3B5, [0x395]); (0x3B6, [0x396]);
   (0x3B7, [0x397]); (0x3B8, [0x398]); (0x3B9, [0x399]); (0x3BA, [0x39A]);
   (0x3BB, [0x39B]); (0x3BC, [0x39C]); (0x3BD, [0x39D]); (0x3BE, [0x39E]);
   (0x3BF, [0x39F]); (0x3C0, [0x3A0]); (0x3C1, [0x3A1]); (0x3C2, [0x3A3]);
   (0x3C3, [0x3A3]); (0x3C4, [0x3A4]); (0x3C5, [0x3A5]); (0x3C6, [0x3A6]);
   (0x3C7, [0x3A7]); (0x3C8, [0x3A8]); (0x3C9, [0x3A9]); (0x3CA, [0x3AA]);
   (0x3CB, [0x3AB]); (0x3CC, [0x38C]); (0x3CD, [0x38E]); (0x3CE, [0x38F]);
   (0x3D0, [0x392]); (0x3D1, [0x398]); (0x3D5, [0x3A6]); (0x3D6, [0x3A0]);
   (0x3D7, [0x3CF]); (0x3D9, [0x3D8]); (0x3DB, [0x3DA]); (0x3DD, [0x3DC]);
   (0x3DF, [0x3DE]); (0x3E1, [0x3E0]); (0x3E3, [0x3E2]); (0x3E5, [0x3E4]);
   (0x3E7, [0x3E6]); (0x3E9, [0x3E8]); (0x3EB, [0x3EA]); (0x3ED, [0x3EC]);
   (0x3EF, [0x3EE]); (0x3F0, [0x39A]); (0x3F1, [0x3A1]); (0x3F2, [0x3F9]);
   (0x3F3, [0x37F]); (0x3F5, [0x395]); (0x3F8, [0x3F7]); (0x3FB, [0x3FA]);
   (0x430, [0x410]); (0x431, [0x411]); (0x432, [0x412]); (0x433, [0x413]);
   (0x434, [0x414]); (0x435, [0x415]); (0x436, [0x416]); (0x437, [0x417]);
   (0x438, [0x418]); (0x439, [0x419]); (0x43A, [0x41A]); (0x43B, [0x41B]);
   (0x43C, [0x41C]); (0x43D, [0x41D]); (0x43E, [0x41E]); (0x43F, [0x41F]);
   (0x440, [0x420]); (0x441, [0x421]); (0x442, [0x422]); (0x443, [0x423]);
   (0x444, [0x424]); (0x445, [0x425]); (0x446, [0x426]); (0x447, [0x427]);
   (0x448, [0x428]); (0x449, [0x429]); (0x44A, [0x42A]); (0x44B, [0x42B]);
   (0x44C, [0x42C]); (0x44D, [0x42D]); (0x44E, [0x42E]); (0x44F, [0x42F]);
   (0x450, [0x400]); (0x451, [0x401]); (0x452, [0x402]); (0x453, [0x403]);
   (0x454, [0x404]); (0x455, [0x405]); (0x456, [0x406]); (0x457, [0x407]);
   (0x458, [0x408]); (0x459, [0x409]); (0x45A, [0x40A]); (0x45B, [0x40B]);
   (0x45C, [0x40C]); (0x45D, [0x40D]); (0x45E, [0x40E]); (0x45F, [0x40F]);
   (0x461, [0x460]); (0x463, [0x462]); (0x465, [0x464]); (0x467, [0x466]);
   (0x469, [0x468]); (0x46B, [0x46A]); (0x46D, [0x46C]); (0x46F, [0x46E]);
   (0x471, [0x470]); (0x473, [0x472]); (0x475, [0x474]); (0x477, [0x476]);
   (0x479, [0x478]); (0x47B, [0x47A]); (0x47D, [0x47C]); (0x47F, [0x47E]);
   (0x481, [0x480]); (0x48B, [0x48A]); (0x48D, [0x48C]); (0x48F, [0x48E]);
   (0x491, [0x490]); (0x493, [0x492]); (0x495, [0x494]); (0x497, [0x496]);
   (0x499, [0x498]); (0x49B, [0x49A]); (0x49D, [0x49C]); (0x49F, [0x49E]);
   (0x4A1, [0x4A0]); (0x4A3, [0x4A2]); (0x4A5, [0x4A4]); (0x4A7, [0x4A6]);
   (0x4A9, [0x4A8]); (0x4AB, [0x4AA]); (0x4AD, [0x4AC]); (0x4AF, [0x4AE]);
   (0x4B1, [0x4B0]); (0x4B3, [0x4B2]); (0x4B5, [0x4B4]); (0x4B7, [0x4B6]);
   (0x4B9, [0x4B8]); (0x4BB, [0x4BA]); (0x4BD, [0x4BC]); (0x4BF, [0x4BE]);
   (0x4C2, [0x4C1]); (0x4C4, [0x4C3]); (0x4C6, [0x4C5]); (0x4C8, [0x4C7]);
   (0x4CA, [0x4C9]); (0x4CC, [0x4CB]); (0x4CE, [0x4CD]); (0x4CF, [0x4C0]);
   (0x4D1, [0x4D0]); (0x4D3, [0x4D2]); (0x4D5, [0x4D4]); (0x4D7, [0x4D6]);
   (0x4D9, [0x4D8]); (0x4DB, [0x4DA]); (0x4DD, [0x4DC]); (0x4DF, [0x4DE]);
   (0x4E1, [0x4E0]); (0x4E3, [0x4E2]); (0x4E5, [0x4E4]); (0x4E7, [0x4E6]);
   (0x4E9, [0x4E8]); (0x4EB, [0x4EA]); (0x4ED, [0x4EC]); (0x4EF, [0x4EE]);
   (0x4F1, [0x4F0]); (0x4F3, [0x4F2]); (0x4F5, [0x4F4]); (0x4F7, [0x4F6]);
   (0x4F9, [0x4F8]); (0x4FB, [0x4FA]); (0x4FD, [0x4FC]); (0x4FF, [0x4FE]);
   (0x501, [0x500]); (0x503, [0x502]); (0x505, [0x504]); (0x507, [0x506]);
   (0x509, [0x508]); (0x50B, [0x50A]); (0x50D, [0x50C]); (0x50F, [0x50E]);
   (0x511, [0x510]); (0x513, [0x512]); (0x515, [0x514]); (0x517, [0x516]);
   (0x519, [0x518]); (0x51B, [0x51A]); (0x51D, [0x51C]); (0x51F, [0x51E]);
   (0x521, [0x520]); (0x523, [0x522]); (0x525, [0x524]); (0x527, [0x526]);
   (0x529, [0x528]); (0x52B, [0x52A]); (0x52D, [0x52C]); (0x52F, [0x52E]);
   (0x561, [0x531]); (0x562, [0x532]); (0x563, [0x533]); (0x564, [0x534]);
   (0x565, [0x535]); (0x566, [0x536]); (0x567, [0x537]); (0x568, [0x538]);
   (0x569, [0x539]); (0x56A, [0x53A]); (0x56B, [0x53B]); (0x56C, [0x53C]);
   (0x56D, [0x53D]); (0x56E, [0x53E]); (0x56F, [0x53F]); (0x570, [0x540]);
   (0x571, [0x541]); (0x572, [0x542]); (0x573, [0x543]); (0x574, [0x544]);
   (0x575, [0x545]); (0x576, [0x546]); (0x577, [0x547]); (0x578, [0x548]);
   (0x579, [0x549]); (0x57A, [0x54A]); (0x57B, [0x54B]); (0x57C, [0x54C]);
   (0x57D, [0x54D]); (0x57E, [0x54E]); (0x57F, [0x54F]); (0x580, [0x550]);
   (0x581, [0x551]); (0x582, [0x552]); (0x583, [0x553]); (0x584, [0x554]);
   (0x585, [0x555]); (0x586, [0x556]); (0x587, [0x535; 0x552]);
   (0x10D0, [0x1C90]); (0x10D1, [0x1C91]); (0x10D2, [0x1C92]);
   (0x10D3, [0x1C93]); (0x10D4, [0x1C94]); (0x10D5, [0x1C95]);
   (0x10D6, [0x1C96]); (0x10D7, [0x1C97]); (0x10D8, [0x1C98]);
   (0x10D9, [0x1C99]); (0x10DA, [0x1C9A]); (0x10DB, [0x1C9B]);
   (0x10DC, [0x1C9C]); (0x10DD, [0x1C9D]); (0x10DE, [0x1C9E]);
   (0x10DF, [0x1C9F]); (0x10E0, [0x1CA0]); (0x10E1, [0x1CA1]);
   (0x10E2, [0x1CA2]); (0x10E3, [0x1CA3]); (0x10E4, [0x1CA4]);
   (0x10E5, [0x1CA5]); (0x10E6, [0x1CA6]); (0x10E7, [0x1CA7]);
   (0x10E8, [0x1CA8]); (0x10E9, [0x1CA9]); (0x10EA, [0x1CAA]);
   (0x10EB, [0x1CAB]); (0x10EC, [0x1CAC]); (0x10ED, [0x1CAD]);
   (0x10EE, [0x1CAE]); (0x10EF, [0x1CAF]); (0x10F0, [0x1CB0]);
   (0x10F1, [0x1CB1]); (0x10F2, [0x1CB2]); (0x10F3, [0x1CB3]);
   (0x10F4, [0x1CB4]); (0x10F5, [0x1CB5]); (0x10F6, [0x1CB6]);
   (0x10F7, [0x1CB7]); (0x10F8, [0x1CB8]); (0x10F9, [0x1CB9]);
   (0x10FA, [0x1CBA]); (0x10FD, [0x1CBD]); (0x10FE, [0x1CBE]);
   (0x10FF, [0x1CBF]); (0x13F8, [0x13F0]); (0x13F9, [0x13F1]);
   (0x13FA, [0x13F2]); (0x13FB, [0x13F3]); (0x13FC, [0x13F4]);
   (0x13FD, [0x13F5]); (0x1C80, [0x412]); (0x1C81, [0x414]);
   (0x1C82, [0x41E]); (0x1C83, [0x421]); (0x1C84, [0x422]);
   (0x1C85, [0x422]); (0x1C86, [0x42A]); (0x1C87, [0x462]);
   (0x1C88, [0xA64A]); (0x1D79, [0xA77D]); (0x1D7D, [0x2C63]);
   (0x1D8E, [0xA7C6]); (0x1E01, [0x1E00]); (0x1E03, [0x1E02]);
   (0x1E05, [0x1E04]); (0x1E07, [0x1E06]); (0x1E09, [0x1E08]);
   (0x1E0B, [0x1E0A]); (0x1E0D, [0x1E0C]); (0x1E0F, [0x1E0E]);
   (0x1E11, [0x1E10]); (0x1E13, [0x1E12]); (0x1E15, [0x1E14]);
   (0x1E17, [0x1E16]); (0x1E19, [0x1E18]); (0x1E1B, [0x1E1A]);
   (0x1E1D, [0x1E1C]); (0x1E1F, [0x1E1E]); (0x1E21, [0x1E20]);
   (0x1E23, [0x1E22]); (0x1E25, [0x1E24]); (0x1E27, [0x1E26]);
   (0x1E29, [0x1E28]); (0x1E2B, [0x1E2A]); (0x1E2D, [0x1E2C]);
   (0x1E2F, [0x1E2E]); (0x1E31, [0x1E30]); (0x1E33, [0x1E32]);
   (0x1E35, [0x1E34]); (0x1E37, [0x1E36]); (0x1E39, [0x1E38]);
   (0x1E3B, [0x1E3A]); (0x1E3D, [0x1E3C]); (0x1E3F, [0x1E3E]);
   (0x1E41, [0x1E40]); (0x1E43, [0x1E42]); (0x1E45, [0x1E44]);
   (0x1E47, [0x1E46]); (0x1E49, [0x1E48]); (0x1E4B, [0x1E4A]);
   (0x1E4D, [0x1E4C]); (0x1E4F, [0x1E4E]); (0x1E51, [0x1E50]);
   (0x1E53, [0x1E52]); (0x1E55, [0x1E54]); (0x1E57, [0x1E56]);
   (0x1E59, [0x1E58]); (0x1E5B, [0x1E5A]); (0x1E5D, [0x1E5C]);
   (0x1E5F, [0x1E5E]); (0x1E61, [0x1E60]); (0x1E63, [0x1E62]);
   (0x1E65, [0x1E64]); (0x1E67, [0x1E66]); (0x1E69, [0x1E68]);
   (0x1E6B, [0x1E6A]); (0x1E6D, [0x1E6C]); (0x1E6F, [0x1E6E]);
   (0x1E71, [0x1E70]); (0x1E73, [0x1E72]); (0x1E75, [0x1E74]);
   (0x1E77, [0x1E76]); (0x1E79, [0x1E78]); (0x1E7B, [0x1E7A]);
   (0x1E7D, [0x1E7C]); (0x1E7F, [0x1E7E]); (0x1E81, [0x1E80]);
   (0x1E83, [0x1E82]); (0x1E85, [0x1E84]); (0x1E87, [0x1E86]);
   (0x1E89, [0x1E88]); (0x1E8B, [0x1E8A]); (0x1E8D, [0x1E8C]);
   (0x1E8F, [0x1E8E]); (0x1E91, [0x1E90]); (0x1E93, [0x1E92]);
   (0x1E95, [0x1E94]); (0x1E96, [0x48; 0x331]); (0x1E97, [0x54; 0x308]);
   (0x1E98, [0x57; 0x30A]); (0x1E99, [0x59; 0x30A]); (0x1E9A, [0x41; 0x2BE]);
   (0x1E9B, [0x1E60]); (0x1EA1, [0x1EA0]); (0x1EA3, [0x1EA2]);
   (0x1EA5, [0x1EA4]); (0x1EA7, [0x1EA6]); (0x1EA9, [0x1EA8]);
   (0x1EAB, [0x1EAA]); (0x1EAD, [0x1EAC]); (0x1EAF, [0x1EAE]);
   (0x1EB1, [0x1EB0]); (0x1EB3, [0x1EB2]); (0x1EB5, [0x1EB4]);
   (0x1EB7, [0x1EB6]); (0x1EB9, [0x1EB8]); (0x1EBB, [0x1EBA]);
   (0x1EBD, [0x1EBC]); (0x1EBF, [0x1EBE]); (0x1EC1, [0x1EC0]);
   (0x1EC3, [0x1EC2]); (0x1EC5, [0x1EC4]); (0x1EC7, [0x1EC6]);
   (0x1EC9, [0x1EC8]); (0x1ECB, [0x1ECA]); (0x1ECD, [0x1ECC]);
   (0x1ECF, [0x1ECE]); (0x1ED1, [0x1ED0]); (0x1ED3, [0x1ED2]);
   (0x1ED5, [0x1ED4]); (0x1ED7, [0x1ED6]); (0x1ED9, [0x1ED8]);
   (0x1EDB, [0x1EDA]); (0x1EDD, [0x1EDC]); (0x1EDF, [0x1EDE]);
   (0x1EE1, [0x1EE0]); (0x1EE3, [0x1EE2]); (0x1EE5, [0x1EE4]);
   (0x1EE7, [0x1EE6]); (0x1EE9, [0x1EE8]); (0x1EEB, [0x1EEA]);
   (0x1EED, [0x1EEC]); (0x1EEF, [0x1EEE]); (0x1EF1, [0x1EF0]);
   (0x1EF3, [0x1EF2]); (0x1EF5, [0x1EF4]); (0x1EF7, [0x1EF6]);
   (0x1EF9, [0x1EF8]); (0x1EFB, [0x1EFA]); (0x1EFD, [0x1EFC]);
   (0x1EFF, [0x1EFE]); (0x1F00, [0x1F08]); (0x1F01, [0x1F09]);
   (0x1F02, [0x1F0A]); (0x1F03, [0x1F0B]); (0x1F04, [0x1F0C]);
   (0x1F05, [0x1F0D]); (0x1F06, [0x1F0E]); (0x1F07, [0x1F0F]);
   (0x1F10, [0x1F18]); (0x1F11, [0x1F19]); (0x1F12, [0x1F1A]);
   (0x1F13, [0x1F1B]); (0x1F14, [0x1F1C]); (0x1F15, [0x1F1D]);
   (0x1F20, [0x1F28]); (0x1F21, [0x1F29]); (0x1F22, [0x1F2A]);
   (0x1F23, [0x1F2B]); (0x1F24, [0x1F2C]); (0x1F25, [0x1F2D]);
   (0x1F26, [0x1F2E]); (0x1F27, [0x1F2F]); (0x1F30, [0x1F38]);
   (0x1F31, [0x1F39]); (0x1F32, [0x1F3A]); (0x1F33, [0x1F3B]);
   (0x1F34, [0x1F3C]); (0x1F35, [0x1F3D]); (0x1F36, [0x1F3E]);
   (0x1F37, [0x1F3F]); (0x1F40, [0x1F48]); (0x1F41, [0x1F49]);
   (0x1F42, [0x1F4A]); (0x1F43, [0x1F4B]); (0x1F44, [0x1F4C]);
   (0x1F45, [0x1F4D]); (0x1F50, [0x3A5; 0x313]); (0x1F51, [0x1F59]);
   (0x1F52, [0x3A5; 0x313; 0x300]); (0x1F53, [0x1F5B]);
   (0x1F54, [0x3A5; 0x313; 0x301]); (0x1F55, [0x1F5D]);
   (0x1F56, [0x3A5; 0x313; 0x342]); (0x1F57, [0x1F5F]); (0x1F60, [0x1F68]);
   (0x1F61, [0x1F69]); (0x1F62, [0x1F6A]); (0x1F63, [0x1F6B]);
   (0x1F64, [0x1F6C]); (0x1F65, [0x1F6D]); (0x1F66, [0x1F6E]);
   (0x1F67, [0x1F6F]); (0x1F70, [0x1FBA]); (0x1F71, [0x1FBB]);
   (0x1F72, [0x1FC8]); (0x1F73, [0x1FC9]); (0x1F74, [0x1FCA]);
   (0x1F75, [0x1FCB]); (0x1F76, [0x1FDA]); (0x1F77, [0x1FDB]);
   (0x1F78, [0x1FF8]); (0x1F79, [0x1FF9]); (0x1F7A, [0x1FEA]);
   (0x1F7B, [0x1FEB]); (0x1F7C, [0x1FFA]); (0x1F7D, [0x1FFB]);
   (0x1F80, [0x1F08; 0x399]); (0x1F81, [0x1F09; 0x399]);
   (0x1F82, [0x1F0A; 0x399]); (0x1F83, [0x1F0B; 0x399]);
   (0x1F84, [0x1F0C; 0x399]); (0x1F85, [0x1F0D; 0x399]);
   (0x1F86, [0x1F0E; 0x399]); (0x1F87, [0x1F0F; 0x399]);
   (0x1F88, [0x1F08; 0x399]); (0x1F89, [0x1F09; 0x399]);
   (0x1F8A, [0x1F0A; 0x399]); (0x1F8B, [0x1F0B; 0x399]);
   (0x1F8C, [0x1F0C; 0x399]); (0x1F8D, [0x1F0D; 0x399]);
   (0x1F8E, [0x1F0E; 0x399]); (0x1F8F, [0x1F0F; 0x399]);
   (0x1F90, [0x1F28; 0x399]); (0x1F91, [0x1F29; 0x399]);
   (0x1F92, [0x1F2A; 0x399]); (0x1F93, [0x1F2B; 0x399]);
   (0x1F94, [0x1F2C; 0x399]); (0x1F95, [0x1F2D; 0x399]);
   (0x1F96, [0x1F2E; 0x399]); (0x1F97, [0x1F2F; 0x399]);
   (0x1F98, [0x1F28; 0x399]); (0x1F99, [0x1F29; 0x399]);
   (0x1F9A, [0x1F2A; 0x399]); (0x1F9B, [0x1F2B; 0x399]);
   (0x1F9C, [0x1F2C; 0x399]); (0x1F9D, [0x1F2D; 0x399]);
   (0x1F9E, [0x1F2E; 0x399]); (0x1F9F, [0x1F2F; 0x399]);
   (0x1FA0, [0x1F68; 0x399]); (0x1FA1, [0x1F69; 0x399]);
   (0x1FA2, [0x1F6A; 0x399]); (0x1FA3, [0x1F6B; 0x399]);
   (0x1FA4, [0x1F6C; 0x399]); (0x1FA5, [0x1F6D; 0x399]);
   (0x1FA6, [0x1F6E; 0x399]); (0x1FA7, [0x1F6F; 0x399]);
   (0x1FA8, [0x1F68; 0x399]); (0x1FA9, [0x1F69; 0x399]);
   (0x1FAA, [0x1F6A; 0x399]); (0x1FAB, [0x1F6B; 0x399]);
   (0x1FAC, [0x1F6C; 0x399]); (0x1FAD, [0x1F6D; 0x399]);
   (0x1FAE, [0x1F6E; 0x399]); (0x1FAF, [0x1F6F; 0x399]); (0x1FB0, [0x1FB8]);
   (0x1FB1, [0x1FB9]); (0x1FB2, [0x1FBA; 0x399]); (0x1FB3, [0x391; 0x399]);
   (0x1FB4, [0x386; 0x399]); (0x1FB6, [0x391; 0x342]);
   (0x1FB7, [0x391; 0x342; 0x399]); (0x1FBC, [0x391; 0x399]);
   (0x1FBE, [0x399]); (0x1FC2, [0x1FCA; 0x399]); (0x1FC3, [0x397; 0x399]);
   (0x1FC4, [0x389; 0x399]); (0x1FC6, [0x397; 0x342]);
   (0x1FC7, [0x397; 0x342; 0x399]); (0x1FCC, [0x397; 0x399]);
   (0x1FD0, [0x1FD8]); (0x1FD1, [0x1FD9]); (0x1FD2, [0x399; 0x308; 0x300]);
   (0x1FD3, [0x399; 0x308; 0x301]); (0x1FD6, [0x399; 0x342]);
   (0x1FD7, [0x399; 0x308; 0x342]); (0x1FE0, [0x1FE8]); (0x1FE1, [0x1FE9]);
   (0x1FE2, [0x3A5; 0x308; 0x300]); (0x1FE3, [0x3A5; 0x308; 0x301]);
   (0x1FE4, [0x3A1; 0x313]); (0x1FE5, [0x1FEC]); (0x1FE6, [0x3A5; 0x342]);
   (0x1FE7, [0x3A5; 0x308; 0x342]); (0x1FF2, [0x1FFA; 0x399]);
   (0x1FF3, [0x3A9; 0x399]); (0x1FF4, [0x38F; 0x399]);
   (0x1FF6, [0x3A9; 0x342]); (0x1FF7, [0x3A9; 0x342; 0x399]);
   (0x1FFC, [0x3A9; 0x399]); (0x214E, [0x2132]); (0x2170, [0x2160]);
   (0x2171, [0x2161]); (0x2172, [0x2162]); (0x2173, [0x2163]);
   (0x2174, [0x2164]); (0x2175, [0x2165]); (0x2176, [0x2166]);
   (0x2177, [0x2167]); (0x2178, [0x2168]); (0x2179, [0x2169]);
   (0x217A, [0x216A]); (0x217B, [0x216B]); (0x217C, [0x216C]);
   (0x217D, [0x216D]); (0x217E, [0x216E]); (0x217F, [0x216F]);
   (0x2184, [0x2183]); (0x24D0, [0x24B6]); (0x24D1, [0x24B7]);
   (0x24D2, [0x24B8]); (0x24D3, [0x24B9]); (0x24D4, [0x24BA]);
   (0x24D5, [0x24BB]); (0x24D6, [0x24BC]); (0x24D7, [0x24BD]);
   (0x24D8, [0x24BE]); (0x24D9, [0x24BF]); (0x24DA, [0x24C0]);
   (0x24DB, [0x24C1]); (0x24DC, [0x24C2]); (0x24DD, [0x24C3]);
   (0x24DE, [0x24C4]); (0x24DF, [0x24C5]); (0x24E0, [0x24C6]);
   (0x24E1, [0x24C7]); (0x24E2, [0x24C8]); (0x24E3, [0x24C9]);
   (0x24E4, [0x24CA]); (0x24E5, [0x24CB]); (0x24E6, [0x24CC]);
   (0x24E7, [0x24CD]); (0x24E8, [0x24CE]); (0x24E9, [0x24CF]);
   (0x2C30, [0x2C00]); (0x2C31, [0x2C01]); (0x2C32, [0x2C02]);
   (0x2C33, [0x2C03]); (0x2C34, [0x2C04]); (0x2C35, [0x2C05]);
   (0x2C36, [0x2C06]); (0x2C37, [0x2C07]); (0x2C38, [0x2C08]);
   (0x2C39, [0x2C09]); (0x2C3A, [0x2C0A]); (0x2C3B, [0x2C0B]);
   (0x2C3C, [0x2C0C]); (0x2C3D, [0x2C0D]); (0x2C3E, [0x2C0E]);
   (0x2C3F, [0x2C0F]); (0x2C40, [0x2C10]); (0x2C41, [0x2C11]);
   (0x2C42, [0x2C12]); (0x2C43, [0x2C13]); (0x2C44, [0x2C14]);
   (0x2C45, [0x2C15]); (0x2C46, [0x2C16]); (0x2C47, [0x2C17]);
   (0x2C48, [0x2C18]); (0x2C49, [0x2C19]); (0x2C4A, [0x2C1A]);
   (0x2C4B, [0x2C1B]); (0x2C4C, [0x2C1C]); (0x2C4D, [0x2C1D]);
   (0x2C4E, [0x2C1E]); (0x2C4F, [0x2C1F]); (0x2C50, [0x2C20]);
   (0x2C51, [0x2C21]); (0x2C52, [0x2C22]); (0x2C53, [0x2C23]);
   (0x2C54, [0x2C24]); (0x2C55, [0x2C25]); (0x2C56, [0x2C26]);
   (0x2C57, [0x2C27]); (0x2C58, [0x2C28]); (0x2C59, [0x2C29]);
   (0x2C5A, [0x2C2A]); (0x2C5B, [0x2C2B]); (0x2C5C, [0x2C2C]);
   (0x2C5D, [0x2C2D]); (0x2C5E, [0x2C2E]); (0x2C5F, [0x2C2F]);
   (0x2C61, [0x2C60]); (0x2C65, [0x23A]); (0x2C66, [0x23E]);
   (0x2C68, [0x2C67]); (0x2C6A, [0x2C69]); (0x2C6C, [0x2C6B]);
   (0x2C73, [0x2C72]); (0x2C76, [0x2C75]); (0x2C81, [0x2C80]);
   (0x2C83, [0x2C82]); (0x2C85, [0x2C84]); (0x2C87, [0x2C86]);
   (0x2C89, [0x2C88]); (0x2C8B, [0x2C8A]); (0x2C8D, [0x2C8C]);
   (0x2C8F, [0x2C8E]); (0x2C91, [0x2C90]); (0x2C93, [0x2C92]);
   (0x2C95, [0x2C94]); (0x2C97, [0x2C96]); (0x2C99, [0x2C98]);
   (0x2C9B, [0x2C9A]); (0x2C9D, [0x2C9C]); (0x2C9F, [0x2C9E]);
   (0x2CA1, [0x2CA0]); (0x2CA3, [0x2CA2]); (0x2CA5, [0x2CA4]);
   (0x2CA7, [0x2CA6]); (0x2CA9, [0x2CA8]); (0x2CAB, [0x2CAA]);
   (0x2CAD, [0x2CAC]); (0x2CAF, [0x2CAE]); (0x2CB1, [0x2CB0]);
   (0x2CB3, [0x2CB2]); (0x2CB5, [0x2CB4]); (0x2CB7, [0x2CB6]);
   (0x2CB9, [0x2CB8]); (0x2CBB, [0x2CBA]); (0x2CBD, [0x2CBC]);
   (0x2CBF, [0x2CBE]); (0x2CC1, [0x2CC0]); (0x2CC3, [0x2CC2]);
   (0x2CC5, [0x2CC4]); (0x2CC7, [0x2CC6]); (0x2CC9, [0x2CC8]);
   (0x2CCB, [0x2CCA]); (0x2CCD, [0x2CCC]); (0x2CCF, [0x2CCE]);
   (0x2CD1, [0x2CD0]); (0x2CD3, [0x2CD2]); (0x2CD5, [0x2CD4]);
   (0x2CD7, [0x2CD6]); (0x2CD9, [0x2CD8]); (0x2CDB, [0x2CDA]);
   (0x2CDD, [0x2CDC]); (0x2CDF, [0x2CDE]); (0x2CE1, [0x2CE0]);
   (0x2CE3, [0x2CE2]); (0x2CEC, [0x2CEB]); (0x2CEE, [0x2CED]);
   (0x2CF3, [0x2CF2]); (0x2D00, [0x10A0]); (0x2D01, [0x10A1]);
   (0x2D02, [0x10A2]); (0x2D03, [0x10A3]); (0x2D04, [0x10A4]);
   (0x2D05, [0x10A5]); (0x2D06, [0x10A6]); (0x2D07, [0x10A7]);
   (0x2D08, [0x10A8]); (0x2D09, [0x10A9]); (0x2D0A, [0x10AA]);
   (0x2D0B, [0x10AB]); (0x2D0C, [0x10AC]); (0x2D0D, [0x10AD]);
   (0x2D0E, [0x10AE]); (0x2D0F, [0x10AF]); (0x2D10, [0x10B0]);
   (0x2D11, [0x10B1]); (0x2D12, [0x10B2]); (0x2D13, [0x10B3]);
   (0x2D14, [0x10B4]); (0x2D15, [0x10B5]); (0x2D16, [0x10B6]);
   (0x2D17, [0x10B7]); (0x2D18, [0x10B8]); (0x2D19, [0x10B9]);
   (0x2D1A, [0x10BA]); (0x2D1B, [0x10BB]); (0x2D1C, [0x10BC]);
   (0x2D1D, [0x10BD]); (0x2D1E, [0x10BE]); (0x2D1F, [0x10BF]);
   (0x2D20, [0x10C0]); (0x2D21, [0x10C1]); (0x2D22, [0x10C2]);
   (0x2D23, [0x10C3]); (0x2D24, [0x10C4]); (0x2D25, [0x10C5]);
   (0x2D27, [0x10C7]); (0x2D2D, [0x10CD]); (0xA641, [0xA640]);
   (0xA643, [0xA642]); (0xA645, [0xA644]); (0xA647, [0xA646]);
   (0xA649, [0xA648]); (0xA64B, [0xA64A]); (0xA64D, [0xA64C]);
   (0xA64F, [0xA64E]); (0xA651, [0xA650]); (0xA653, [0xA652]);
   (0xA655, [0xA654]); (0xA657, [0xA656]); (0xA659, [0xA658]);
   (0xA65B, [0xA65A]); (0xA65D, [0xA65C]); (0xA65F, [0xA65E]);
   (0xA661, [0xA660]); (0xA663, [0xA662]); (0xA665, [0xA664]);
   (0xA667, [0xA666]); (0xA669, [0xA668]); (0xA66B, [0xA66A]);
   (0xA66D, [0xA66C]); (0xA681, [0xA680]); (0xA683, [0xA682]);
   (0xA685, [0xA684]); (0xA687, [0xA686]); (0xA689, [0xA688]);
   (0xA68B, [0xA68A]); (0xA68D, [0xA68C]); (0xA68F, [0xA68E]);
   (0xA691, [0xA690]); (0xA693, [0xA692]); (0xA695, [0xA694]);
   (0xA697, [0xA696]); (0xA699, [0xA698]); (0xA69B, [0xA69A]);
   (0xA723, [0xA722]); (0xA725, [0xA724]); (0xA727, [0xA726]);
   (0xA729, [0xA728]); (0xA72B, [0xA72A]); (0xA72D, [0xA72C]);
   (0xA72F, [0xA72E]); (0xA733, [0xA732]); (0xA735, [0xA734]);
   (0xA737, [0xA736]); (0xA739, [0xA738]); (0xA73B, [0xA73A]);
   (0xA73D, [0xA73C]); (0xA73F, [0xA73E]); (0xA741, [0xA740]);
   (0xA743, [0xA742]); (0xA745, [0xA744]); (0xA747, [0xA746]);
   (0xA749, [0xA748]); (0xA74B, [0xA74A]); (0xA74D, [0xA74C]);
   (0xA74F, [0xA74E]); (0xA751, [0xA750]); (0xA753, [0xA752]);
   (0xA755, [0xA754]); (0xA757, [0xA756]); (0xA759, [0xA758]);
   (0xA75B, [0xA75A]); (0xA75D, [0xA75C]); (0xA75F, [0xA75E]);
   (0xA761, [0xA760]); (0xA763, [0xA762]); (0xA765, [0xA764]);
   (0xA767, [0xA766]); (0xA769, [0xA768]); (0xA76B, [0xA76A]);
   (0xA76D, [0xA76C]); (0xA76F, [0xA76E]); (0xA77A, [0xA779]);
   (0xA77C, [0xA77B]); (0xA77F, [0xA77E]); (0xA781, [0xA780]);
   (0xA783, [0xA782]); (0xA785, [0xA784]); (0xA787, [0xA786]);
   (0xA78C, [0xA78B]); (0xA791, [0xA790]); (0xA793, [0xA792]);
   (0xA794, [0xA7C4]); (0xA797, [0xA796]); (0xA799, [0xA798]);
   (0xA79B, [0xA79A]); (0xA79D, [0xA79C]); (0xA79F, [0xA79E]);
   (0xA7A1, [0xA7A0]); (0xA7A3, [0xA7A2]); (0xA7A5, [0xA7A4]);
   (0xA7A7, [0xA7A6]); (0xA7A9, [0xA7A8]); (0xA7B5, [0xA7B4]);
   (0xA7B7, [0xA7B6]); (0xA7B9, [0xA7B8]); (0xA7BB, [0xA7BA]);
   (0xA7BD, [0xA7BC]); (0xA7BF, [0xA7BE]); (0xA7C1, [0xA7C0]);
   (0xA7C3, [0xA7C2]); (0xA7C8, [0xA7C7]); (0xA7CA, [0xA7C9]);
   (0xA7D1, [0xA7D0]); (0xA7D7, [0xA7D6]); (0xA7D9, [0xA7D8]);
   (0xA7F6, [0xA7F5]); (0xAB53, [0xA7B3]); (0xAB70, [0x13A0]);
   (0xAB71, [0x13A1]); (0xAB72, [0x13A2]); (0xAB73, [0x13A3]);
   (0xAB74, [0x13A4]); (0xAB75, [0x13A5]); (0xAB76, [0x13A6]);
   (0xAB77, [0x13A7]); (0xAB78, [0x13A8]); (0xAB79, [0x13A9]);
   (0xAB7A, [0x13AA]); (0xAB7B, [0x13AB]); (0xAB7C, [0x13AC]);
   (0xAB7D, [0x13AD]); (0xAB7E, [0x13AE]); (0xAB7F, [0x13AF]);
   (0xAB80, [0x13B0]); (0xAB81, [0x13B1]); (0xAB82, [0x13B2]);
   (0xAB83, [0x13B3]); (0xAB84, [0x13B4]); (0xAB85, [0x13B5]);
   (0xAB86, [0x13B6]); (0xAB87, [0x13B7]); (0xAB88, [0x13B8]);
   (0xAB89, [0x13B9]); (0xAB8A, [0x13BA]); (0xAB8B, [0x13BB]);
   (0xAB8C, [0x13BC]); (0xAB8D, [0x13BD]); (0xAB8E, [0x13BE]);
   (0xAB8F, [0x13BF]); (0xAB90, [0x13C0]); (0xAB91, [0x13C1]);
   (0xAB92, [0x13C2]); (0xAB93, [0x13C3]); (0xAB94, [0x13C4]);
   (0xAB95, [0x13C5]); (0xAB96, [0x13C6]); (0xAB97, [0x13C7]);
   (0xAB98, [0x13C8]); (0xAB99, [0x13C9]); (0xAB9A, [0x13CA]);
   (0xAB9B, [0x13CB]); (0xAB9C, [0x13CC]); (0xAB9D, [0x13CD]);
   (0xAB9E, [0x13CE]); (0xAB9F, [0x13CF]); (0xABA0, [0x13D0]);
   (0xABA1, [0x13D1]); (0xABA2, [0x13D2]); (0xABA3, [0x13D3]);
   (0xABA4, [0x13D4]); (0xABA5, [0x13D5]); (0xABA6, [0x13D6]);
   (0xABA7, [0x13D7]); (0xABA8, [0x13D8]); (0xABA9, [0x13D9]);
   (0xABAA, [0x13DA]); (0xABAB, [0x13DB]); (0xABAC, [0x13DC]);
   (0xABAD, [0x13DD]); (0xABAE, [0x13DE]); (0xABAF, [0x13DF]);
   (0xABB0, [0x13E0]); (0xABB1, [0x13E1]); (0xABB2, [0x13E2]);
   (0xABB3, [0x13E3]); (0xABB4, [0x13E4]); (0xABB5, [0x13E5]);
   (0xABB6, [0x13E6]); (0xABB7, [0x13E7]); (0xABB8, [0x13E8]);
   (0xABB9, [0x13E9]); (0xABBA, [0x13EA]); (0xABBB, [0x13EB]);
   (0xABBC, [0x13EC]); (0xABBD, [0x13ED]); (0xABBE, [0x13EE]);
   (0xABBF, [0x13EF]); (0xFB00, [0x46; 0x46]); (0xFB01, [0x46; 0x49]);
   (0xFB02, [0x46; 0x4C]); (0xFB03, [0x46; 0x46; 0x49]);
   (0xFB04, [0x46; 0x46; 0x4C]); (0xFB05, [0x53; 0x54]);
   (0xFB06, [0x53; 0x54]); (0xFB13, [0x544; 0x546]);
   (0xFB14, [0x544; 0x535]); (0xFB15, [0x544; 0x53B]);
   (0xFB16, [0x54E; 0x546]); (0xFB17, [0x544; 0x53D]); (0xFF41, [0xFF21]);
   (0xFF42, [0xFF22]); (0xFF43, [0xFF23]); (0xFF44, [0xFF24]);
   (0xFF45, [0xFF25]); (0xFF46, [0xFF26]); (0xFF47, [0xFF27]);
   (0xFF48, [0xFF28]); (0xFF49, [0xFF29]); (0xFF4A, [0xFF2A]);
   (0xFF4B, [0xFF2B]); (0xFF4C, [0xFF2C]); (0xFF4D, [0xFF2D]);
   (0xFF4E, [0xFF2E]); (0xFF4F, [0xFF2F]); (0xFF50, [0xFF30]);
   (0xFF51, [0xFF31]); (0xFF52, [0xFF32]); (0xFF53, [0xFF33]);
   (0xFF54, [0xFF34]); (0xFF55, [0xFF35]); (0xFF56, [0xFF36]);
   (0xFF57, [0xFF37]); (0xFF58, [0xFF38]); (0xFF59, [0xFF39]);
   (0xFF5A, [0xFF3A]); (0x10428, [0x10400]); (0x10429, [0x10401]);
   (0x1042A, [0x10402]); (0x1042B, [0x10403]); (0x1042C, [0x10404]);
   (0x1042D, [0x10405]); (0x1042E, [0x10406]); (0x1042F, [0x10407]);
   (0x10430, [0x10408]); (0x10431, [0x10409]); (0x10432, [0x1040A]);
   (0x10433, [0x1040B]); (0x10434, [0x1040C]); (0x10435, [0x1040D]);
   (0x10436, [0x1040E]); (0x10437, [0x1040F]); (0x10438, [0x10410]);
   (0x10439, [0x10411]); (0x1043A, [0x10412]); (0x1043B, [0x10413]);
   (0x1043C, [0x10414]); (0x1043D, [0x10415]); (0x1043E, [0x10416]);
   (0x1043F, [0x10417]); (0x10440, [0x10418]); (0x10441, [0x10419]);
   (0x10442, [0x1041A]); (0x10443, [0x1041B]); (0x10444, [0x1041C]);
   (0x10445, [0x1041D]); (0x10446, [0x1041E]); (0x10447, [0x1041F]);
   (0x10448, [0x10420]); (0x10449, [0x10421]); (0x1044A, [0x10422]);
   (0x1044B, [0x10423]); (0x1044C, [0x10424]); (0x1044D, [0x10425]);
   (0x1044E, [0x10426]); (0x1044F, [0x10427]); (0x104D8, [0x104B0]);
   (0x104D9, [0x104B1]); (0x104DA, [0x104B2]); (0x104DB, [0x104B3]);
   (0x104DC, [0x104B4]); (0x104DD, [0x104B5]); (0x104DE, [0x104B6]);
   (0x104DF, [0x104B7]); (0x104E0, [0x104B8]); (0x104E1, [0x104B9]);
   (0x104E2, [0x104BA]); (0x104E3, [0x104BB]); (0x104E4, [0x104BC]);
   (0x104E5, [0x104BD]); (0x104E6, [0x104BE]); (0x104E7, [0x104BF]);
   (0x104E8, [0x104C0]); (0x104E9, [0x104C1]); (0x104EA, [0x104C2]);
   (0x104EB, [0x104C3]); (0x104EC, [0x104C4]); (0x104ED, [0x104C5]);
   (0x104EE, [0x104C6]); (0x104EF, [0x104C7]); (0x104F0, [0x104C8]);
   (0x104F1, [0x104C9]); (0x104F2, [0x104CA]); (0x104F3, [0x104CB]);
   (0x104F4, [0x104CC]); (0x104F5, [0x104CD]); (0x104F6, [0x104CE]);
   (0x104F7, [0x104CF]); (0x104F8, [0x104D0]); (0x104F9, [0x104D1]);
   (0x104FA, [0x104D2]); (0x104FB, [0x104D3]); (0x10597, [0x10570]);
   (0x10598, [0x10571]); (0x10599, [0x10572]); (0x1059A, [0x10573]);
   (0x1059B, [0x10574]); (0x1059C, [0x10575]); (0x1059D, [0x10576]);
   (0x1059E, [0x10577]); (0x1059F, [0x10578]); (0x105A0, [0x10579]);
   (0x105A1, [0x1057A]); (0x105A3, [0x1057C]); (0x105A4, [0x1057D]);
   (0x105A5, [0x1057E]); (0x105A6, [0x1057F]); (0x105A7, [0x10580]);
   (0x105A8, [0x10581]); (0x105A9, [0x10582]); (0x105AA, [0x10583]);
   (0x105AB, [0x10584]); (0x105AC, [0x10585]); (0x105AD, [0x10586]);
   (0x105AE, [0x10587]); (0x105AF, [0x10588]); (0x105B0, [0x10589]);
   (0x105B1, [0x1058A]); (0x105B3, [0x1058C]); (0x105B4, [0x1058D]);
   (0x105B5, [0x1058E]); (0x105B6, [0x1058F]); (0x105B7, [0x10590]);
   (0x105B8, [0x10591]); (0x105B9, [0x10592]); (0x105BB, [0x10594]);
   (0x105BC, [0x10595]); (0x10CC0, [0x10C80]); (0x10CC1, [0x10C81]);
   (0x10CC2, [0x10C82]); (0x10CC3, [0x10C83]); (0x10CC4, [0x10C84]);
   (0x10CC5, [0x10C85]); (0x10CC6, [0x10C86]); (0x10CC7, [0x10C87]);
   (0x10CC8, [0x10C88]); (0x10CC9, [0x10C89]); (0x10CCA, [0x10C8A]);
   (0x10CCB, [0x10C8B]); (0x10CCC, [0x10C8C]); (0x10CCD, [0x10C8D]);
   (0x10CCE, [0x10C8E]); (0x10CCF, [0x10C8F]); (0x10CD0, [0x10C90]);
   (0x10CD1, [0x10C91]); (0x10CD2, [0x10C92]); (0x10CD3, [0x10C93]);
   (0x10CD4, [0x10C94]); (0x10CD5, [0x10C95]); (0x10CD6, [0x10C96]);
   (0x10CD7, [0x10C97]); (0x10CD8, [0x10C98]); (0x10CD9, [0x10C99]);
   (0x10CDA, [0x10C9A]); (0x10CDB, [0x10C9B]); (0x10CDC, [0x10C9C]);
   (0x10CDD, [0x10C9D]); (0x10CDE, [0x10C9E]); (0x10CDF, [0x10C9F]);
   (0x10CE0, [0x10CA0]); (0x10CE1, [0x10CA1]); (0x10CE2, [0x10CA2]);
   (0x10CE3, [0x10CA3]); (0x10CE4, [0x10CA4]); (0x10CE5, [0x10CA5]);
   (0x10CE6, [0x10CA6]); (0x10CE7, [0x10CA7]); (0x10CE8, [0x10CA8]);
   (0x10CE9, [0x10CA9]); (0x10CEA, [0x10CAA]); (0x10CEB, [0x10CAB]);
   (0x10CEC, [0x10CAC]); (0x10CED, [0x10CAD]); (0x10CEE, [0x10CAE]);
   (0x10CEF, [0x10CAF]); (0x10CF0, [0x10CB0]); (0x10CF1, [0x10CB1]);
   (0x10CF2, [0x10CB2]); (0x118C0, [0x118A0]); (0x118C1, [0x118A1]);
   (0x118C2, [0x118A2]); (0x118C3, [0x118A3]); (0x118C4, [0x118A4]);
   (0x118C5, [0x118A5]); (0x118C6, [0x118A6]); (0x118C7, [0x118A7]);
   (0x118C8, [0x118A8]); (0x118C9, [0x118A9]); (0x118CA, [0x118AA]);
   (0x118CB, [0x118AB]); (0x118CC, [0x118AC]); (0x118CD, [0x118AD]);
   (0x118CE, [0x118AE]); (0x118CF, [0x118AF]); (0x118D0, [0x118B0]);
   (0x118D1, [0x118B1]); (0x118D2, [0x118B2]); (0x118D3, [0x118B3]);
   (0x118D4, [0x118B4]); (0x118D5, [0x118B5]); (0x118D6, [0x118B6]);
   (0x118D7, [0x118B7]); (0x118D8, [0x118B8]); (0x118D9, [0x118B9]);
   (0x118DA, [0x118BA]); (0x118DB, [0x118BB]); (0x118DC, [0x118BC]);
   (0x118DD, [0x118BD]); (0x118DE, [0x118BE]); (0x118DF, [0x118BF]);
   (0x16E60, [0x16E40]); (0x16E61, [0x16E41]); (0x16E62, [0x16E42]);
   (0x16E63, [0x16E43]); (0x16E64, [0x16E44]); (0x16E65, [0x16E45]);
   (0x16E66, [0x16E46]); (0x16E67, [0x16E47]); (0x16E68, [0x16E48]);
   (0x16E69, [0x16E49]); (0x16E6A, [0x16E4A]); (0x16E6B, [0x16E4B]);
   (0x16E6C, [0x16E4C]); (0x16E6D, [0x16E4D]); (0x16E6E, [0x16E4E]);
   (0x16E6F, [0x16E4F]); (0x16E70, [0x16E50]); (0x16E71, [0x16E51]);
   (0x16E72, [0x16E52]); (0x16E73, [0x16E53]); (0x16E74, [0x16E54]);
   (0x16E75, [0x16E55]); (0x16E76, [0x16E56]); (0x16E77, [0x16E57]);
   (0x16E78, [0x16E58]); (0x16E79, [0x16E59]); (0x16E7A, [0x16E5A]);
   (0x16E7B, [0x16E5B]); (0x16E7C, [0x16E5C]); (0x16E7D, [0x16E5D]);
   (0x16E7E, [0x16E5E]); (0x16E7F, [0x16E5F]); (0x1E922, [0x1E900]);
   (0x1E923, [0x1E901]); (0x1E924, [0x1E902]); (0x1E925, [0x1E903]);
   (0x1E926, [0x1E904]); (0x1E927, [0x1E905]); (0x1E928, [0x1E906]);
   (0x1E929, [0x1E907]); (0x1E92A, [0x1E908]); (0x1E92B, [0x1E909]);
   (0x1E92C, [0x1E90A]); (0x1E92D, [0x1E90B]); (0x1E92E, [0x1E90C]);
   (0x1E92F, [0x1E90D]); (0x1E930, [0x1E90E]); (0x1E931, [0x1E90F]);
   (0x1E932, [0x1E910]); (0x1E933, [0x1E911]); (0x1E934, [0x1E912]);
   (0x1E935, [0x1E913]); (0x1E936, [0x1E914]); (0x1E937, [0x1E915]);
   (0x1E938, [0x1E916]); (0x1E939, [0x1E917]); (0x1E93A, [0x1E918]);
   (0x1E93B, [0x1E919]); (0x1E93C, [0x1E91A]); (0x1E93D, [0x1E91B]);
   (0x1E93E, [0x1E91C]); (0x1E93F, [0x1E91D]); (0x1E940, [0x1E91E]);
   (0x1E941, [0x1E91F]); (0x1E942, [0x1E920]); (0x1E943, [0x1E921])]%N.

Fixpoint lookup_upper (c : N) (t : list (N * list N)) : option (list N) :=
  match t with
  | [] => None
  | (k, u) :: t' => if (c =? k)%N then Some u else lookup_upper c t'
  end.

Definition upper_cp (c : N) : list N :=
  match lookup_upper c upper_table with
  | Some u => u
  | None => [c]
  end.

Definition upper (s : str) : str := flat_map upper_cp s.

(** ** Numbers in decimal and hexadecimal *)

(** [int.__repr__] *)
Definition of_Z (z : Z) : str := lit (NilZero.string_of_int (Z.to_int z)).

Definition hex_digit (d : N) : N :=
  if (d <? 10)%N then (48 + d)%N else (87 + d)%N.

(** ['{0:04x}'.format(n)] for [n < 0x10000]. *)
Definition hex4 (n : N) : str :=
  [hex_digit (N.land (N.shiftr n 12) 15); hex_digit (N.land (N.shiftr n 8) 15);
   hex_digit (N.land (N.shiftr n 4) 15); hex_digit (N.land n 15)].

End Text.


(* ===================================================================== *)
(** * Py: values, exceptions and the operations main.py applies to them *)
(* ===================================================================== *)

Module Py.
Import Text.

(** ** Exceptions

    Only instances of [Exception] are modelled: they are what the
    [except Exception] clauses of main.py catch.  Interpreter-level
    signals deriving from [BaseException] alone (keyboard interrupt,
    interpreter exit, task cancellation) are outside the model.
    [exn_msg e] is [str(e)]. *)

Inductive exn_class :=
| MySQLError        (* mysql.connector.Error and its subclasses *)
| TypeError
| KeyError
| IndexError
| AttributeError
| ValueError        (* json.JSONDecodeError is one *)
| OtherError.       (* any other subclass of Exception *)

Record exn := Exn { exn_cls : exn_class; exn_msg : str }.

Definition is_mysql_error (e : exn) : bool :=
  match exn_cls e with MySQLError => true | _ => false end.

Inductive outcome (A : Type) :=
| Ok (a : A)
| Raise (e : exn).
Arguments Ok {A} a.
Arguments Raise {A} e.

(** ** Values

    [PyFloat] carries the text that [repr] and [json.dumps] print for the
    float: the program never computes with floats.  [PyOther] stands for
    an object of any other class, as the database driver returns for
    DECIMAL, DATETIME or BLOB columns ([Decimal], [datetime], [bytes]),
    identified by its class name and its [repr].  A dict is the list of
    its items in insertion order. *)

Inductive value :=
| PyNone
| PyBool (b : bool)
| PyInt (z : Z)
| PyFloat (shown : str)
| PyStr (s : str)
| PyList (items : list value)
| PyDict (items : list (value * value))
| PyOther (class_name : str) (shown : str) (hashable : bool).

Definition dict := list (value * value).

(** [type(v).__name__] *)
Definition class_name (v : value) : str :=
  match v with
  | PyNone => lit "NoneType"
  | PyBool _ => lit "bool"
  | PyInt _ => lit "int"
  | PyFloat _ => lit "float"
  | PyStr _ => lit "str"
  | PyList _ => lit "list"
  | PyDict _ => lit "dict"
  | PyOther c _ _ => c
  end.

Definition is_hashable (v : value) : bool :=
  match v with
  | PyList _ | PyDict _ => false
  | PyOther _ _ h => h
  | _ => true
  end.

(** Equality of two dict keys.  This is Python's [==] whenever one of the
    keys is a [str] (a [str] equals only the same [str]), which covers
    every key that main.py writes or looks up and every key of a JSON
    object or of a result row.  [True] and [1] are the same key, as in
    Python; floats and objects of other classes are compared by class and
    [repr], which keeps apart the numeric values that Python equates
    across classes (such as [1.0] and [1]). *)
Definition key_eqb (a b : value) : bool :=
  match a, b with
  | PyNone, PyNone => true
  | PyBool x, PyBool y => Bool.eqb x y
  | PyBool x, PyInt z | PyInt z, PyBool x => (z =? (if x then 1 else 0))%Z
  | PyInt x, PyInt y => (x =? y)%Z
  | PyFloat x, PyFloat y => Text.eqb x y
  | PyStr x, PyStr y => Text.eqb x y
  | PyOther c x _, PyOther c' y _ => Text.eqb c c' && Text.eqb x y
  | _, _ => false
  end.

Fixpoint dict_lookup (k : value) (d : dict) : option value :=
  match d with
  | [] => None
  | (k', v) :: d' => if key_eqb k k' then Some v else dict_lookup k d'
  end.

(** [d[k] = v] on a hashable key: an existing item keeps its place. *)
Fixpoint dict_store (k v : value) (d : dict) : dict :=
  match d with
  | [] => [(k, v)]
  | (k', v') :: d' =>
    if key_eqb k k' then (k', v) :: d' else (k', v') :: dict_store k v d'
  end.

(** [d[k] = v] *)
Definition setitem (d : dict) (k v : value) : outcome dict :=
  if is_hashable k then Ok (dict_store k v d)
  else Raise (Exn TypeError
                (lit "unhashable type: '" ++ class_name k ++ lit "'")).

(** [d[k].append(x)] where [d[k]] is a list. *)
Definition dict_append (d : dict) (k x : value) : dict :=
  match dict_lookup k d with
  | Some (PyList l) => dict_store k (PyList (l ++ [x])) d
  | _ => d
  end.

(** [o[k]] for a key [k] that is a [str].  The keys main.py subscripts
    with are plain identifiers, so [repr(k)], the message of the
    [KeyError], is [k] between single quotes.  The messages of the
    [TypeError]s are those of CPython 3.11. *)
Definition getitem_str (o : value) (k : str) : outcome value :=
  match o with
  | PyDict d =>
    match dict_lookup (PyStr k) d with
    | Some v => Ok v
    | None => Raise (Exn KeyError (lit "'" ++ k ++ lit "'"))
    end
  | PyStr _ =>
    Raise (Exn TypeError (lit "string indices must be integers, not 'str'"))
  | PyList _ =>
    Raise (Exn TypeError
             (lit "list indices must be integers or slices, not str"))
  | _ =>
    Raise (Exn TypeError
             (lit "'" ++ class_name o ++ lit "' object is not subscriptable"))
  end.

(** [k in o] for a [str] [k]: key membership in a dict, substring search
    in a [str], element search in a list. *)
Definition contains_str (k : str) (o : value) : outcome bool :=
  match o with
  | PyDict d =>
    Ok (match dict_lookup (PyStr k) d with Some _ => true | None => false end)
  | PyStr s => Ok (Text.contains k s)
  | PyList l => Ok (existsb (key_eqb (PyStr k)) l)
  | _ =>
    Raise (Exn TypeError
             (lit "argument of type '" ++ class_name o
              ++ lit "' is not iterable"))
  end.

(** [o.get(k, default)] *)
Definition get_str (o : value) (k : str) (default : value) : outcome value :=
  match o with
  | PyDict d =>
    Ok (match dict_lookup (PyStr k) d with Some v => v | None => default end)
  | _ =>
    Raise (Exn AttributeError
             (lit "'" ++ class_name o ++ lit "' object has no attribute 'get'"))
  end.

(** [isinstance(v, dict)] *)
Definition is_dict (v : value) : bool :=
  match v with PyDict _ => true | _ => false end.

(** [v is None] *)
Definition is_none (v : value) : bool :=
  match v with PyNone => true | _ => false end.

(** [v == s] for a [str] literal [s] *)
Definition equals_str (v : value) (s : str) : bool :=
  match v with PyStr x => Text.eqb x s | _ => false end.

(** [list(row.values())[0]] *)
Definition first_value (row : dict) : outcome value :=
  match row with
  | (_, v) :: _ => Ok v
  | [] => Raise (Exn IndexError (lit "list index out of range"))
  end.

(** ** [json.dumps(v, indent=2)]

    The pure-Python encoder of the [json] module, which is the one used
    when [indent] is given: [ensure_ascii] is on, items are separated by
    a comma and a line break, keys and values by a colon and a space. *)

(** One character of a string, escaped. *)
Definition escape_cp (c : N) : str :=
  if (c =? 34)%N then lit "\" ++ dquote
  else if (c =? 92)%N then lit "\\"
  else if (c =? 8)%N then lit "\b"
  else if (c =? 12)%N then lit "\f"
  else if (c =? 10)%N then lit "\n"
  else if (c =? 13)%N then lit "\r"
  else if (c =? 9)%N then lit "\t"
  else if ((32 <=? c) && (c <=? 126))%N then [c]
  else if (c <? 0x10000)%N then lit "\u" ++ hex4 c
  else
    let n := (c - 0x10000)%N in
    lit "\u" ++ hex4 (N.lor 0xD800 (N.land (N.shiftr n 10) 0x3FF))
    ++ lit "\u" ++ hex4 (N.lor 0xDC00 (N.land n 0x3FF)).

Definition encode_str (s : str) : str :=
  dquote ++ flat_map escape_cp s ++ dquote.

(** A dict key as the encoder writes it, before quoting. *)
Definition json_key (k : value) : outcome str :=
  match k with
  | PyStr s => Ok s
  | PyFloat r => Ok r
  | PyBool true => Ok (lit "true")
  | PyBool false => Ok (lit "false")
  | PyNone => Ok (lit "null")
  | PyInt z => Ok (of_Z z)
  | _ =>
    Raise (Exn TypeError
             (lit "keys must be str, int, float, bool or None, not "
              ++ class_name k))
  end.

Definition not_serializable (v : value) : exn :=
  Exn TypeError (lit "Object of type " ++ class_name v
                 ++ lit " is not JSON serializable").

(** A line break followed by the indentation of nesting depth [level]. *)
Definition newline_indent (level : nat) : str :=
  10%N :: repeat 32%N (2 * level).

Fixpoint encode (level : nat) (v : value) {struct v} : outcome str :=
  match v with
  | PyNone => Ok (lit "null")
  | PyBool true => Ok (lit "true")
  | PyBool false => Ok (lit "false")
  | PyInt z => Ok (of_Z z)
  | PyFloat r => Ok r
  | PyStr s => Ok (encode_str s)
  | PyList [] => Ok (lit "[]")
  | PyList l =>
    let fix elements (first : bool) (l : list value) : outcome str :=
      match l with
      | [] => Ok (newline_indent level ++ lit "]")
      | x :: l' =>
        match encode (S level) x with
        | Raise e => Raise e
        | Ok t =>
          match elements false l' with
          | Raise e => Raise e
          | Ok r =>
            Ok ((if first then [] else lit ",")
                ++ newline_indent (S level) ++ t ++ r)
          end
        end
      end in
    match elements true l with
    | Raise e => Raise e
    | Ok r => Ok (lit "[" ++ r)
    end
  | PyDict [] => Ok (lit "{}")
  | PyDict d =>
    let fix members (first : bool) (d : list (value * value)) : outcome str :=
      match d with
      | [] => Ok (newline_indent level ++ lit "}")
      | (k, x) :: d' =>
        match json_key k with
        | Raise e => Raise e
        | Ok ks =>
          match encode (S level) x with
          | Raise e => Raise e
          | Ok t =>
            match members false d' with
            | Raise e => Raise e
            | Ok r =>
              Ok ((if first then [] else lit ",")
                  ++ newline_indent (S level) ++ encode_str ks ++ lit ": "
                  ++ t ++ r)
            end
          end
        end
      end in
    match members true d with
    | Raise e => Raise e
    | Ok r => Ok (lit "{" ++ r)
    end
  | PyOther _ _ _ => Raise (not_serializable v)
  end.

Definition json_dumps (v : value) : outcome str := encode 0 v.

(** [json.dumps(v, indent=2)] returns. *)
Definition serializable (v : value) : bool :=
  match json_dumps v with Ok _ => true | Raise _ => false end.

(** [isinstance(v, str)] *)
Definition is_str (v : value) : bool :=
  match v with PyStr _ => true | _ => false end.

(** [k in d] *)
Definition has_key (k : value) (d : dict) : bool :=
  match dict_lookup k d with Some _ => true | None => false end.

End Py.


(* ===================================================================== *)
(** * Run: the collaborators and the monad of the program *)
(* ===================================================================== *)

Module Run.
Import Text Py.

(** ** Calls that leave the process

    The database is reached through [mysql.connector], the language model
    through [google.generativeai].  A connection and a cursor are handles
    chosen by the driver.  [generate_content] stands for
    [await model.generate_content_async(contents=...)] followed by the
    read of [response.text], which main.py always performs together and
    inside the same [try]; a turn of [contents] is its role and its one
    part.  [mysql_connect] is [mysql.connector.connect( **DB_CONFIG)]:
    the configuration is fixed when the module is loaded. *)

Definition conn := N.
Definition cursor := N.

Inductive extcall :=
| mysql_connect
| conn_cursor (c : conn)                          (* c.cursor(dictionary=True) *)
| cursor_execute (k : cursor) (operation : value) (* k.execute(operation) *)
| cursor_fetchall (k : cursor)                    (* k.fetchall() *)
| conn_commit (c : conn)                          (* c.commit() *)
| cursor_close (k : cursor)                       (* k.close() *)
| conn_close (c : conn)                           (* c.close() *)
| generate_content (model_name : str) (contents : list (str * str)).

(** What a call hands back when it does not raise.  [fetchall] returns
    the rows as dicts from column name to cell. *)
Definition reply (c : extcall) : Type :=
  match c with
  | mysql_connect => conn
  | conn_cursor _ => cursor
  | cursor_fetchall _ => list dict
  | generate_content _ _ => str
  | _ => unit
  end.

(** What a run of the program leaves behind: the calls it made, each with
    its outcome, and the records it handed to [logger]. *)
Inductive event :=
| Called (c : extcall) (r : outcome (reply c))
| Logged (level : str) (message : str).

(** The environment of a run.  [respond h c] is the outcome of call [c]
    when the events [h] have happened so far: the collaborators may
    answer, or raise, in any way, and may depend on everything that
    happened before.  [json_loads] is [json.loads]; [str_of] is [str(v)]
    for a [v] that is not a [str].  Both belong to the Python runtime and
    are left unconstrained. *)
Record Env := {
  respond : list event -> forall c : extcall, outcome (reply c);
  json_loads : str -> outcome value;
  str_of : value -> str
}.

(** ** The monad

    A computation is run after a history of events; it yields an outcome
    and the events it produced itself, oldest first. *)
Definition M (A : Type) : Type := list event -> outcome A * list event.

Definition ret {A} (a : A) : M A := fun _ => (Ok a, []).

Definition raise {A} (e : exn) : M A := fun _ => (Raise e, []).

(** An operation of the interpreter that may raise. *)
Definition lift {A} (o : outcome A) : M A := fun _ => (o, []).

Definition bind {A B} (m : M A) (f : A -> M B) : M B :=
  fun h =>
    match m h with
    | (Ok a, ev) => let (r, ev') := f a (h ++ ev) in (r, ev ++ ev')
    | (Raise e, ev) => (Raise e, ev)
    end.

(** [try: m  except Exception as e: handler e] *)
Definition try_except {A} (m : M A) (handler : exn -> M A) : M A :=
  fun h =>
    match m h with
    | (Ok a, ev) => (Ok a, ev)
    | (Raise e, ev) => let (r, ev') := handler e (h ++ ev) in (r, ev ++ ev')
    end.

Definition logger (level message : str) : M unit :=
  fun _ => (Ok tt, [Logged level message]).

Declare Scope py_scope.
Delimit Scope py_scope with py.
Notation "x <- m ;; k" := (bind m (fun x => k))
  (at level 61, m at next level, right associativity) : py_scope.
Notation "m ;; k" := (bind m (fun _ => k))
  (at level 61, right associativity) : py_scope.

(** [for x in xs: s = body x s], with the variables the body updates
    gathered in [s]. *)
Fixpoint for_each {A S} (xs : list A) (body : A -> S -> M S) (s : S) : M S :=
  match xs with
  | [] => ret s
  | x :: xs' => bind (body x s) (for_each xs' body)
  end.

Section WithEnv.
Variable env : Env.

Definition call (c : extcall) : M (reply c) :=
  fun h => let r := respond env h c in (r, [Called c r]).

(** [f"{v}"] *)
Definition format (v : value) : str :=
  match v with
  | PyStr s => s
  | _ => str_of env v
  end.

End WithEnv.

(** ** Observations on events *)

Definition is_connect (ev : event) : bool :=
  match ev with Called mysql_connect _ => true | _ => false end.

Definition is_fetchall (ev : event) : bool :=
  match ev with Called (cursor_fetchall _) _ => true | _ => false end.

Definition is_commit (ev : event) : bool :=
  match ev with Called (conn_commit _) _ => true | _ => false end.

Definition is_execute (ev : event) : bool :=
  match ev with Called (cursor_execute _ _) _ => true | _ => false end.

Definition is_generate (ev : event) : bool :=
  match ev with Called (generate_content _ _) _ => true | _ => false end.

Definition is_database_call (ev : event) : bool :=
  match ev with
  | Called (generate_content _ _) _ | Logged _ _ => false
  | Called _ _ => true
  end.

Definition count (p : event -> bool) (evs : list event) : nat :=
  List.length (filter p evs).

(** The connection that an event opens: a connect that returned. *)
Definition opening (ev : event) : list conn :=
  match ev with
  | Called mysql_connect (Ok c) => [c]
  | _ => []
  end.

(** The connection that an event closes: a close that returned. *)
Definition closing (ev : event) : list conn :=
  match ev with
  | Called (conn_close c) (Ok _) => [c]
  | _ => []
  end.

(** The connections opened, and those closed, in the order of the
    events. *)
Definition opened_conns (evs : list event) : list conn :=
  flat_map opening evs.

Definition closed_conns (evs : list event) : list conn :=
  flat_map closing evs.

(** One connection was opened, and it was closed. *)
Definition released (evs : list event) : Prop :=
  exists c, opened_conns evs = [c] /\ closed_conns evs = [c].

(** The event concerns the life of a connection: it is a connect or a
    close. *)
Definition on_connection (ev : event) : bool :=
  match ev with
  | Called mysql_connect _ | Called (conn_close _) _ => true
  | _ => false
  end.

(** The two paths of the executor, and the one a run took: the first
    [fetchall] or [commit] among its events decides. *)
Inductive path := ReadPath | WritePath.

Definition path_taken (evs : list event) : option path :=
  match find (fun ev => is_fetchall ev || is_commit ev) evs with
  | Some ev => Some (if is_fetchall ev then ReadPath else WritePath)
  | None => None
  end.

(** Some [execute] of the run returned. *)
Definition executed_one (evs : list event) : bool :=
  existsb
    (fun ev =>
       match ev with
       | Called (cursor_execute _ _) (Ok _) => true
       | _ => false
       end) evs.

(** The exceptions that the calls of the run raised. *)
Definition raised (evs : list event) : list exn :=
  flat_map
    (fun ev =>
       match ev with
       | Called _ (Raise e) => [e]
       | _ => []
       end) evs.

Definition is_logged (ev : event) : bool :=
  match ev with Logged _ _ => true | _ => false end.

(** The operations handed to [execute], in the order of the events. *)
Definition executed_operations (evs : list event) : list value :=
  flat_map
    (fun ev =>
       match ev with
       | Called (cursor_execute _ operation) _ => [operation]
       | _ => []
       end) evs.

(** The rows that the [fetchall]s of the run returned, call by call. *)
Definition fetched_rows (evs : list event) : list (list dict) :=
  flat_map
    (fun ev =>
       match ev with
       | Called (cursor_fetchall _) (Ok rows) => [rows]
       | _ => []
       end) evs.

End Run.

(* ===================================================================== *)
(** * Main: the functions of main.py *)
(* ===================================================================== *)

Module Main.
Import Text Py Run.
Local Open Scope py_scope.

(** ** Constant texts *)

Definition error_level : str := lit "ERROR".
Definition info_level : str := lit "INFO".

(** [{"error": message}] *)
Definition error_record (message : str) : value :=
  PyDict [(PyStr (lit "error"), PyStr message)].

(** The acknowledgement of the write path. *)
Definition acknowledgement : value :=
  PyDict [(PyStr (lit "message"), PyStr (lit "Query executed successfully."))].

(** [{"sql_query": None, "error": e}] *)
Definition no_sql (e : value) : value :=
  PyDict [(PyStr (lit "sql_query"), PyNone); (PyStr (lit "error"), e)].

(** [{"answer": text}] *)
Definition answer_record (text : str) : value :=
  PyDict [(PyStr (lit "answer"), PyStr text)].

(** The prompt of the translation, around the schema. *)
Definition translate_head : str :=
  lit "
    Dado el siguiente esquema de base de datos MySQL, escribe una consulta SQL que recupere la información solicitada.
    Devuelve la consulta SQL dentro de una estructura JSON con la clave "
  ++ dquote ++ lit "sql_query" ++ dquote ++ lit ".
    Asegúrate de que la consulta SQL sea válida para MySQL.
    <example>{
        "
  ++ dquote ++ lit "sql_query" ++ dquote ++ lit ": " ++ dquote
  ++ lit "SELECT nombre, lenguaje_principal FROM desarrolladores WHERE experiencia_anios > 5;"
  ++ dquote ++ lit ",
        "
  ++ dquote ++ lit "original_query" ++ dquote ++ lit ": " ++ dquote
  ++ lit "Muéstrame los desarrolladores con más de 5 años de experiencia."
  ++ dquote ++ lit "
    }
    </example>
    <schema>
    ".

Definition translate_tail : str :=
  lit "
    </schema>
    ".

(** The canned reply of the model that precedes the question. *)
Definition few_shot_reply : str :=
  lit "```json
{
    "
  ++ dquote ++ lit "sql_query" ++ dquote ++ lit ": " ++ dquote
  ++ lit "SELECT * FROM desarrolladores WHERE lenguaje_principal = 'Java';"
  ++ dquote ++ lit ",
    "
  ++ dquote ++ lit "original_query" ++ dquote ++ lit ": " ++ dquote
  ++ lit "Buscar desarrolladores que sepan Java"
  ++ dquote ++ lit "
}
```".

(** The prompt of the summary, around the question and the result. *)
Definition summary_head : str :=
  lit "
    Dada la pregunta de un usuario y la respuesta en formato JSON de la base de datos de la cual el usuario quiere obtener la respuesta,
    escribe una respuesta amigable y concisa para la pregunta del usuario.
    Si la consulta resultó en una actualización o eliminación, simplemente confirma la acción.
    Si no hay resultados, indícalo claramente.

    <user_question>
    ".

Definition summary_middle : str :=
  lit "
    </user_question>
    <sql_response>
    ".

Definition summary_tail : str :=
  lit "
    </sql_response>
    ".

(** The two prompts, the f-strings named [system_message] in
    [human_query_to_sql] and in [build_answer], with their placeholders
    already formatted. *)
Definition translation_prompt (database_schema : str) : str :=
  translate_head ++ database_schema ++ translate_tail.

Definition summary_prompt (human_query dumped : str) : str :=
  summary_head ++ human_query ++ summary_middle ++ dumped ++ summary_tail.

Definition json_fence : str := lit "```json".
Definition fence : str := lit "```".

(** The extraction of the JSON text from the reply of the model:
    [[
    if text_content.startswith("```json"):
        text_content = text_content[len("```json"):].strip()
    if text_content.endswith("```"):
        text_content = text_content[:-len("```")].strip()
    ]] *)
Definition strip_fences (text_content : str) : str :=
  let text_content :=
    if startswith text_content json_fence
    then strip (drop_prefix (List.length json_fence) text_content)
    else text_content in
  if endswith text_content fence
  then strip (drop_suffix (List.length fence) text_content)
  else text_content.

(** [sql_query.strip().upper().startswith("SELECT")] *)
Definition is_select_text (sql_query : str) : bool :=
  startswith (upper (strip sql_query)) (lit "SELECT").

(** The ways to write the letters of SELECT: the capital and the small
    letter and, for S and T, one more character of Unicode each whose
    uppercase form begins with the letter: the long s, and the t with
    diaeresis, which becomes a T followed by a combining diaeresis. *)
Definition forms_of_S : list N := [0x53; 0x73; 0x17F]%N.
Definition forms_of_E : list N := [0x45; 0x65]%N.
Definition forms_of_L : list N := [0x4C; 0x6C]%N.
Definition forms_of_C : list N := [0x43; 0x63]%N.
Definition forms_of_T : list N := [0x54; 0x74; 0x1E97]%N.

Definition one_of (forms : list N) (c : N) : bool :=
  existsb (N.eqb c) forms.

(** The text starts with SELECT, in capitals or not. *)
Definition spells_select (s : str) : bool :=
  match s with
  | c1 :: c2 :: c3 :: c4 :: c5 :: c6 :: _ =>
    one_of forms_of_S c1 && one_of forms_of_E c2 && one_of forms_of_L c3
    && one_of forms_of_E c4 && one_of forms_of_C c5 && one_of forms_of_T c6
  | _ => false
  end.

Definition is_select (sql_query : value) : outcome bool :=
  match sql_query with
  | PyStr s => Ok (is_select_text s)
  | _ =>
    Raise (Exn AttributeError
             (lit "'" ++ class_name sql_query
              ++ lit "' object has no attribute 'strip'"))
  end.

(** [isinstance(result, dict) and "error" in result] *)
Definition carries_error (result : value) : bool :=
  match result with
  | PyDict d =>
    match dict_lookup (PyStr (lit "error")) d with
    | Some _ => true
    | None => false
    end
  | _ => false
  end.

(** The request to the model in [human_query_to_sql]: the instructions
    with the schema, the canned reply, the question. *)
Definition translation_request (system_message user_message : str)
  : extcall :=
  generate_content (lit "gemini-2.5-pro")
    [(lit "user", system_message);
     (lit "model", few_shot_reply);
     (lit "user", user_message)].

(** The request to the model in [build_answer]. *)
Definition summary_request (system_message : str) : extcall :=
  generate_content (lit "gemini-2.5-flash") [(lit "user", system_message)].

Section Program.
Variable env : Env.

Definition get_db_connection : M conn :=
  try_except (call env mysql_connect)
    (fun err =>
       if is_mysql_error err
       then logger error_level
              (lit "Error connecting to MySQL: " ++ exn_msg err) ;;
            raise err
       else raise err).

(** The body of [for col in columns]. *)
Definition add_column (table_name : value) (col : dict) (schema_info : dict)
  : M dict :=
  column_name <- lift (getitem_str (PyDict col) (lit "Field")) ;;
  data_type <- lift (getitem_str (PyDict col) (lit "Type")) ;;
  null <- lift (getitem_str (PyDict col) (lit "Null")) ;;
  ret (dict_append schema_info table_name
         (PyDict [(PyStr (lit "column_name"), column_name);
                  (PyStr (lit "data_type"), data_type);
                  (PyStr (lit "nullable"),
                   PyBool (equals_str null (lit "YES")))])).

(** The body of [for table in tables]. *)
Definition add_table (k : cursor) (table : dict) (schema_info : dict)
  : M dict :=
  table_name <- lift (first_value table) ;;
  schema_info <- lift (setitem schema_info table_name (PyList [])) ;;
  call env (cursor_execute k
              (PyStr (lit "DESCRIBE " ++ format env table_name))) ;;
  columns <- call env (cursor_fetchall k) ;;
  for_each columns (add_column table_name) schema_info.

(** The [try] block of [get_schema]; it yields [schema_info]. *)
Definition introspect : M dict :=
  c <- get_db_connection ;;
  k <- call env (conn_cursor c) ;;
  call env (cursor_execute k (PyStr (lit "SHOW TABLES"))) ;;
  tables <- call env (cursor_fetchall k) ;;
  schema_info <- for_each tables (add_table k) [] ;;
  call env (cursor_close k) ;;
  call env (conn_close c) ;;
  ret schema_info.

(** The [try] statement either falls through with [schema_info] or
    returns the error record from its handler. *)
Definition get_schema : M value :=
  r <- try_except
         (schema_info <- introspect ;; ret (inl schema_info))
         (fun e =>
            logger error_level
              (lit "Error getting database schema: " ++ exn_msg e) ;;
            ret (inr (error_record (exn_msg e)))) ;;
  match r with
  | inr returned => ret returned
  | inl schema_info =>
    text <- lift (json_dumps (PyDict schema_info)) ;;
    ret (PyStr text)
  end.

(** The [try] block of [query]; it yields [results]. *)
Definition execute (sql_query : value) : M value :=
  c <- get_db_connection ;;
  k <- call env (conn_cursor c) ;;
  call env (cursor_execute k sql_query) ;;
  select <- lift (is_select sql_query) ;;
  results <-
    (if select : bool
     then rows <- call env (cursor_fetchall k) ;;
          ret (PyList (map PyDict rows))
     else call env (conn_commit c) ;; ret acknowledgement) ;;
  call env (cursor_close k) ;;
  call env (conn_close c) ;;
  ret results.

Definition query (sql_query : value) : M value :=
  try_except (execute sql_query)
    (fun e =>
       if is_mysql_error e
       then logger error_level
              (lit "Error executing SQL query: " ++ exn_msg e) ;;
            ret (error_record (exn_msg e))
       else logger error_level
              (lit "An unexpected error occurred during query: "
               ++ exn_msg e) ;;
            ret (error_record (exn_msg e))).

(** The exchange with the model in [human_query_to_sql], from the call to
    the parsed reply: the [try] block. *)
Definition translate (system_message user_message : str) : M value :=
  text_content <- call env (translation_request system_message user_message) ;;
  lift (json_loads env (strip_fences text_content)).

Definition human_query_to_sql (human_query : str) : M value :=
  database_schema <- get_schema ;;
  has_error <- lift (contains_str (lit "error") database_schema) ;;
  if has_error : bool
  then
    e <- lift (getitem_str database_schema (lit "error")) ;;
    ret (no_sql e)
  else
    let system_message := translation_prompt (format env database_schema) in
    let user_message := human_query in
    try_except (translate system_message user_message)
      (fun e =>
         logger error_level
           (lit "Error generating SQL with Gemini: " ++ exn_msg e) ;;
         ret (no_sql (PyStr (exn_msg e)))).

Definition build_answer (result human_query : value) : M str :=
  if carries_error result
  then
    e <- lift (getitem_str result (lit "error")) ;;
    ret (lit "Lo siento, hubo un error al consultar la base de datos: "
         ++ format env e)
  else
    dumped <- lift (json_dumps result) ;;
    let system_message := summary_prompt (format env human_query) dumped in
    try_except (call env (summary_request system_message))
      (fun e =>
         logger error_level
           (lit "Error building answer with Gemini: " ++ exn_msg e) ;;
         ret (lit "Lo siento, no pude generar una respuesta. Error: "
              ++ exn_msg e)).

(** The end of the handler, from the summary on. *)
Definition respond_with (answer : str) : value :=
  match answer with
  | [] => answer_record (lit "Falló la generación de la respuesta")
  | _ => answer_record answer
  end.

(** [payload] is a [PostHumanQueryPayload]; its field [human_query] is a
    [str], which the framework checks before the handler runs. *)
Definition human_query_endpoint (payload_human_query : str) : M value :=
  sql_response <- human_query_to_sql payload_human_query ;;
  generated <- lift (getitem_str sql_response (lit "sql_query")) ;;
  if is_none generated
  then
    e <- lift (get_str sql_response (lit "error")
                 (PyStr (lit "Error desconocido"))) ;;
    ret (answer_record
           (lit "Falló la generación de la consulta SQL: " ++ format env e))
  else
    sql_query <- lift (getitem_str sql_response (lit "sql_query")) ;;
    original_query_from_llm <-
      lift (get_str sql_response (lit "original_query")
              (PyStr payload_human_query)) ;;
    logger info_level (lit "Generated SQL: " ++ format env sql_query) ;;
    result <- query sql_query ;;
    if carries_error result
    then
      e <- lift (getitem_str result (lit "error")) ;;
      ret (answer_record
             (lit "Falló la consulta a la base de datos: " ++ format env e))
    else
      answer <- build_answer result original_query_from_llm ;;
      ret (respond_with answer).

End Program.

End Main.

(* ===================================================================== *)
(** * Samples: concrete environments *)
(* ===================================================================== *)

Module Samples.
Import Text Py Run Main.

(** ** A reader for JSON texts

    [json.loads] is a parameter of the environment.  The sample
    environments instantiate it with [read_json], a reader for objects,
    arrays, strings with the one-letter escapes, integers, [true],
    [false] and [null], which agrees with [json.loads] on the texts that
    the examples of this file feed to it.  A text it does not accept is
    reported with the message [json.loads] gives for a text that does not
    begin with a JSON value. *)

Fixpoint skip_ws (s : str) : str :=
  match s with
  | (32 | 9 | 10 | 13)%N :: s' => skip_ws s'
  | _ => s
  end.

(** The characters of a string after its opening quote, and what follows
    the closing quote. *)
Fixpoint read_chars (s : str) : option (str * str) :=
  match s with
  | [] => None
  | 34%N :: r => Some ([], r)
  | 92%N :: e :: r =>
    let unescaped :=
      match e with
      | (34 | 92 | 47)%N => Some e
      | 98%N => Some 8%N
      | 102%N => Some 12%N
      | 110%N => Some 10%N
      | 114%N => Some 13%N
      | 116%N => Some 9%N
      | _ => None
      end in
    match unescaped, read_chars r with
    | Some c, Some (cs, rest) => Some (c :: cs, rest)
    | _, _ => None
    end
  | c :: r =>
    if (c <? 32)%N then None
    else match read_chars r with
         | Some (cs, rest) => Some (c :: cs, rest)
         | None => None
         end
  end.

Definition is_digit (c : N) : bool := ((48 <=? c) && (c <=? 57))%N.

Fixpoint read_digits (acc : Z) (s : str) : Z * str :=
  match s with
  | c :: s' =>
    if is_digit c then read_digits (10 * acc + Z.of_N (c - 48))%Z s'
    else (acc, s)
  | [] => (acc, [])
  end.

(** An optional minus sign and a decimal integer without leading zeros,
    not continued as a float. *)
Definition read_int (s : str) : option (Z * str) :=
  let (negative, s1) :=
    match s with 45%N :: r => (true, r) | _ => (false, s) end in
  match s1 with
  | c :: r =>
    if is_digit c then
      let (n, rest) := if (c =? 48)%N then (0%Z, r) else read_digits 0 s1 in
      match rest with
      | (46 | 101 | 69)%N :: _ => None
      | _ => Some (if negative : bool then (- n)%Z else n, rest)
      end
    else None
  | [] => None
  end.

Fixpoint read_value (fuel : nat) (s : str) : option (value * str) :=
  match fuel with
  | O => None
  | S fuel' =>
    match s with
    | 34%N :: r =>
      match read_chars r with
      | Some (cs, rest) => Some (PyStr cs, rest)
      | None => None
      end
    | 123%N :: r =>
      match skip_ws r with
      | 125%N :: rest => Some (PyDict [], rest)
      | r' => read_members fuel' r' []
      end
    | 91%N :: r =>
      match skip_ws r with
      | 93%N :: rest => Some (PyList [], rest)
      | r' => read_elements fuel' r' []
      end
    | 110%N :: 117%N :: 108%N :: 108%N :: rest => Some (PyNone, rest)
    | 116%N :: 114%N :: 117%N :: 101%N :: rest => Some (PyBool true, rest)
    | 102%N :: 97%N :: 108%N :: 115%N :: 101%N :: rest =>
      Some (PyBool false, rest)
    | _ =>
      match read_int s with
      | Some (n, rest) => Some (PyInt n, rest)
      | None => None
      end
    end
  end

with read_members (fuel : nat) (s : str) (acc : dict)
  : option (value * str) :=
  match fuel with
  | O => None
  | S fuel' =>
    match s with
    | 34%N :: r =>
      match read_chars r with
      | Some (key, r1) =>
        match skip_ws r1 with
        | 58%N :: r2 =>
          match read_value fuel' (skip_ws r2) with
          | Some (v, r3) =>
            let acc' := dict_store (PyStr key) v acc in
            match skip_ws r3 with
            | 125%N :: rest => Some (PyDict acc', rest)
            | 44%N :: r4 => read_members fuel' (skip_ws r4) acc'
            | _ => None
            end
          | None => None
          end
        | _ => None
        end
      | None => None
      end
    | _ => None
    end
  end

with read_elements (fuel : nat) (s : str) (acc : list value)
  : option (value * str) :=
  match fuel with
  | O => None
  | S fuel' =>
    match read_value fuel' s with
    | Some (v, r1) =>
      match skip_ws r1 with
      | 93%N :: rest => Some (PyList (acc ++ [v]), rest)
      | 44%N :: r2 => read_elements fuel' (skip_ws r2) (acc ++ [v])
      | _ => None
      end
    | None => None
    end
  end.

Definition read_json (s : str) : outcome value :=
  match read_value (S (List.length s)) (skip_ws s) with
  | Some (v, rest) =>
    match skip_ws rest with
    | [] => Ok v
    | _ => Raise (Exn ValueError
                    (lit "Expecting value: line 1 column 1 (char 0)"))
    end
  | None => Raise (Exn ValueError
                     (lit "Expecting value: line 1 column 1 (char 0)"))
  end.

(** ** [str(v)]

    [str] of a value that is not a [str] is the other parameter of the
    environment that belongs to the runtime.  [py_str] instantiates it:
    it is [str] for [None], booleans, integers, floats, and for lists and
    dicts of these and of strings made of printable characters other than
    the quote and the backslash, which [repr] puts in single quotes as
    they are.  An object of another class is shown by the text it
    carries. *)

Fixpoint join (sep : str) (l : list str) : str :=
  match l with
  | [] => []
  | [x] => x
  | x :: l' => x ++ sep ++ join sep l'
  end.

Fixpoint py_repr (v : value) : str :=
  match v with
  | PyNone => lit "None"
  | PyBool true => lit "True"
  | PyBool false => lit "False"
  | PyInt z => of_Z z
  | PyFloat r => r
  | PyStr s => lit "'" ++ s ++ lit "'"
  | PyList l => lit "[" ++ join (lit ", ") (map py_repr l) ++ lit "]"
  | PyDict d =>
    lit "{"
    ++ join (lit ", ")
         (map (fun kx => py_repr (fst kx) ++ lit ": " ++ py_repr (snd kx)) d)
    ++ lit "}"
  | PyOther _ r _ => r
  end.

Definition py_str (v : value) : str :=
  match v with
  | PyStr s => s
  | _ => py_repr v
  end.

(** ** Scripted collaborators

    A script fixes how the database and the model behave in a run: the
    outcome of connecting, the tables of the catalogue and the columns
    that DESCRIBE lists for each of them, a statement whose execution
    fails, the rows of a statement that is neither SHOW TABLES nor a
    DESCRIBE, and the replies of the two models. *)

Record Script := {
  connecting : outcome conn;
  tables : list str;
  columns : list dict;
  refused : option (str * exn);
  selected : list dict;
  translation : outcome str;
  summary : outcome str
}.

(** The operation of the last [execute] that returned. *)
Definition last_executed (h : list event) : option value :=
  fold_left
    (fun found ev =>
       match ev with
       | Called (cursor_execute _ operation) (Ok _) => Some operation
       | _ => found
       end) h None.

Definition table_row (name : str) : dict :=
  [(PyStr (lit "Tables_in_tienda"), PyStr name)].

Definition fetched (sc : Script) (h : list event) : list dict :=
  match last_executed h with
  | Some (PyStr s) =>
    if Text.eqb s (lit "SHOW TABLES") then map table_row (tables sc)
    else if startswith s (lit "DESCRIBE ") then columns sc
    else selected sc
  | _ => []
  end.

Definition executed (sc : Script) (operation : value) : outcome unit :=
  match refused sc, operation with
  | Some (statement, e), PyStr s =>
    if Text.eqb s statement then Raise e else Ok tt
  | _, _ => Ok tt
  end.

Definition scripted (sc : Script) (h : list event) (c : extcall)
  : outcome (reply c) :=
  match c return outcome (reply c) with
  | mysql_connect => connecting sc
  | conn_cursor _ => Ok 1%N
  | cursor_execute _ operation => executed sc operation
  | cursor_fetchall _ => Ok (fetched sc h)
  | conn_commit _ => Ok tt
  | cursor_close _ => Ok tt
  | conn_close _ => Ok tt
  | generate_content model_name _ =>
    if Text.eqb model_name (lit "gemini-2.5-pro") then translation sc
    else summary sc
  end.

Definition env_of (sc : Script) : Env :=
  {| respond := scripted sc; json_loads := read_json; str_of := py_str |}.

(** A row of DESCRIBE. *)
Definition column (field type null : str) : dict :=
  [(PyStr (lit "Field"), PyStr field); (PyStr (lit "Type"), PyStr type);
   (PyStr (lit "Null"), PyStr null); (PyStr (lit "Key"), PyStr []);
   (PyStr (lit "Default"), PyNone); (PyStr (lit "Extra"), PyStr [])].

(** [{"sql_query": sql, "original_query": question}] between fences, as
    the model is asked to reply. *)
Definition fenced_reply (sql question : str) : str :=
  lit "```json
{" ++ dquote ++ lit "sql_query" ++ dquote ++ lit ": " ++ dquote ++ sql
  ++ dquote ++ lit ", " ++ dquote ++ lit "original_query" ++ dquote
  ++ lit ": " ++ dquote ++ question ++ dquote ++ lit "}
```".

Definition count_clients : str :=
  lit "SELECT COUNT(*) AS total FROM clientes;".

Definition how_many_clients : str := lit "¿Cuántos clientes hay?".

(** The scenario of the specification: a schema with the table
    [clientes], 42 clients. *)
Definition shop : Script :=
  {| connecting := Ok 7%N;
     tables := [lit "clientes"];
     columns := [column (lit "id") (lit "int") (lit "NO");
                 column (lit "nombre") (lit "varchar(50)") (lit "YES")];
     refused := None;
     selected := [[(PyStr (lit "total"), PyInt 42)]];
     translation := Ok (fenced_reply count_clients how_many_clients);
     summary := Ok (lit "Hay 42 clientes.") |}.

(** Variations on the scenario. *)

Definition connection_refused : exn :=
  Exn MySQLError
    (lit "2003 (HY000): Can't connect to MySQL server on 'localhost:3306' (111)").

(** The database is down. *)
Definition no_database : Script :=
  {| connecting := Raise connection_refused;
     tables := tables shop; columns := columns shop; refused := None;
     selected := selected shop; translation := translation shop;
     summary := summary shop |}.

Definition no_such_table : exn :=
  Exn MySQLError (lit "1146 (42S02): Table 'tienda.clientes' doesn't exist").

(** The statement of the model is refused by the database. *)
Definition refusing : Script :=
  {| connecting := connecting shop;
     tables := tables shop; columns := columns shop;
     refused := Some (count_clients, no_such_table);
     selected := selected shop; translation := translation shop;
     summary := summary shop |}.

(** The model replies in prose. *)
Definition chatty : Script :=
  {| connecting := connecting shop;
     tables := tables shop; columns := columns shop; refused := None;
     selected := selected shop;
     translation := Ok (lit "Lo siento, no puedo generar esa consulta.");
     summary := summary shop |}.

(** The catalogue has a table named [error_log]. *)
Definition audited : Script :=
  {| connecting := connecting shop;
     tables := [lit "clientes"; lit "error_log"];
     columns := columns shop; refused := None;
     selected := selected shop; translation := translation shop;
     summary := summary shop |}.

(** The model names the key [query] instead of [sql_query]. *)
Definition misnaming : Script :=
  {| connecting := connecting shop;
     tables := tables shop; columns := columns shop; refused := None;
     selected := selected shop;
     translation :=
       Ok (lit "{" ++ dquote ++ lit "query" ++ dquote ++ lit ": " ++ dquote
           ++ count_clients ++ dquote ++ lit "}");
     summary := summary shop |}.

(** The model leaves [original_query] out. *)
Definition terse : Script :=
  {| connecting := connecting shop;
     tables := tables shop; columns := columns shop; refused := None;
     selected := selected shop;
     translation :=
       Ok (lit "{" ++ dquote ++ lit "sql_query" ++ dquote ++ lit ": "
           ++ dquote ++ count_clients ++ dquote ++ lit "}");
     summary := summary shop |}.

(** A DATETIME cell, as the driver returns it. *)
Definition signup_date : value :=
  PyOther (lit "datetime") (lit "2024-01-05 10:30:00") true.

Definition dated_rows : list dict :=
  [[(PyStr (lit "nombre"), PyStr (lit "Ana"));
    (PyStr (lit "alta"), signup_date)]].

Definition names_and_dates : str := lit "SELECT nombre, alta FROM clientes;".

(** The rows of the statement hold a date. *)
Definition dated : Script :=
  {| connecting := connecting shop;
     tables := tables shop; columns := columns shop; refused := None;
     selected := dated_rows;
     translation :=
       Ok (fenced_reply names_and_dates (lit "¿Cuándo se dieron de alta?"));
     summary := summary shop |}.

(** The summariser is unreachable. *)
Definition quota_exceeded : exn :=
  Exn OtherError (lit "429 Resource has been exhausted (e.g. check quota).").

Definition speechless : Script :=
  {| connecting := connecting shop;
     tables := tables shop; columns := columns shop; refused := None;
     selected := selected shop; translation := translation shop;
     summary := Raise quota_exceeded |}.

(** The text that [get_schema] returns in a run of the script. *)
Definition schema_text (sc : Script) : str :=
  match fst (get_schema (env_of sc) []) with
  | Ok (PyStr text) => text
  | _ => []
  end.

(** The reply of the translation model in the script. *)
Definition translation_text (sc : Script) : str :=
  match translation sc with
  | Ok text => text
  | Raise _ => []
  end.

Definition line_break : str := [10%N].

(** The catalogue lists no table. *)
Definition bare : Script :=
  {| connecting := connecting shop;
     tables := []; columns := columns shop; refused := None;
     selected := selected shop; translation := translation shop;
     summary := summary shop |}.

(** The model declines: its reply holds a null [sql_query] and nothing
    else. *)
Definition declining : Script :=
  {| connecting := connecting shop;
     tables := tables shop; columns := columns shop; refused := None;
     selected := selected shop;
     translation :=
       Ok (lit "{" ++ dquote ++ lit "sql_query" ++ dquote ++ lit ": null}");
     summary := summary shop |}.

(** The translation model is unreachable. *)
Definition offline : Script :=
  {| connecting := connecting shop;
     tables := tables shop; columns := columns shop; refused := None;
     selected := selected shop;
     translation := Raise quota_exceeded;
     summary := summary shop |}.

End Samples.


(* ===================================================================== *)
(** * Notions used in the statements and proofs *)
(* ===================================================================== *)

Unset Implicit Arguments.

Module Notions.
Import Text Py Run Main.

(** [u] differs from [p] at a position that both have. *)
Fixpoint clash (u p : str) : bool :=
  match u, p with
  | x :: u', y :: p' => negb (x =? y)%N || clash u' p'
  | _, _ => false
  end.

(** What is required of an entry of the table when the text must go on
    with the letter [X] and then with [P]: a form of [X] becomes [X]
    alone, or [X] and more when [P] is empty; another character clashes
    with [X :: P]. *)
Definition entry_ok (forms : list N) (X : N) (P : str) (entry : N * list N)
  : bool :=
  let (k, u) := entry in
  if one_of forms k then
    match u with
    | x :: extra =>
      (x =? X)%N
      && match extra, P with
         | [], _ => true
         | _, [] => true
         | _, _ => false
         end
    | [] => false
    end
  else clash u (X :: P).

Definition has_entry (c : N) : bool :=
  match lookup_upper c upper_table with Some _ => true | None => false end.

(** The events of a run of the executor that took the read path to its
    end, with the rows it fetched as the result, and those of a run that
    took the write path to its end, with the acknowledgement as the
    result. *)
Definition read_run (sql_query : value) (evs : list event) (v : value)
  : Prop :=
  exists (c : conn) (k : cursor) (rows : list dict),
    evs = [Called mysql_connect (Ok c);
           Called (conn_cursor c) (Ok k);
           Called (cursor_execute k sql_query) (Ok tt);
           Called (cursor_fetchall k) (Ok rows);
           Called (cursor_close k) (Ok tt);
           Called (conn_close c) (Ok tt)]
    /\ v = PyList (map PyDict rows).

Definition write_run (sql_query : value) (evs : list event) (v : value)
  : Prop :=
  exists (c : conn) (k : cursor),
    evs = [Called mysql_connect (Ok c);
           Called (conn_cursor c) (Ok k);
           Called (cursor_execute k sql_query) (Ok tt);
           Called (conn_commit c) (Ok tt);
           Called (cursor_close k) (Ok tt);
           Called (conn_close c) (Ok tt)]
    /\ v = acknowledgement.

(** The exceptions of the two subscripts that no [try] guards. *)
Definition str_index_error : exn :=
  Exn TypeError (lit "string indices must be integers, not 'str'").

Definition missing_sql_query : exn := Exn KeyError (lit "'sql_query'").

(** The records handed to the logger, and the answers of the handler. *)
Definition translation_failed (e : exn) : event :=
  Logged error_level (lit "Error generating SQL with Gemini: " ++ exn_msg e).

Definition summary_failed (e : exn) : event :=
  Logged error_level (lit "Error building answer with Gemini: " ++ exn_msg e).

Definition generated_sql (env : Env) (sql_query : value) : event :=
  Logged info_level (lit "Generated SQL: " ++ format env sql_query).

Definition translation_failure (message : str) : value :=
  answer_record (lit "Falló la generación de la consulta SQL: " ++ message).

Definition execution_failure (message : str) : value :=
  answer_record (lit "Falló la consulta a la base de datos: " ++ message).

Definition apology (e : exn) : str :=
  lit "Lo siento, no pude generar una respuesta. Error: " ++ exn_msg e.

(** The handler from the result of the executor on: the check of the
    result, the summary, the response. *)
Definition after_query (env : Env) (h : list event) (result original : value)
  : outcome value * list event :=
  if carries_error result
  then match getitem_str result (lit "error") with
       | Ok e => (Ok (execution_failure (format env e)), [])
       | Raise e => (Raise e, [])
       end
  else let (a, evs) := build_answer env result original h in
       (match a with Ok text => Ok (respond_with text) | Raise e => Raise e end,
        evs).


(** Every event of the computation, after any history, satisfies [p]. *)
Definition only (p : event -> bool) {A} (m : M A) : Prop :=
  forall h, forallb p (snd (m h)) = true.

(** The text is made of white space only. *)
Definition blank (s : str) : bool := forallb isspace s.

(** The characters that the JSON encoder writes as they are. *)
Definition plain (s : str) : bool :=
  forallb
    (fun c => (32 <=? c)%N && (c <=? 126)%N && negb (c =? 34)%N
              && negb (c =? 92)%N) s.

(** The statements of the introspection: SHOW TABLES and the DESCRIBE of
    a table. *)
Definition introspection_statement (operation : value) : bool :=
  match operation with
  | PyStr s => Text.eqb s (lit "SHOW TABLES") || startswith s (lit "DESCRIBE ")
  | _ => false
  end.

(** The event is neither a commit, nor a call to the model, nor the
    execution of a statement other than those of the introspection. *)
Definition reads_catalogue (ev : event) : bool :=
  match ev with
  | Called (cursor_execute _ operation) _ => introspection_statement operation
  | Called (conn_commit _) _ => false
  | Called (generate_content _ _) _ => false
  | _ => true
  end.

(** The record that [query] hands to the logger when it caught [e]. *)
Definition query_failed (e : exn) : event :=
  Logged error_level
    ((if is_mysql_error e
      then lit "Error executing SQL query: "
      else lit "An unexpected error occurred during query: ") ++ exn_msg e).

(** The sentence of [build_answer] for a result that carries an error. *)
Definition database_failure (env : Env) (e : value) : str :=
  lit "Lo siento, hubo un error al consultar la base de datos: "
  ++ format env e.

(** The text of the answer, from the outcome of the call to the
    summarising model. *)
Definition final_answer (reply : outcome str) : str :=
  match reply with
  | Ok [] => lit "Falló la generación de la respuesta"
  | Ok text => text
  | Raise e => apology e
  end.

End Notions.

#[global] Arguments Text.lit : simpl never.
#[global] Arguments Text.upper_cp : simpl never.
#[global] Arguments Main.is_select_text : simpl never.
#[global] Arguments Py.json_dumps : simpl never.
#[global] Arguments Main.translation_prompt : simpl never.
#[global] Arguments Main.summary_prompt : simpl never.
#[global] Arguments Run.count : simpl never.
#[global] Arguments Run.opened_conns : simpl never.
#[global] Arguments Run.closed_conns : simpl never.
#[global] Arguments Run.raised : simpl never.
#[global] Arguments Run.path_taken : simpl never.
#[global] Arguments Run.executed_one : simpl never.
#[global] Arguments Run.executed_operations : simpl never.
#[global] Arguments Run.fetched_rows : simpl never.

(* ===================================================================== *)
(** * Facts about texts *)
(* ===================================================================== *)

Module TextFacts.
Import Text Main Notions.

Lemma eqb_eq (a b : str) : Text.eqb a b = true <-> a = b.
Proof.
  revert b; induction a as [|x a IH]; intros [|y b]; simpl;
    try (split; [discriminate | discriminate]); try tauto.
  rewrite andb_true_iff, N.eqb_eq, IH.
  split; [intros [-> ->]; reflexivity | intros E; inversion E; auto].
Qed.

Lemma eqb_refl (a : str) : Text.eqb a a = true.
Proof. apply eqb_eq; reflexivity. Qed.

Lemma startswith_app (p r : str) : startswith (p ++ r) p = true.
Proof.
  induction p as [|y p IH]; simpl; [reflexivity|].
  rewrite N.eqb_refl; exact IH.
Qed.

Lemma contains_here (needle hay : str) :
  startswith hay needle = true -> contains needle hay = true.
Proof. destruct hay; simpl; intros ->; reflexivity. Qed.

(** A text occurs in every text that ends with it. *)
Lemma contains_app_r (p m : str) : contains m (p ++ m) = true.
Proof.
  induction p as [|x p IH]; simpl.
  - apply contains_here. rewrite <- (app_nil_r m) at 1. apply startswith_app.
  - rewrite IH. apply orb_true_r.
Qed.

(** ** The uppercase table and the letters of SELECT *)

Lemma clash_startswith (u p tail : str) :
  clash u p = true -> startswith (u ++ tail) p = false.
Proof.
  revert p; induction u as [|x u IH]; intros [|y p]; simpl; try discriminate.
  destruct (x =? y)%N; simpl; [apply IH | reflexivity].
Qed.

Lemma lookup_upper_sound (chk : N * list N -> bool) (c : N) (u : list N)
      (t : list (N * list N)) :
  forallb chk t = true -> lookup_upper c t = Some u -> chk (c, u) = true.
Proof.
  induction t as [|[k v] t IH]; simpl; [discriminate|].
  rewrite andb_true_iff; intros [Hk Ht].
  destruct (c =? k)%N eqn:E.
  - apply N.eqb_eq in E; subst k. intros H; inversion H; subst; exact Hk.
  - apply IH; exact Ht.
Qed.

Lemma one_of_eq (forms : list N) (c : N) :
  one_of forms c = true -> exists f, In f forms /\ c = f.
Proof.
  unfold one_of; rewrite existsb_exists.
  intros [f [Hin E]]; apply N.eqb_eq in E; eauto.
Qed.

Lemma upper_step (forms : list N) (X : N) (P : str) :
  forallb (entry_ok forms X P) upper_table = true ->
  forallb (fun f => (f =? X)%N || has_entry f) forms = true ->
  one_of forms X = true ->
  forall (c : N) (tail : str),
    startswith (upper_cp c ++ tail) (X :: P)
    = one_of forms c && startswith tail P.
Proof.
  intros Htable Hforms HX c tail.
  unfold upper_cp.
  destruct (lookup_upper c upper_table) as [u|] eqn:L.
  - pose proof (lookup_upper_sound _ _ _ _ Htable L) as Hc.
    unfold entry_ok in Hc.
    destruct (one_of forms c).
    + destruct u as [|x extra]; [discriminate|].
      apply andb_true_iff in Hc; destruct Hc as [Hx Hextra].
      simpl. rewrite Hx. simpl.
      destruct extra as [|y extra]; [reflexivity|].
      destruct P; [reflexivity | discriminate].
    + rewrite (clash_startswith _ _ tail Hc). reflexivity.
  - simpl. destruct (c =? X)%N eqn:E.
    + apply N.eqb_eq in E; subst c. rewrite HX. reflexivity.
    + destruct (one_of forms c) eqn:O; [|reflexivity].
      exfalso. apply one_of_eq in O. destruct O as [f [Hin ->]].
      rewrite forallb_forall in Hforms. specialize (Hforms f Hin).
      rewrite E in Hforms. unfold has_entry in Hforms. rewrite L in Hforms.
      discriminate.
Qed.

Ltac table_step :=
  intros; apply upper_step; vm_compute; reflexivity.

Lemma step_S c tail :
  startswith (upper_cp c ++ tail) [0x53; 0x45; 0x4C; 0x45; 0x43; 0x54]%N
  = one_of forms_of_S c && startswith tail [0x45; 0x4C; 0x45; 0x43; 0x54]%N.
Proof. table_step. Qed.

Lemma step_E1 c tail :
  startswith (upper_cp c ++ tail) [0x45; 0x4C; 0x45; 0x43; 0x54]%N
  = one_of forms_of_E c && startswith tail [0x4C; 0x45; 0x43; 0x54]%N.
Proof. table_step. Qed.

Lemma step_L c tail :
  startswith (upper_cp c ++ tail) [0x4C; 0x45; 0x43; 0x54]%N
  = one_of forms_of_L c && startswith tail [0x45; 0x43; 0x54]%N.
Proof. table_step. Qed.

Lemma step_E2 c tail :
  startswith (upper_cp c ++ tail) [0x45; 0x43; 0x54]%N
  = one_of forms_of_E c && startswith tail [0x43; 0x54]%N.
Proof. table_step. Qed.

Lemma step_C c tail :
  startswith (upper_cp c ++ tail) [0x43; 0x54]%N
  = one_of forms_of_C c && startswith tail [0x54]%N.
Proof. table_step. Qed.

Lemma step_T c tail :
  startswith (upper_cp c ++ tail) [0x54]%N
  = one_of forms_of_T c && startswith tail [].
Proof. table_step. Qed.

(** The test of the executor, in terms of the characters of the
    statement: once the white space around it is removed, its first six
    characters are forms of S, E, L, E, C and T. *)
Lemma is_select_text_spells (s : str) :
  is_select_text s = spells_select (strip s).
Proof.
  unfold is_select_text, upper.
  change (lit "SELECT") with [0x53; 0x45; 0x4C; 0x45; 0x43; 0x54]%N.
  destruct (strip s) as [|c1 [|c2 [|c3 [|c4 [|c5 [|c6 t]]]]]];
    cbn [flat_map spells_select];
    rewrite ?step_S, ?step_E1, ?step_L, ?step_E2, ?step_C, ?step_T;
    cbn [startswith]; rewrite ?andb_false_r, ?andb_true_r, ?andb_assoc;
    reflexivity.
Qed.

End TextFacts.

(* ===================================================================== *)
(** * Facts about runs *)
(* ===================================================================== *)

Module RunFacts.
Import Text Py Run Main Notions.

(** ** Events of a given kind only *)

Lemma only_ret p A (a : A) : only p (ret a).
Proof. intros h; reflexivity. Qed.

Lemma only_raise p A e : only p (@raise A e).
Proof. intros h; reflexivity. Qed.

Lemma only_lift p A (o : outcome A) : only p (lift o).
Proof. intros h; reflexivity. Qed.

Lemma only_logger p l m : p (Logged l m) = true -> only p (logger l m).
Proof. intros H h; simpl; rewrite H; reflexivity. Qed.

Lemma only_call p env c :
  (forall r, p (Called c r) = true) -> only p (call env c).
Proof. intros H h; simpl; rewrite H; reflexivity. Qed.

Lemma only_bind p A B (m : M A) (f : A -> M B) :
  only p m -> (forall a, only p (f a)) -> only p (bind m f).
Proof.
  intros Hm Hf h. unfold bind. specialize (Hm h).
  destruct (m h) as [[a|e] ev]; simpl in *; [|exact Hm].
  specialize (Hf a (h ++ ev)).
  destruct (f a (h ++ ev)) as [r ev']; simpl in *.
  rewrite forallb_app, Hm, Hf; reflexivity.
Qed.

Lemma only_try_except p A (m : M A) (f : exn -> M A) :
  only p m -> (forall e, only p (f e)) -> only p (try_except m f).
Proof.
  intros Hm Hf h. unfold try_except. specialize (Hm h).
  destruct (m h) as [[a|e] ev]; simpl in *; [exact Hm|].
  specialize (Hf e (h ++ ev)).
  destruct (f e (h ++ ev)) as [r ev']; simpl in *.
  rewrite forallb_app, Hm, Hf; reflexivity.
Qed.

Lemma only_for_each p A S (body : A -> S -> M S) xs :
  (forall x s, only p (body x s)) -> forall s, only p (for_each xs body s).
Proof.
  intros Hb. induction xs as [|x xs IH]; intros s; simpl.
  - apply only_ret.
  - apply only_bind; [apply Hb | exact IH].
Qed.

Ltac only_step :=
  first [ apply only_ret | apply only_raise | apply only_lift
        | apply only_logger; reflexivity
        | apply only_call; intros; reflexivity
        | apply only_for_each; intros
        | apply only_bind; [|intros]
        | apply only_try_except; [|intros] ].

(** ** Counting events *)

Lemma count_cons p ev evs :
  count p (ev :: evs) = (if p ev then 1 else 0) + count p evs.
Proof. unfold count; simpl; destruct (p ev); reflexivity. Qed.

Lemma count_app p a b : count p (a ++ b) = count p a + count p b.
Proof. unfold count. rewrite filter_app, length_app. reflexivity. Qed.

Lemma opened_conns_cons ev evs :
  opened_conns (ev :: evs) = opening ev ++ opened_conns evs.
Proof. reflexivity. Qed.

Lemma opened_conns_app a b :
  opened_conns (a ++ b) = opened_conns a ++ opened_conns b.
Proof. apply flat_map_app. Qed.

Lemma closed_conns_cons ev evs :
  closed_conns (ev :: evs) = closing ev ++ closed_conns evs.
Proof. reflexivity. Qed.

Lemma closed_conns_app a b :
  closed_conns (a ++ b) = closed_conns a ++ closed_conns b.
Proof. apply flat_map_app. Qed.

(** Events that do not concern connections open and close none. *)
Lemma quiet_tally evs :
  forallb (fun ev => negb (on_connection ev)) evs = true ->
  count is_connect evs = 0 /\ opened_conns evs = [] /\ closed_conns evs = [].
Proof.
  induction evs as [|ev evs IH]; cbn [forallb]; [auto|].
  rewrite andb_true_iff; intros [Hev Hevs].
  destruct (IH Hevs) as [H1 [H2 H3]].
  rewrite count_cons, opened_conns_cons, closed_conns_cons, H1, H2, H3.
  destruct ev as [[] [|]|]; simpl in *; try discriminate; auto.
Qed.

(** Comparisons of two literals are evaluated. *)
Ltac literals :=
  repeat match goal with
  | |- context [Text.eqb (lit ?a) (lit ?b)] =>
    let v := eval vm_compute in (Text.eqb (lit a) (lit b)) in
    change (Text.eqb (lit a) (lit b)) with v
  end.

Ltac crunch := cbn; literals; cbn.

(** Case analysis on the outcome of the next call of the run. *)
Ltac next_call :=
  match goal with
  | |- context [respond ?e ?h ?c] =>
    let r := fresh "r" in
    destruct (respond e h c) as [r|r] eqn:?; crunch
  | |- context [is_mysql_error ?e] => destruct (is_mysql_error e); crunch
  end.

Ltac units :=
  cbv [reply] in *;
  repeat match goal with u : unit |- _ => destruct u end.

(** The tally of the events of a list made of known events and of
    stretches without events on connections. *)
Ltac tally :=
  rewrite ?app_nil_r;
  repeat first
    [ rewrite count_cons | rewrite count_app
    | rewrite opened_conns_cons | rewrite opened_conns_app
    | rewrite closed_conns_cons | rewrite closed_conns_app ];
  repeat match goal with
  | H : count is_connect ?l = 0 |- context [count is_connect ?l] => rewrite H
  | H : opened_conns ?l = [] |- context [opened_conns ?l] => rewrite H
  | H : closed_conns ?l = [] |- context [closed_conns ?l] => rewrite H
  end;
  cbn.

End RunFacts.

(* ===================================================================== *)
(** * Facts about the executor *)
(* ===================================================================== *)

Module QueryFacts.
Import Text Py Run Main Samples Notions TextFacts RunFacts.

Ltac unfold_query :=
  unfold query, execute, get_db_connection, try_except, bind, call, lift,
    ret, raise, logger.

(** The executor always returns; when a call raised, it was the last
    call of the run and the result is the error record with its
    message. *)
Lemma query_outcome env sql_query h :
  exists v,
    fst (query env sql_query h) = Ok v
    /\ (raised (snd (query env sql_query h)) = []
        \/ exists e,
             raised (snd (query env sql_query h)) = [e]
             /\ v = error_record (exn_msg e)).
Proof.
  unfold_query.
  destruct (is_select sql_query) as [[|]|] eqn:S; crunch;
    repeat next_call;
    (eexists; split; [reflexivity|]; unfold raised; cbn [flat_map app];
     first [left; reflexivity | right; eexists; split; reflexivity]).
Qed.

(** C7. The executor never raises: for every statement, whatever the
    database driver does, [query] returns a value; if a call to the
    driver raised, whether a [mysql.connector.Error] or any other
    exception, that exception is the only one of the run and the value
    returned is [{"error": str(e)}]. *)
Theorem query_never_raises (env : Env) (sql_query : value)
        (h : list event) :
  exists v,
    fst (query env sql_query h) = Ok v
    /\ (raised (snd (query env sql_query h)) = []
        \/ exists e,
             raised (snd (query env sql_query h)) = [e]
             /\ v = error_record (exn_msg e)).
Proof. exact (query_outcome env sql_query h). Qed.

Lemma query_connection env sql_query h :
  let (r, evs) := query env sql_query h in
  count is_connect evs = 1
  /\ match r with
     | Ok v => if carries_error v then closed_conns evs = [] else released evs
     | Raise _ => False
     end.
Proof.
  unfold_query. crunch.
  destruct (is_select sql_query) as [[|]|] eqn:S; crunch;
    repeat next_call; units; (split; [reflexivity|]);
    try reflexivity; unfold released; tally; eauto.
Qed.

(** The path of a run is decided by the text alone once the statement is
    executed, and a run in which no [execute] returned takes no path.  A
    run that does not end in an error record consists of connect, cursor,
    execute, then [fetchall] with the fetched rows as the result on the
    read path, or [commit] with the fixed acknowledgement as the result
    on the write path, then the two closes. *)
Lemma query_path_if_executed (env : Env) (s : str) (h : list event) :
  let (r, evs) := query env (PyStr s) h in
  path_taken evs
  = (if executed_one evs
     then Some (if spells_select (strip s) then ReadPath else WritePath)
     else None)
  /\ match r with
     | Ok v =>
       if carries_error v then True
       else if spells_select (strip s) then read_run (PyStr s) evs v
            else write_run (PyStr s) evs v
     | Raise _ => False
     end.
Proof.
  rewrite <- is_select_text_spells.
  unfold_query. crunch.
  destruct (is_select_text s) eqn:S; crunch;
    repeat next_call; units; (split; [try reflexivity | try exact I]).
  all: try (unfold read_run; eauto 10).
  all: try (unfold write_run; eauto 10).
Qed.

(** C6.  The executor routes a statement by its first characters.  For
    every text [s], after any history, when the driver hands out a
    connection [c] and a cursor [k] and executes [s]: if [s], with the
    white space around it removed, starts with SELECT in capitals or
    not, the run takes the read path, it calls [fetchall] and never
    [commit]; for every other text it takes the write path, it calls
    [commit] and never [fetchall].  [query] returns, and when no call of
    the run raised, the run is connect, cursor, execute, then [fetchall]
    with the fetched rows as the result on the read path, or [commit]
    with the fixed acknowledgement as the result on the write path, then
    the two closes. *)
Theorem query_routes_by_prefix (env : Env) (s : str) (h : list event)
        (c : conn) (k : cursor) :
  respond env h mysql_connect = Ok c ->
  respond env (h ++ [Called mysql_connect (Ok c)]) (conn_cursor c) = Ok k ->
  respond env
    (h ++ [Called mysql_connect (Ok c); Called (conn_cursor c) (Ok k)])
    (cursor_execute k (PyStr s)) = Ok tt ->
  path_taken (snd (query env (PyStr s) h))
  = Some (if spells_select (strip s) then ReadPath else WritePath)
  /\ (if spells_select (strip s)
      then count is_commit (snd (query env (PyStr s) h)) = 0
      else count is_fetchall (snd (query env (PyStr s) h)) = 0)
  /\ exists v,
       fst (query env (PyStr s) h) = Ok v
       /\ (raised (snd (query env (PyStr s) h)) = [] ->
           if spells_select (strip s)
           then read_run (PyStr s) (snd (query env (PyStr s) h)) v
           else write_run (PyStr s) (snd (query env (PyStr s) h)) v).
Proof.
  intros H1 H2 H3.
  rewrite <- is_select_text_spells.
  unfold_query. rewrite H1. crunch. rewrite ?app_nil_r.
  cbn in H2. rewrite H2. crunch.
  rewrite <- ?app_assoc. cbn [app]. cbn in H3. rewrite H3. crunch.
  destruct (is_select_text s) eqn:S; crunch;
    repeat next_call; units.
  all: (split; [reflexivity|]; split; [reflexivity|]).
  all: eexists; (split; [reflexivity|]).
  all: unfold raised; cbn [flat_map app]; intros R; try discriminate R.
  all: first [ solve [unfold read_run; eauto 10]
             | solve [unfold write_run; eauto 10] ].
Qed.

Lemma query_routes_by_prefix_witness :
  respond (env_of shop) [] mysql_connect = Ok 7%N
  /\ respond (env_of shop) ([] ++ [Called mysql_connect (Ok 7%N)])
       (conn_cursor 7%N) = Ok 1%N
  /\ respond (env_of shop)
       ([] ++ [Called mysql_connect (Ok 7%N);
               Called (conn_cursor 7%N) (Ok 1%N)])
       (cursor_execute 1%N (PyStr (lit "  select nombre from clientes")))
     = Ok tt
  /\ path_taken
       (snd (query (env_of shop)
               (PyStr (lit "  select nombre from clientes")) []))
     = Some ReadPath.
Proof.
  assert (H1 : respond (env_of shop) [] mysql_connect = Ok 7%N)
    by reflexivity.
  assert (H2 : respond (env_of shop) ([] ++ [Called mysql_connect (Ok 7%N)])
                 (conn_cursor 7%N) = Ok 1%N) by reflexivity.
  assert (H3 : respond (env_of shop)
                 ([] ++ [Called mysql_connect (Ok 7%N);
                         Called (conn_cursor 7%N) (Ok 1%N)])
                 (cursor_execute 1%N
                    (PyStr (lit "  select nombre from clientes")))
               = Ok tt) by (vm_compute; reflexivity).
  split; [exact H1|]. split; [exact H2|]. split; [exact H3|].
  pose proof (proj1 (query_routes_by_prefix (env_of shop)
                (lit "  select nombre from clientes") [] 7%N 1%N H1 H2 H3))
    as P.
  replace (spells_select (strip (lit "  select nombre from clientes")))
    with true in P by (vm_compute; reflexivity).
  exact P.
Defined.

End QueryFacts.

(* ===================================================================== *)
(** * Facts about the schema introspection *)
(* ===================================================================== *)

Module SchemaFacts.
Import Text Py Run Main Notions TextFacts RunFacts.

(** The loop over the tables works on the cursor only. *)
Lemma loop_quiet env k tables s :
  only (fun ev => negb (on_connection ev))
       (for_each tables (add_table env k) s).
Proof.
  apply only_for_each; intros. unfold add_table, add_column.
  repeat only_step.
Qed.

(** The introspection does not call the model. *)
Lemma get_schema_no_model env :
  only (fun ev => negb (is_generate ev)) (get_schema env).
Proof.
  unfold get_schema, introspect, get_db_connection, add_table, add_column.
  repeat only_step.
  all: try (destruct (is_mysql_error _); repeat only_step).
  all: try (match goal with a : sum _ _ |- _ => destruct a end;
            repeat only_step).
Qed.

Lemma no_generate_count evs :
  forallb (fun ev => negb (is_generate ev)) evs = true ->
  count is_generate evs = 0.
Proof.
  induction evs as [|ev evs IH]; cbn [forallb]; [reflexivity|].
  rewrite andb_true_iff; intros [Hev Hevs].
  rewrite count_cons, (IH Hevs).
  destruct (is_generate ev); [discriminate | reflexivity].
Qed.

Ltac unfold_schema :=
  unfold get_schema, introspect, get_db_connection, try_except, bind, call,
    lift, ret, raise, logger.

(** Case analysis on the outcome of the loop over the tables. *)
Ltac loop_call env :=
  match goal with
  | |- context [for_each ?t (add_table env ?k) ?s ?h'] =>
    let Q := fresh "Q" in
    pose proof (quiet_tally _ (loop_quiet env k t s h')) as Q;
    let d := fresh "d" in let e := fresh "e" in let evl := fresh "evl" in
    destruct (for_each t (add_table env k) s h') as [[d|e] evl];
    cbn [snd] in Q; destruct Q as [? [? ?]]; crunch
  end.

Lemma get_schema_connection env h :
  let (r, evs) := get_schema env h in
  count is_connect evs = 1
  /\ match r with
     | Ok v => if carries_error v then closed_conns evs = [] else released evs
     | Raise _ => released evs
     end.
Proof.
  unfold_schema. crunch.
  do 4 (next_call; [| repeat next_call; split; reflexivity]).
  loop_call env.
  2:{ split; tally; reflexivity. }
  do 2 (next_call; [| split; tally; reflexivity]).
  units.
  destruct (json_dumps (PyDict d)); crunch.
  all: split; [tally; reflexivity | unfold released; tally; eauto].
Qed.

(** What [get_schema] hands back: the JSON text of [schema_info] when the
    [try] block ran to its end, the error record otherwise; it raises
    when [schema_info] cannot be serialised. *)
Lemma get_schema_result env h :
  match fst (get_schema env h) with
  | Ok v =>
    (exists schema_info,
        fst (introspect env h) = Ok schema_info
        /\ json_dumps (PyDict schema_info) = Ok (match v with
                                                 | PyStr text => text
                                                 | _ => []
                                                 end)
        /\ exists text, v = PyStr text)
    \/ (exists e, fst (introspect env h) = Raise e
                  /\ v = error_record (exn_msg e))
  | Raise e =>
    exists schema_info,
      fst (introspect env h) = Ok schema_info
      /\ json_dumps (PyDict schema_info) = Raise e
  end.
Proof.
  unfold get_schema, bind, try_except, lift, ret, logger.
  destruct (introspect env h) as [[d|e] ev]; cbn.
  - destruct (json_dumps (PyDict d)) eqn:J; cbn; eauto 10.
  - eauto.
Qed.

End SchemaFacts.

(* ===================================================================== *)
(** * Facts about the pipeline *)
(* ===================================================================== *)

Module PipelineFacts.
Import Text Py Run Main Notions TextFacts RunFacts QueryFacts SchemaFacts.

Lemma let_pair_eta A B (x : A * B) : (let (a, b) := x in (a, b)) = x.
Proof. destruct x; reflexivity. Qed.

(** ** The translation *)

Lemma to_sql_schema_error env q h m :
  fst (get_schema env h) = Ok (error_record m) ->
  human_query_to_sql env q h
  = (Ok (no_sql (PyStr m)), snd (get_schema env h)).
Proof.
  unfold human_query_to_sql, bind.
  destruct (get_schema env h) as [r evs]; cbn [fst snd]; intros ->.
  unfold lift; crunch. rewrite app_nil_r. reflexivity.
Qed.

Lemma to_sql_schema_text_error env q h s :
  fst (get_schema env h) = Ok (PyStr s) ->
  contains (lit "error") s = true ->
  human_query_to_sql env q h = (Raise str_index_error, snd (get_schema env h)).
Proof.
  unfold human_query_to_sql, bind.
  destruct (get_schema env h) as [r evs]; cbn [fst snd]; intros -> C.
  unfold lift, str_index_error; cbn. rewrite C. cbn. rewrite app_nil_r.
  reflexivity.
Qed.

Lemma to_sql_translate env q h s :
  fst (get_schema env h) = Ok (PyStr s) ->
  contains (lit "error") s = false ->
  human_query_to_sql env q h
  = let evs := snd (get_schema env h) in
    let c := translation_request (translation_prompt s) q in
    match respond env (h ++ evs) c with
    | Ok t =>
      match json_loads env (strip_fences t) with
      | Ok v => (Ok v, evs ++ [Called c (Ok t)])
      | Raise e =>
        (Ok (no_sql (PyStr (exn_msg e))),
         evs ++ [Called c (Ok t); translation_failed e])
      end
    | Raise e =>
      (Ok (no_sql (PyStr (exn_msg e))),
       evs ++ [Called c (Raise e); translation_failed e])
    end.
Proof.
  unfold human_query_to_sql, bind.
  destruct (get_schema env h) as [r evs]; cbn [fst snd]; intros -> C.
  unfold lift at 1; cbn. rewrite C. cbn.
  unfold try_except, translate, bind, call, lift, logger, ret,
    translation_failed. cbn.
  rewrite !app_nil_r.
  destruct (respond env (h ++ evs) _) as [t|e]; cbn.
  - destruct (json_loads env (strip_fences t)); cbn; rewrite ?app_nil_r;
      reflexivity.
  - reflexivity.
Qed.


(** ** The summary *)

Lemma carries_error_getitem result :
  carries_error result = true ->
  exists e, getitem_str result (lit "error") = Ok e.
Proof.
  destruct result; try discriminate. cbn.
  destruct (dict_lookup _ _); [eauto | discriminate].
Qed.

Lemma build_answer_eq env result question h :
  build_answer env result question h
  = if carries_error result
    then match getitem_str result (lit "error") with
         | Ok e =>
           (Ok (lit "Lo siento, hubo un error al consultar la base de datos: "
                ++ format env e), [])
         | Raise e => (Raise e, [])
         end
    else match json_dumps result with
         | Raise e => (Raise e, [])
         | Ok dumped =>
           let c :=
             summary_request (summary_prompt (format env question) dumped) in
           match respond env h c with
           | Ok text => (Ok text, [Called c (Ok text)])
           | Raise e =>
             (Ok (apology e), [Called c (Raise e); summary_failed e])
           end
         end.
Proof.
  unfold build_answer.
  destruct (carries_error result).
  - unfold bind, lift, ret. destruct (getitem_str _ _); reflexivity.
  - unfold bind, lift, try_except, call, logger, ret.
    destruct (json_dumps result); [|reflexivity].
    rewrite app_nil_r. cbn [app]. unfold apology, summary_failed.
    destruct (respond env h _); reflexivity.
Qed.

(** ** The handler *)

Lemma endpoint_eq env q h :
  human_query_endpoint env q h
  = let (r, evs) := human_query_to_sql env q h in
    match r with
    | Raise e => (Raise e, evs)
    | Ok v =>
      match getitem_str v (lit "sql_query") with
      | Raise e => (Raise e, evs)
      | Ok sql =>
        if is_none sql
        then match get_str v (lit "error")
                     (PyStr (lit "Error desconocido")) with
             | Ok e => (Ok (translation_failure (format env e)), evs)
             | Raise e => (Raise e, evs)
             end
        else match get_str v (lit "original_query") (PyStr q) with
             | Raise e => (Raise e, evs)
             | Ok original =>
               let evs1 := evs ++ [generated_sql env sql] in
               let (r2, evs2) := query env sql (h ++ evs1) in
               match r2 with
               | Raise e => (Raise e, evs1 ++ evs2)
               | Ok result =>
                 let (r3, evs3) :=
                   after_query env (h ++ evs1 ++ evs2) result original in
                 (r3, evs1 ++ evs2 ++ evs3)
               end
             end
      end
    end.
Proof.
  unfold human_query_endpoint, bind at 1.
  destruct (human_query_to_sql env q h) as [[v|e] evs]; [|reflexivity].
  unfold bind at 1, lift at 1.
  destruct (getitem_str v (lit "sql_query")) as [sql|e] eqn:G;
    [|rewrite app_nil_r; reflexivity].
  destruct (is_none sql).
  - unfold bind, lift, ret, translation_failure.
    destruct (get_str v (lit "error") _); rewrite ?app_nil_r; reflexivity.
  - unfold bind at 1, lift at 1. cbn [app]. rewrite !let_pair_eta.
    unfold bind at 1, lift at 1. rewrite !app_nil_r.
    destruct (get_str v (lit "original_query") _) as [original|e];
      [|rewrite ?app_nil_r; reflexivity].
    unfold bind at 1, logger at 1. unfold bind at 1.
    cbn [app]. fold (generated_sql env sql).
    rewrite <- (app_assoc h evs).
    destruct (query env sql _) as [[result|e] evs2].
    2:{ rewrite <- app_assoc. reflexivity. }
    unfold after_query, execution_failure.
    rewrite <- !(app_assoc h). rewrite <- !(app_assoc evs).
    destruct (carries_error result).
    + unfold bind, lift, ret.
      destruct (getitem_str result (lit "error"));
        rewrite ?app_nil_r, <- ?app_assoc; reflexivity.
    + unfold bind, ret.
      destruct (build_answer env result original _) as [[text|e] evs3];
        rewrite ?app_nil_r, <- ?app_assoc; reflexivity.
Qed.

End PipelineFacts.

(* ===================================================================== *)
(** * The properties of the service *)
(* ===================================================================== *)

Module Properties.
Import Text Py Run Main Samples Notions TextFacts RunFacts QueryFacts.
Import SchemaFacts PipelineFacts.

(** X16.  Each database operation, [get_schema] and [query],
    attempts exactly one connection.  When the operation does not end
    with an error record, one connection was opened and it was closed
    before the operation returned.  When it ends with an error record, no
    close of a connection returned: [conn.close()] is the last statement
    of the [try] block and there is no [finally], so a connection that
    was opened before the failure stays open. *)
Theorem connection_scope (env : Env) (sql_query : value) (h : list event) :
  (let (r, evs) := get_schema env h in
   count is_connect evs = 1
   /\ match r with
      | Ok v =>
        if carries_error v then closed_conns evs = [] else released evs
      | Raise _ => released evs
      end)
  /\ (let (r, evs) := query env sql_query h in
      count is_connect evs = 1
      /\ match r with
         | Ok v =>
           if carries_error v then closed_conns evs = [] else released evs
         | Raise _ => False
         end).
Proof.
  split; [apply get_schema_connection | apply query_connection].
Qed.

(** C2.  The connection is not closed on the error exit path.  [query]
    on a statement that the database refuses, here the count of the
    clients with the table missing, returns the error record of the
    refusal with the connection 7 opened and no connection closed:
    [cursor.close()] and [conn.close()] are the last statements of the
    [try] block, which the exception of [execute] leaves, and the
    function has no [finally].  On the success path the same function
    closes both. *)
Theorem connection_left_open :
  let (r, evs) := query (env_of refusing) (PyStr count_clients) [] in
  r = Ok (error_record (exn_msg no_such_table))
  /\ opened_conns evs = [7%N] /\ closed_conns evs = [] /\ ~ released evs.
Proof.
  vm_compute. repeat split.
  intros [c [_ H]]. discriminate H.
Qed.

(** X18.  For every query result that carries an error or that
    [json.dumps] can serialise, and for every question, [build_answer]
    returns a string.  A failure of the call to the model is caught: the
    exception it raised is the only one of the run, and the string
    returned is the Spanish apology followed by its message. *)
Theorem build_answer_returns_text (env : Env) (result question : value)
        (h : list event) :
  carries_error result || serializable result = true ->
  exists text,
    fst (build_answer env result question h) = Ok text
    /\ (raised (snd (build_answer env result question h)) = []
        \/ exists e,
             raised (snd (build_answer env result question h)) = [e]
             /\ text = lit "Lo siento, no pude generar una respuesta. Error: "
                       ++ exn_msg e).
Proof.
  rewrite build_answer_eq. intros H.
  destruct (carries_error result) eqn:C.
  - destruct (carries_error_getitem _ C) as [e ->]. cbn [fst snd].
    eexists; split; [reflexivity | left; reflexivity].
  - cbn in H. unfold serializable in H.
    destruct (json_dumps result); [|discriminate]. cbn zeta.
    destruct (respond env h _); cbn [fst snd];
      (eexists; split; [reflexivity|]); unfold raised; cbn [flat_map app].
    + left; reflexivity.
    + right; eexists; split; reflexivity.
Qed.

Lemma build_answer_returns_text_witness :
  carries_error (PyList (map PyDict (selected shop)))
  || serializable (PyList (map PyDict (selected shop))) = true
  /\ exists text,
       fst (build_answer (env_of speechless)
              (PyList (map PyDict (selected shop))) (PyStr how_many_clients)
              []) = Ok text
       /\ (raised (snd (build_answer (env_of speechless)
                          (PyList (map PyDict (selected shop)))
                          (PyStr how_many_clients) [])) = []
           \/ exists e,
                raised (snd (build_answer (env_of speechless)
                               (PyList (map PyDict (selected shop)))
                               (PyStr how_many_clients) [])) = [e]
                /\ text
                   = lit "Lo siento, no pude generar una respuesta. Error: "
                     ++ exn_msg e).
Proof.
  assert (H : carries_error (PyList (map PyDict (selected shop)))
              || serializable (PyList (map PyDict (selected shop))) = true)
    by (vm_compute; reflexivity).
  split; [exact H|].
  exact (build_answer_returns_text (env_of speechless) _
           (PyStr how_many_clients) [] H).
Defined.

(** C3.  [build_answer] raises on rows with a DATETIME cell, as the
    driver returns them: the prompt, with [json.dumps(result, indent=2)]
    in it, is built before the [try] block, so the [TypeError] of the
    serialisation leaves the function before the model is called and no
    string is returned. *)
Theorem build_answer_raises_on_a_date :
  build_answer (env_of shop) (PyList (map PyDict dated_rows))
    (PyStr how_many_clients) []
  = (Raise (Exn TypeError
              (lit "Object of type datetime is not JSON serializable")), []).
Proof. vm_compute. reflexivity. Qed.

(** C4.  For every question, when [get_schema] returns the error record
    [{"error": m}], [human_query_to_sql] returns
    [{"sql_query": None, "error": m}] with no event beyond those of the
    introspection, none of which is a call to the model, and the handler
    answers with a text that contains [m]. *)
Theorem schema_failure_short_circuits (env : Env) (q : str)
        (h : list event) (m : str) :
  fst (get_schema env h) = Ok (error_record m) ->
  human_query_to_sql env q h
  = (Ok (no_sql (PyStr m)), snd (get_schema env h))
  /\ count is_generate (snd (human_query_to_sql env q h)) = 0
  /\ human_query_endpoint env q h
     = (Ok (translation_failure m), snd (get_schema env h))
  /\ contains m (lit "Falló la generación de la consulta SQL: " ++ m) = true.
Proof.
  intros H. pose proof (to_sql_schema_error env q h m H) as E.
  split; [exact E|]. split; [|split].
  - rewrite E. cbn [snd]. apply no_generate_count, get_schema_no_model.
  - rewrite endpoint_eq, E. crunch. reflexivity.
  - apply contains_app_r.
Qed.

Lemma schema_failure_short_circuits_witness :
  fst (get_schema (env_of no_database) [])
  = Ok (error_record (exn_msg connection_refused))
  /\ human_query_endpoint (env_of no_database) how_many_clients []
     = (Ok (translation_failure (exn_msg connection_refused)),
        snd (get_schema (env_of no_database) [])).
Proof.
  assert (H : fst (get_schema (env_of no_database) [])
              = Ok (error_record (exn_msg connection_refused)))
    by (vm_compute; reflexivity).
  split; [exact H|].
  exact (proj1 (proj2 (proj2
           (schema_failure_short_circuits (env_of no_database)
              how_many_clients [] _ H)))).
Defined.

(** C5.  When the schema was read, the model replied to the translation
    request and [json.loads] raises [e] on the reply with its fences
    stripped, [human_query_to_sql] returns
    [{"sql_query": None, "error": str(e)}] and the handler answers with
    the translation-failure message; after the introspection the run
    consists of the call to the model and of a log record, and of no call
    to the database. *)
Theorem unparsable_reply_ends_the_request (env : Env) (q : str)
        (h : list event) (schema reply : str) (e : exn) :
  fst (get_schema env h) = Ok (PyStr schema) ->
  contains (lit "error") schema = false ->
  respond env (h ++ snd (get_schema env h))
    (translation_request (translation_prompt schema) q) = Ok reply ->
  json_loads env (strip_fences reply) = Raise e ->
  let after_schema :=
    [Called (translation_request (translation_prompt schema) q) (Ok reply);
     translation_failed e] in
  human_query_to_sql env q h
  = (Ok (no_sql (PyStr (exn_msg e))), snd (get_schema env h) ++ after_schema)
  /\ human_query_endpoint env q h
     = (Ok (translation_failure (exn_msg e)),
        snd (get_schema env h) ++ after_schema)
  /\ count is_database_call after_schema = 0.
Proof.
  intros S C R J after_schema.
  assert (E : human_query_to_sql env q h
              = (Ok (no_sql (PyStr (exn_msg e))),
                 snd (get_schema env h) ++ after_schema)).
  { rewrite (to_sql_translate env q h schema S C). cbn zeta.
    rewrite R, J. reflexivity. }
  split; [exact E|]. split; [|reflexivity].
  rewrite endpoint_eq, E. crunch. reflexivity.
Qed.

Lemma unparsable_reply_ends_the_request_witness :
  contains (lit "error") (schema_text chatty) = false
  /\ json_loads (env_of chatty) (strip_fences (translation_text chatty))
     = Raise (Exn ValueError
                (lit "Expecting value: line 1 column 1 (char 0)"))
  /\ fst (human_query_endpoint (env_of chatty) how_many_clients [])
     = Ok (translation_failure
             (lit "Expecting value: line 1 column 1 (char 0)")).
Proof.
  assert (S : fst (get_schema (env_of chatty) [])
              = Ok (PyStr (schema_text chatty)))
    by (vm_compute; reflexivity).
  assert (C : contains (lit "error") (schema_text chatty) = false)
    by (vm_compute; reflexivity).
  assert (R : respond (env_of chatty)
                ([] ++ snd (get_schema (env_of chatty) []))
                (translation_request
                   (translation_prompt (schema_text chatty))
                   how_many_clients)
              = Ok (translation_text chatty))
    by (vm_compute; reflexivity).
  assert (J : json_loads (env_of chatty)
                (strip_fences (translation_text chatty))
              = Raise (Exn ValueError
                         (lit "Expecting value: line 1 column 1 (char 0)")))
    by (vm_compute; reflexivity).
  split; [exact C|]. split; [exact J|].
  pose proof (unparsable_reply_ends_the_request (env_of chatty)
                how_many_clients [] _ _ _ S C R J) as [_ [E _]].
  rewrite E. reflexivity.
Defined.

(** C8.  When [get_schema] succeeds it returns the JSON text of the
    schema, a [str]; the test ["error" in database_schema] is then a
    substring search.  For every such text that contains [error], the
    subscript [database_schema["error"]] raises a [TypeError] that
    leaves [human_query_to_sql] and the handler, and the model is never
    called. *)
Theorem schema_text_with_error_raises (env : Env) (q : str)
        (h : list event) (schema : str) :
  fst (get_schema env h) = Ok (PyStr schema) ->
  contains (lit "error") schema = true ->
  (exists schema_info,
     fst (introspect env h) = Ok schema_info
     /\ json_dumps (PyDict schema_info) = Ok schema)
  /\ contains_str (lit "error") (PyStr schema) = Ok true
  /\ human_query_to_sql env q h
     = (Raise str_index_error, snd (get_schema env h))
  /\ human_query_endpoint env q h
     = (Raise str_index_error, snd (get_schema env h))
  /\ count is_generate (snd (get_schema env h)) = 0.
Proof.
  intros S C.
  pose proof (to_sql_schema_text_error env q h schema S C) as E.
  split; [|split; [|split; [exact E|split]]].
  - pose proof (get_schema_result env h) as R. rewrite S in R.
    destruct R as [[d [I [J _]]] | [e [_ R]]]; [eauto | discriminate].
  - cbn. rewrite C. reflexivity.
  - rewrite endpoint_eq, E. reflexivity.
  - apply no_generate_count, get_schema_no_model.
Qed.

Lemma schema_text_with_error_raises_witness :
  fst (get_schema (env_of audited) []) = Ok (PyStr (schema_text audited))
  /\ contains (lit "error") (schema_text audited) = true
  /\ fst (human_query_endpoint (env_of audited) how_many_clients [])
     = Raise str_index_error.
Proof.
  assert (S : fst (get_schema (env_of audited) [])
              = Ok (PyStr (schema_text audited)))
    by (vm_compute; reflexivity).
  assert (C : contains (lit "error") (schema_text audited) = true)
    by (vm_compute; reflexivity).
  split; [exact S|]. split; [exact C|].
  pose proof (schema_text_with_error_raises (env_of audited)
                how_many_clients [] _ S C) as [_ [_ [_ [E _]]]].
  rewrite E. reflexivity.
Defined.

(** C9.  When the reply of the model parses as a JSON object,
    [human_query_to_sql] returns that object as it is; when the object
    has no key [sql_query], the handler raises the [KeyError] of
    [sql_response["sql_query"]] instead of returning an answer. *)
Theorem reply_without_sql_query_raises (env : Env) (q : str)
        (h : list event) (schema reply : str) (d : dict) :
  fst (get_schema env h) = Ok (PyStr schema) ->
  contains (lit "error") schema = false ->
  respond env (h ++ snd (get_schema env h))
    (translation_request (translation_prompt schema) q) = Ok reply ->
  json_loads env (strip_fences reply) = Ok (PyDict d) ->
  dict_lookup (PyStr (lit "sql_query")) d = None ->
  let evs :=
    snd (get_schema env h)
    ++ [Called (translation_request (translation_prompt schema) q)
          (Ok reply)] in
  human_query_to_sql env q h = (Ok (PyDict d), evs)
  /\ human_query_endpoint env q h = (Raise missing_sql_query, evs).
Proof.
  intros S C R J L evs.
  assert (E : human_query_to_sql env q h = (Ok (PyDict d), evs)).
  { rewrite (to_sql_translate env q h schema S C). cbn zeta.
    rewrite R, J. reflexivity. }
  split; [exact E|].
  rewrite endpoint_eq, E. unfold missing_sql_query. cbn. rewrite L.
  reflexivity.
Qed.

Lemma reply_without_sql_query_raises_witness :
  json_loads (env_of misnaming) (strip_fences (translation_text misnaming))
  = Ok (PyDict [(PyStr (lit "query"), PyStr count_clients)])
  /\ dict_lookup (PyStr (lit "sql_query"))
       [(PyStr (lit "query"), PyStr count_clients)] = None
  /\ fst (human_query_endpoint (env_of misnaming) how_many_clients [])
     = Raise missing_sql_query.
Proof.
  assert (S : fst (get_schema (env_of misnaming) [])
              = Ok (PyStr (schema_text misnaming)))
    by (vm_compute; reflexivity).
  assert (C : contains (lit "error") (schema_text misnaming) = false)
    by (vm_compute; reflexivity).
  assert (R : respond (env_of misnaming)
                ([] ++ snd (get_schema (env_of misnaming) []))
                (translation_request
                   (translation_prompt (schema_text misnaming))
                   how_many_clients)
              = Ok (translation_text misnaming))
    by (vm_compute; reflexivity).
  assert (J : json_loads (env_of misnaming)
                (strip_fences (translation_text misnaming))
              = Ok (PyDict [(PyStr (lit "query"), PyStr count_clients)]))
    by (vm_compute; reflexivity).
  assert (L : dict_lookup (PyStr (lit "sql_query"))
                [(PyStr (lit "query"), PyStr count_clients)] = None)
    by (vm_compute; reflexivity).
  split; [exact J|]. split; [exact L|].
  pose proof (reply_without_sql_query_raises (env_of misnaming)
                how_many_clients [] _ _ _ S C R J L) as [_ E].
  rewrite E. reflexivity.
Defined.

(** C10.  When the translation holds a [sql_query] that is not [None]
    and the executor returns a result without error, the handler passes
    to [build_answer] the [original_query] of the translation if it has
    one, and the [human_query] of the payload otherwise. *)
Theorem summarizer_question (env : Env) (q : str) (h : list event)
        (d : dict) (sql : value) (evs : list event) (result : value)
        (evs2 : list event) :
  human_query_to_sql env q h = (Ok (PyDict d), evs) ->
  dict_lookup (PyStr (lit "sql_query")) d = Some sql ->
  is_none sql = false ->
  query env sql (h ++ evs ++ [generated_sql env sql]) = (Ok result, evs2) ->
  carries_error result = false ->
  let question :=
    match dict_lookup (PyStr (lit "original_query")) d with
    | Some original_query => original_query
    | None => PyStr q
    end in
  let before := evs ++ [generated_sql env sql] ++ evs2 in
  human_query_endpoint env q h
  = let (answer, evs3) := build_answer env result question (h ++ before) in
    (match answer with
     | Ok text => Ok (respond_with text)
     | Raise e => Raise e
     end, before ++ evs3).
Proof.
  intros E L N Q C question before.
  rewrite endpoint_eq, E. cbn [getitem_str get_str]. rewrite L, N.
  cbn zeta. rewrite Q. unfold after_query. rewrite C.
  subst question before.
  rewrite <- !app_assoc.
  destruct (build_answer env result _ _) as [[text|e] evs3];
    rewrite <- ?app_assoc; reflexivity.
Qed.




(** C1.  An exception leaves the handler.  In a request where the
    database and the model both work, the model translates the question
    into a statement whose rows hold a DATETIME cell; the serialisation
    of the rows in [build_answer], which no [try] guards, raises a
    [TypeError], and [human_query_endpoint] raises it in turn instead of
    returning an object with an answer. *)
Theorem endpoint_raises_on_a_date :
  fst (human_query_endpoint (env_of dated) (lit "¿Cuándo se dieron de alta?")
         [])
  = Raise (Exn TypeError
             (lit "Object of type datetime is not JSON serializable")).
Proof. vm_compute. reflexivity. Qed.

Lemma summarizer_question_witness :
  human_query_to_sql (env_of terse) how_many_clients []
  = (Ok (PyDict [(PyStr (lit "sql_query"), PyStr count_clients)]),
     snd (human_query_to_sql (env_of terse) how_many_clients []))
  /\ dict_lookup (PyStr (lit "original_query"))
       [(PyStr (lit "sql_query"), PyStr count_clients)] = None
  /\ human_query_endpoint (env_of terse) how_many_clients []
     = let before :=
         snd (human_query_to_sql (env_of terse) how_many_clients [])
         ++ [generated_sql (env_of terse) (PyStr count_clients)]
         ++ snd (query (env_of shop) (PyStr count_clients) []) in
       let (answer, evs3) :=
         build_answer (env_of terse) (PyList (map PyDict (selected shop)))
           (PyStr how_many_clients) ([] ++ before) in
       (match answer with
        | Ok text => Ok (respond_with text)
        | Raise e => Raise e
        end, before ++ evs3).
Proof.
  assert (E : human_query_to_sql (env_of terse) how_many_clients []
              = (Ok (PyDict [(PyStr (lit "sql_query"), PyStr count_clients)]),
                 snd (human_query_to_sql (env_of terse) how_many_clients [])))
    by (vm_compute; reflexivity).
  assert (L : dict_lookup (PyStr (lit "sql_query"))
                [(PyStr (lit "sql_query"), PyStr count_clients)]
              = Some (PyStr count_clients))
    by (vm_compute; reflexivity).
  assert (N : is_none (PyStr count_clients) = false) by reflexivity.
  assert (Q : query (env_of terse) (PyStr count_clients)
                ([] ++ snd (human_query_to_sql (env_of terse)
                              how_many_clients [])
                 ++ [generated_sql (env_of terse) (PyStr count_clients)])
              = (Ok (PyList (map PyDict (selected shop))),
                 snd (query (env_of shop) (PyStr count_clients) [])))
    by (vm_compute; reflexivity).
  assert (C : carries_error (PyList (map PyDict (selected shop))) = false)
    by reflexivity.
  split; [exact E|]. split; [vm_compute; reflexivity|].
  exact (summarizer_question (env_of terse) how_many_clients [] _ _ _ _ _
           E L N Q C).
Defined.

End Properties.

(* ===================================================================== *)
(** * Facts about the extraction of the JSON text *)
(* ===================================================================== *)

Module FenceFacts.
Import Text Py Run Main Samples Notions TextFacts.

Lemma lstrip_blank_app ws t : blank ws = true -> lstrip (ws ++ t) = lstrip t.
Proof.
  induction ws as [|c ws IH]; cbn [blank forallb app lstrip]; [reflexivity|].
  rewrite andb_true_iff; intros [-> H]. apply IH; exact H.
Qed.

Lemma lstrip_suffix t : exists p, t = p ++ lstrip t.
Proof.
  induction t as [|c t [p IH]]; cbn [lstrip].
  - exists []; reflexivity.
  - destruct (isspace c).
    + exists (c :: p). cbn. rewrite <- IH. reflexivity.
    + exists []. reflexivity.
Qed.

Lemma rstrip_prefix t : exists s, t = rstrip t ++ s.
Proof.
  unfold rstrip. destruct (lstrip_suffix (rev t)) as [p H].
  exists (rev p). rewrite <- rev_app_distr, <- H, rev_involutive. reflexivity.
Qed.

Lemma lstrip_head c t : isspace c = false -> lstrip (c :: t) = c :: t.
Proof. intros H; cbn [lstrip]; rewrite H; reflexivity. Qed.

Lemma rstrip_last t c : isspace c = false -> rstrip (t ++ [c]) = t ++ [c].
Proof.
  intros H. unfold rstrip. rewrite rev_app_distr. cbn [rev app].
  rewrite lstrip_head by exact H. cbn [rev]. rewrite rev_involutive.
  reflexivity.
Qed.

Lemma rstrip_app_blank t ws : blank ws = true -> rstrip (t ++ ws) = rstrip t.
Proof.
  intros H. unfold rstrip.
  rewrite rev_app_distr, lstrip_blank_app; [reflexivity|].
  unfold blank in *. rewrite forallb_forall in *. intros x Hx.
  apply H, in_rev; exact Hx.
Qed.

(** A text without white space around it is left alone by both halves of
    [strip]. *)
Lemma stripped_halves t : strip t = t -> lstrip t = t /\ rstrip t = t.
Proof.
  unfold strip. intros H.
  destruct (lstrip_suffix t) as [p Hp].
  destruct (rstrip_prefix (lstrip t)) as [s Hs].
  assert (L : List.length p + List.length s = 0).
  { assert (E : List.length t
                = List.length p
                  + (List.length (rstrip (lstrip t)) + List.length s)).
    { rewrite Hp at 1. rewrite Hs at 1. rewrite !length_app. reflexivity. }
    rewrite H in E. lia. }
  assert (p = []) by (destruct p; [reflexivity | cbn in L; lia]).
  assert (s = [])
    by (destruct s;
        [reflexivity | cbn in L; rewrite Nat.add_comm in L; discriminate]).
  subst p s. cbn in Hp. rewrite app_nil_r in Hs.
  split; [symmetry; exact Hp|].
  rewrite <- Hp in Hs. rewrite <- Hp in H. exact H.
Qed.

Lemma stripped_head c t : lstrip (c :: t) = c :: t -> isspace c = false.
Proof.
  cbn [lstrip]. destruct (isspace c); [|reflexivity].
  intros H. destruct (lstrip_suffix t) as [p Hp].
  assert (E : List.length t = List.length p + List.length (lstrip t))
    by (rewrite Hp at 1; apply length_app).
  rewrite H in E. cbn in E. lia.
Qed.

Lemma skipn_length_app (A : Type) (a b : list A) :
  skipn (List.length a) (a ++ b) = b.
Proof. induction a; cbn; auto. Qed.

Lemma firstn_length_app (A : Type) (a b : list A) :
  firstn (List.length (a ++ b) - List.length b) (a ++ b) = a.
Proof.
  rewrite length_app, Nat.add_sub.
  rewrite firstn_app, Nat.sub_diag, firstn_all. cbn. apply app_nil_r.
Qed.

Lemma endswith_app p s : endswith (p ++ s) s = true.
Proof. unfold endswith. rewrite rev_app_distr. apply startswith_app. Qed.

(** X1.  A JSON text between the fences, with white space between the
    fences and the text, is unwrapped: for every text [t] without white
    space around it and all white-space [a] and [b], stripping
    [```json a t b ```] gives [t]. *)
Theorem strip_fences_unwraps (a b t : str) :
  blank a = true -> blank b = true -> strip t = t ->
  strip_fences (json_fence ++ a ++ t ++ b ++ fence) = t.
Proof.
  intros Ha Hb Ht. destruct (stripped_halves t Ht) as [Hl Hr].
  unfold strip_fences.
  rewrite startswith_app. unfold drop_prefix. rewrite skipn_length_app.
  assert (F : fence = ([96; 96] ++ [96])%N) by (vm_compute; reflexivity).
  assert (R : forall x, rstrip (x ++ fence) = x ++ fence).
  { intros x. rewrite F, app_assoc. apply rstrip_last. reflexivity. }
  destruct t as [|c t'].
  - assert (E : strip (a ++ [] ++ b ++ fence) = [] ++ fence).
    { unfold strip. rewrite lstrip_blank_app by exact Ha. cbn [app].
      rewrite lstrip_blank_app by exact Hb.
      rewrite F at 1. cbn [app]. rewrite lstrip_head by reflexivity.
      apply (R []). }
    rewrite E, endswith_app. unfold drop_suffix. rewrite firstn_length_app.
    reflexivity.
  - assert (C : isspace c = false) by (apply (stripped_head c t'); exact Hl).
    assert (E : strip (a ++ (c :: t') ++ b ++ fence)
                = ((c :: t') ++ b) ++ fence).
    { unfold strip. rewrite lstrip_blank_app by exact Ha.
      rewrite <- app_comm_cons, lstrip_head by exact C.
      rewrite app_comm_cons, app_assoc. apply R. }
    rewrite E, endswith_app. unfold drop_suffix. rewrite firstn_length_app.
    unfold strip. rewrite <- app_comm_cons, lstrip_head by exact C.
    rewrite app_comm_cons, rstrip_app_blank by exact Hb. exact Hr.
Qed.

Lemma strip_fences_unwraps_witness :
  blank line_break = true
  /\ strip (translation_text terse) = translation_text terse
  /\ strip_fences
       (json_fence ++ line_break ++ translation_text terse ++ line_break
        ++ fence)
     = translation_text terse.
Proof.
  assert (B : blank line_break = true) by reflexivity.
  assert (S : strip (translation_text terse) = translation_text terse)
    by (vm_compute; reflexivity).
  split; [exact B|]. split; [exact S|].
  exact (strip_fences_unwraps line_break line_break _ B B S).
Defined.

(** X2.  The closing fence is not required: a reply that opens with the
    fence and does not end with one is handed on without the opening
    fence and without the white space around the rest. *)
Theorem strip_fences_without_closing_fence (t : str) :
  endswith (strip t) fence = false ->
  strip_fences (json_fence ++ t) = strip t.
Proof.
  intros H. unfold strip_fences.
  rewrite startswith_app. unfold drop_prefix. rewrite skipn_length_app.
  rewrite H. reflexivity.
Qed.

Lemma strip_fences_without_closing_fence_witness :
  endswith (strip (line_break ++ translation_text terse)) fence = false
  /\ strip_fences (json_fence ++ line_break ++ translation_text terse)
     = strip (line_break ++ translation_text terse).
Proof.
  assert (E : endswith (strip (line_break ++ translation_text terse)) fence
              = false) by (vm_compute; reflexivity).
  split; [exact E|].
  exact (strip_fences_without_closing_fence _ E).
Defined.

End FenceFacts.

(* ===================================================================== *)
(** * More facts about the executor *)
(* ===================================================================== *)

Module ExecutorFacts.
Import Text Py Run Main Samples Notions TextFacts RunFacts QueryFacts.

(** X3.  An argument that is not a [str], as a reply of the model may
    hold under [sql_query], never reaches a path: [query] returns an
    error record, and neither fetches nor commits, whatever the driver
    does with the argument. *)
Theorem query_rejects_non_text (env : Env) (sql_query : value)
        (h : list event) :
  is_str sql_query = false ->
  exists message,
    fst (query env sql_query h) = Ok (error_record message)
    /\ path_taken (snd (query env sql_query h)) = None.
Proof.
  intros H. unfold_query.
  destruct sql_query; try discriminate H; crunch;
    repeat next_call; (eexists; split; reflexivity).
Qed.

Lemma query_rejects_non_text_witness :
  is_str (PyInt 5) = false
  /\ exists message,
       fst (query (env_of shop) (PyInt 5) []) = Ok (error_record message)
       /\ path_taken (snd (query (env_of shop) (PyInt 5) [])) = None.
Proof.
  split; [reflexivity|].
  exact (query_rejects_non_text (env_of shop) (PyInt 5) [] eq_refl).
Defined.

Ltac next_respond :=
  match goal with
  | |- context [respond ?e ?h ?c] =>
    let r := fresh "r" in
    destruct (respond e h c) as [r|r] eqn:?; crunch
  end.

(** X4.  The executor logs what it catches: a run that returns an error
    record ends with the log record of the exception whose message the
    record carries, and a run that returns a result logs nothing. *)
Theorem query_logs_its_failures (env : Env) (sql_query : value)
        (h : list event) :
  let (r, evs) := query env sql_query h in
  match r with
  | Ok v =>
    if carries_error v
    then exists e before,
        v = error_record (exn_msg e) /\ evs = before ++ [query_failed e]
    else count is_logged evs = 0
  | Raise _ => False
  end.
Proof.
  unfold query_failed; unfold_query.
  destruct (is_select sql_query) as [[|]|] eqn:S; crunch.
  all: repeat (first
         [ next_respond
         | match goal with
           | |- context [is_mysql_error ?e] =>
             destruct (is_mysql_error e) eqn:?; crunch
           end ]).
  all: try reflexivity.
  all: try congruence.
  all: match goal with
       | |- exists e before, error_record (exn_msg ?x) = _ /\ ?l = _ =>
         exists x, (removelast l)
       end.
  all: match goal with
       | H : is_mysql_error _ = _ |- _ => rewrite H
       end.
  all: split; reflexivity.
Qed.

(** X5.  The statement goes to the database as it is, and once: when
    the driver hands out a connection and a cursor, the operations that a
    run of [query] hands to [execute] are its argument and nothing else;
    when the connection or the cursor fails, the run executes nothing. *)
Theorem query_executes_its_argument (env : Env) (sql_query : value)
        (h : list event) :
  executed_operations (snd (query env sql_query h))
  = match respond env h mysql_connect with
    | Ok c =>
      match respond env (h ++ [Called mysql_connect (Ok c)]) (conn_cursor c)
      with
      | Ok _ => [sql_query]
      | Raise _ => []
      end
    | Raise _ => []
    end.
Proof.
  destruct (respond env h mysql_connect) as [c|e] eqn:H1.
  2:{ unfold_query. rewrite H1. crunch.
      destruct (is_mysql_error e); crunch; destruct (is_mysql_error e);
        reflexivity. }
  destruct (respond env (h ++ [Called mysql_connect (Ok c)]) (conn_cursor c))
    as [k|e] eqn:H2.
  2:{ unfold_query. rewrite H1. crunch. rewrite ?app_nil_r.
      cbn in H2. rewrite H2. crunch.
      destruct (is_mysql_error e); reflexivity. }
  unfold_query. rewrite H1. crunch. rewrite ?app_nil_r.
  cbn in H2. rewrite H2. crunch.
  destruct (is_select sql_query) as [[|]|] eqn:S; crunch;
    repeat next_call; reflexivity.
Qed.

End ExecutorFacts.

(* ===================================================================== *)
(** * More facts about the schema introspection *)
(* ===================================================================== *)

Module CatalogueFacts.
Import Text Py Run Main Samples Notions TextFacts RunFacts QueryFacts.
Import SchemaFacts PipelineFacts.

(** ** The introspection only reads *)

Lemma only_reads env : only reads_catalogue (get_schema env).
Proof.
  unfold get_schema, introspect, get_db_connection, add_table, add_column.
  repeat first
    [ apply only_ret | apply only_raise | apply only_lift
    | apply only_logger; reflexivity
    | apply only_for_each; intros
    | apply only_bind; [|intros]
    | apply only_try_except; [|intros]
    | match goal with
      | |- only _ (call _ (cursor_execute _ (PyStr (lit "SHOW TABLES")))) =>
        apply only_call; intros; vm_compute; reflexivity
      | |- only _ (call _ (cursor_execute _ (PyStr (_ ++ _)))) =>
        apply only_call; intros; cbn [reads_catalogue introspection_statement];
        rewrite startswith_app; apply orb_true_r
      | |- only _ (call _ _) => apply only_call; intros; reflexivity
      | |- only _ (if is_mysql_error _ then _ else _) =>
        destruct (is_mysql_error _)
      | a : sum _ _ |- _ => destruct a
      end ].
Qed.

Lemma reads_tally evs :
  forallb reads_catalogue evs = true ->
  forallb introspection_statement (executed_operations evs) = true
  /\ count is_commit evs = 0 /\ count is_generate evs = 0.
Proof.
  induction evs as [|ev evs IH]; cbn [forallb]; [repeat split|].
  rewrite andb_true_iff; intros [Hev Hevs].
  destruct (IH Hevs) as [H1 [H2 H3]].
  rewrite !count_cons, H2, H3.
  unfold executed_operations in *. cbn [flat_map]. rewrite forallb_app, H1.
  destruct ev as [[] r|]; cbn in *; try discriminate; auto.
  rewrite Hev. auto.
Qed.

(** X6.  The introspection only reads the catalogue: the statements it
    executes are SHOW TABLES and DESCRIBEs, it never commits and never
    calls the model. *)
Theorem get_schema_only_reads (env : Env) (h : list event) :
  forallb introspection_statement
    (executed_operations (snd (get_schema env h))) = true
  /\ count is_commit (snd (get_schema env h)) = 0
  /\ count is_generate (snd (get_schema env h)) = 0.
Proof. apply reads_tally, only_reads. Qed.

Lemma empty_catalogue env h :
  let (r, evs) := get_schema env h in
  forall text,
    r = Ok (PyStr text) -> hd [] (fetched_rows evs) = [] ->
    text = lit "{}"
    /\ executed_operations evs = [PyStr (lit "SHOW TABLES")].
Proof.
  unfold_schema. crunch.
  do 4 (next_call; [| repeat next_call; intros ? H; discriminate H]).
  destruct r2 as [|row rows].
  2:{ destruct (for_each _ _ _ _) as [[d|e] evl]; crunch;
        repeat next_call; try destruct (json_dumps _); crunch;
        intros ? ? H; discriminate H. }
  cbn [for_each ret]. crunch.
  do 2 (next_call; [| intros ? H; discriminate H]).
  change (json_dumps (PyDict [])) with (Ok (lit "{}")). cbn.
  intros text H _; inversion H. split; reflexivity.
Qed.

(** X7.  When SHOW TABLES lists no table and the introspection succeeds,
    the schema text is the empty JSON object and SHOW TABLES is the only
    statement executed. *)
Theorem get_schema_of_empty_catalogue (env : Env) (h : list event)
        (text : str) :
  fst (get_schema env h) = Ok (PyStr text) ->
  hd [] (fetched_rows (snd (get_schema env h))) = [] ->
  text = lit "{}"
  /\ executed_operations (snd (get_schema env h)) = [PyStr (lit "SHOW TABLES")].
Proof.
  pose proof (empty_catalogue env h) as E.
  destruct (get_schema env h) as [r evs]. exact (E text).
Qed.

Lemma get_schema_of_empty_catalogue_witness :
  fst (get_schema (env_of bare) []) = Ok (PyStr (lit "{}"))
  /\ hd [] (fetched_rows (snd (get_schema (env_of bare) []))) = []
  /\ executed_operations (snd (get_schema (env_of bare) []))
     = [PyStr (lit "SHOW TABLES")].
Proof.
  assert (S : fst (get_schema (env_of bare) []) = Ok (PyStr (lit "{}")))
    by (vm_compute; reflexivity).
  assert (F : hd [] (fetched_rows (snd (get_schema (env_of bare) []))) = [])
    by (vm_compute; reflexivity).
  split; [exact S|]. split; [exact F|].
  exact (proj2 (get_schema_of_empty_catalogue (env_of bare) [] _ S F)).
Defined.

(** ** Substrings *)

Lemma startswith_split s p : startswith s p = true -> exists r, s = p ++ r.
Proof.
  revert s; induction p as [|y p IH]; intros s; cbn.
  - eauto.
  - destruct s as [|x s]; [discriminate|].
    rewrite andb_true_iff, N.eqb_eq. intros [-> H].
    destruct (IH s H) as [r ->]. eauto.
Qed.

Lemma contains_split n hay :
  contains n hay = true -> exists p s, hay = p ++ n ++ s.
Proof.
  induction hay as [|x hay IH]; cbn [contains]; rewrite orb_true_iff.
  - intros [H|H]; [|discriminate].
    destruct (startswith_split _ _ H) as [r ->]. exists [], r. reflexivity.
  - intros [H|H].
    + destruct (startswith_split _ _ H) as [r ->]. exists [], r. reflexivity.
    + destruct (IH H) as [p [s ->]]. exists (x :: p), s. reflexivity.
Qed.

Lemma contains_middle n p s : contains n (p ++ n ++ s) = true.
Proof.
  induction p as [|x p IH]; cbn [app].
  - apply contains_here, startswith_app.
  - cbn [contains]. rewrite IH. apply orb_true_r.
Qed.

Lemma contains_app_left n a b :
  contains n a = true -> contains n (a ++ b) = true.
Proof.
  intros H. destruct (contains_split _ _ H) as [p [s ->]].
  rewrite <- !app_assoc. apply contains_middle.
Qed.

Lemma contains_app_right n a b :
  contains n b = true -> contains n (a ++ b) = true.
Proof.
  intros H. destruct (contains_split _ _ H) as [p [s ->]].
  rewrite app_assoc. apply contains_middle.
Qed.

(** ** The encoder *)

Lemma escape_plain n : plain n = true -> flat_map escape_cp n = n.
Proof.
  induction n as [|c n IH]; cbn [plain forallb flat_map]; [reflexivity|].
  rewrite !andb_true_iff, !negb_true_iff.
  intros [[[[H1 H2] H3] H4] H]. fold (plain n) in H. rewrite (IH H).
  unfold escape_cp. rewrite H3, H4.
  assert (c <> 8 /\ c <> 12 /\ c <> 10 /\ c <> 13 /\ c <> 9)%N
    as [A [B [C [D E]]]]
    by (apply N.leb_le in H1; repeat split; lia).
  apply N.eqb_neq in A, B, C, D, E. rewrite A, B, C, D, E, H1, H2.
  reflexivity.
Qed.

Lemma encode_str_shows n name :
  plain n = true -> contains n name = true ->
  contains n (encode_str name) = true.
Proof.
  intros P H. destruct (contains_split _ _ H) as [p [s ->]].
  unfold encode_str. rewrite !flat_map_app, (escape_plain n P).
  rewrite <- !app_assoc. rewrite app_assoc. apply contains_middle.
Qed.

Lemma Ok_inj (A : Type) (a b : A) : Ok a = Ok b -> a = b.
Proof. intros H; inversion H; reflexivity. Qed.

(** A key of a dict shows in its JSON text. *)
Lemma encode_shows_key n name x d level text :
  plain n = true -> contains n name = true ->
  In (PyStr name, x) d ->
  encode level (PyDict d) = Ok text ->
  contains n text = true.
Proof.
  intros P C I. destruct d as [|[k0 x0] d]; [destruct I|].
  cbn -[newline_indent encode_str lit app json_key].
  match goal with
  | |- context [?f false d] =>
    assert (M : forall l first r,
               In (PyStr name, x) l -> f first l = Ok r ->
               contains n r = true)
  end.
  { induction l as [|[k y] l IH]; intros first r Il; [destruct Il|].
    cbn -[encode newline_indent encode_str lit app json_key].
    destruct (json_key k) as [ks|] eqn:K; [|discriminate].
    destruct (encode (S level) y) as [t|]; [|discriminate].
    match goal with
    | |- match ?g with _ => _ end = _ -> _ => destruct g as [rest|] eqn:G
    end; [|discriminate].
    intros H; apply Ok_inj in H; subst r.
    destruct Il as [E|Il].
    - inversion E; subst k y. apply Ok_inj in K; subst ks.
      apply contains_app_right, contains_app_right, contains_app_left.
      apply encode_str_shows; assumption.
    - do 5 apply contains_app_right. exact (IH false rest Il G). }
  destruct (json_key k0) as [ks|] eqn:K; [|discriminate].
  destruct (encode (S level) x0) as [t|]; [|discriminate].
  match goal with
  | |- match match ?g with _ => _ end with _ => _ end = _ -> _ =>
    destruct g as [r|] eqn:G
  end; [|discriminate].
  intros H; apply Ok_inj in H; subst text.
  apply contains_app_right.
  destruct I as [E|I].
  - inversion E; subst k0 x0. apply Ok_inj in K; subst ks.
    apply contains_app_right, contains_app_right, contains_app_left.
    apply encode_str_shows; assumption.
  - do 5 apply contains_app_right. exact (M _ _ _ I G).
Qed.

(** ** Keys of [schema_info] *)

Lemma store_keeps q k v d :
  has_key q d = true -> has_key q (dict_store k v d) = true.
Proof.
  unfold has_key.
  induction d as [|[k0 v0] d IH]; cbn [dict_lookup dict_store]; [discriminate|].
  destruct (key_eqb k k0); cbn [dict_lookup];
    destruct (key_eqb q k0); auto.
Qed.

Lemma store_adds name v d :
  has_key (PyStr name) (dict_store (PyStr name) v d) = true.
Proof.
  unfold has_key.
  induction d as [|[k0 v0] d IH]; cbn [dict_lookup dict_store].
  - cbn [key_eqb]. rewrite eqb_refl. reflexivity.
  - destruct (key_eqb (PyStr name) k0) eqn:E; cbn [dict_lookup]; rewrite E;
      [reflexivity | exact IH].
Qed.

Lemma append_keeps q k x d :
  has_key q d = true -> has_key q (dict_append d k x) = true.
Proof.
  intros H. unfold dict_append.
  destruct (dict_lookup k d) as [[]|]; try exact H.
  apply store_keeps; exact H.
Qed.

Lemma has_key_in name d :
  has_key (PyStr name) d = true -> exists x, In (PyStr name, x) d.
Proof.
  unfold has_key.
  induction d as [|[k0 v0] d IH]; cbn [dict_lookup]; [discriminate|].
  destruct (key_eqb (PyStr name) k0) eqn:E.
  - intros _. destruct k0; try discriminate E. cbn in E.
    apply eqb_eq in E; subst. exists v0; left; reflexivity.
  - intros H. destruct (IH H) as [x Hx]. exists x; right; exact Hx.
Qed.

Lemma columns_keep_keys q table_name columns :
  forall s h d evs,
    for_each columns (add_column table_name) s h = (Ok d, evs) ->
    has_key q s = true -> has_key q d = true.
Proof.
  induction columns as [|col columns IH]; intros s h d evs.
  - cbn. intros H; inversion H; subst; auto.
  - cbn [for_each]. unfold bind at 1.
    unfold add_column, bind, lift, ret.
    destruct (getitem_str (PyDict col) (lit "Field")); [|discriminate].
    destruct (getitem_str (PyDict col) (lit "Type")); [|discriminate].
    destruct (getitem_str (PyDict col) (lit "Null")); [|discriminate].
    match goal with
    | |- context [for_each columns ?b ?s' ?h'] =>
      destruct (for_each columns b s' h') as [[d'|e] evl] eqn:L
    end; [|discriminate].
    intros H; inversion H; subst d'. intros K.
    eapply IH; [exact L|]. apply append_keeps; exact K.
Qed.

Lemma tables_add_keys env k tables :
  forall s h d evs,
    for_each tables (add_table env k) s h = (Ok d, evs) ->
    (forall q, has_key q s = true -> has_key q d = true)
    /\ (forall row name,
           In row tables -> first_value row = Ok (PyStr name) ->
           has_key (PyStr name) d = true).
Proof.
  induction tables as [|table tables IH]; intros s h d evs.
  - cbn. intros H; inversion H; subst. split; [auto | intros ? ? []].
  - cbn [for_each]. unfold bind at 1.
    destruct (add_table env k table s h) as [[s'|e] ev1] eqn:A; [|discriminate].
    destruct (for_each tables (add_table env k) s' (h ++ ev1))
      as [[d'|e] ev2] eqn:L; [|discriminate].
    intros H; inversion H; subst d'; clear H.
    destruct (IH _ _ _ _ L) as [Keep Add].
    assert (Step : (forall q, has_key q s = true -> has_key q s' = true)
                   /\ (forall name, first_value table = Ok (PyStr name) ->
                                    has_key (PyStr name) s' = true)).
    { revert A. unfold add_table, bind, lift, call.
      destruct (first_value table) as [name|]; [|discriminate].
      unfold setitem. destruct (is_hashable name); [|discriminate].
      destruct (respond env _ (cursor_execute _ _)); [|discriminate].
      destruct (respond env _ (cursor_fetchall _)) as [columns|];
        [|discriminate].
      match goal with
      | |- context [for_each columns ?b ?s0 ?h0] =>
        destruct (for_each columns b s0 h0) as [[d0|e] evl] eqn:C
      end; [|discriminate].
      intros H; inversion H; subst d0.
      split.
      - intros q K. eapply columns_keep_keys; [exact C|].
        apply store_keeps; exact K.
      - intros nm E. apply Ok_inj in E; subst name.
        eapply columns_keep_keys; [exact C|]. apply store_adds. }
    destruct Step as [Keep1 Add1].
    split.
    + intros q K. apply Keep, Keep1, K.
    + intros row name [->|I] F.
      * apply Keep, Add1, F.
      * eapply Add; eauto.
Qed.

Lemma named_table_shows env h :
  let (r, evs) := get_schema env h in
  forall text row name,
    r = Ok (PyStr text) ->
    In row (hd [] (fetched_rows evs)) ->
    first_value row = Ok (PyStr name) ->
    exists schema_info x,
      json_dumps (PyDict schema_info) = Ok text
      /\ In (PyStr name, x) schema_info.
Proof.
  unfold_schema. crunch.
  do 4 (next_call; [| repeat next_call; intros ? ? ? H; discriminate H]).
  match goal with
  | |- context [for_each ?t (add_table env ?k) ?s ?h'] =>
    destruct (for_each t (add_table env k) s h') as [[d|e] evl] eqn:L
  end; crunch.
  2:{ intros ? ? ? H; discriminate H. }
  do 2 (next_call; [| intros ? ? ? H; discriminate H]).
  destruct (json_dumps (PyDict d)) as [t|] eqn:J; crunch;
    [|intros ? ? ? H; discriminate H].
  intros text row name H I F. apply Ok_inj in H. inversion H; subst t.
  unfold fetched_rows in I. cbn [flat_map app hd] in I.
  destruct (tables_add_keys _ _ _ _ _ _ _ L) as [_ Add].
  destruct (has_key_in _ _ (Add row name I F)) as [x Hx].
  eauto.
Qed.

(** X8.  A table whose name contains [error] breaks every request: when
    the listing of SHOW TABLES holds such a name and the introspection
    succeeds, the schema text contains [error] and the handler raises
    the [TypeError] of the subscript of a [str]. *)
Theorem table_named_error_breaks_requests (env : Env) (q : str)
        (h : list event) (text : str) (row : dict) (name : str) :
  fst (get_schema env h) = Ok (PyStr text) ->
  In row (hd [] (fetched_rows (snd (get_schema env h)))) ->
  first_value row = Ok (PyStr name) ->
  contains (lit "error") name = true ->
  contains (lit "error") text = true
  /\ fst (human_query_endpoint env q h) = Raise str_index_error.
Proof.
  intros S I F C.
  assert (T : contains (lit "error") text = true).
  { pose proof (named_table_shows env h) as N.
    destruct (get_schema env h) as [r evs]. cbn [fst snd] in *.
    destruct (N text row name S I F) as [d [x [J Hx]]].
    eapply encode_shows_key; [| exact C | exact Hx | exact J].
    vm_compute; reflexivity. }
  split; [exact T|].
  rewrite endpoint_eq, (to_sql_schema_text_error env q h text S T).
  reflexivity.
Qed.

Lemma table_named_error_breaks_requests_witness :
  In (table_row (lit "error_log"))
     (hd [] (fetched_rows (snd (get_schema (env_of audited) []))))
  /\ contains (lit "error") (lit "error_log") = true
  /\ fst (human_query_endpoint (env_of audited) how_many_clients [])
     = Raise str_index_error.
Proof.
  assert (S : fst (get_schema (env_of audited) [])
              = Ok (PyStr (schema_text audited)))
    by (vm_compute; reflexivity).
  assert (I : In (table_row (lit "error_log"))
                (hd [] (fetched_rows (snd (get_schema (env_of audited) [])))))
    by (vm_compute; right; left; reflexivity).
  assert (F : first_value (table_row (lit "error_log"))
              = Ok (PyStr (lit "error_log"))) by reflexivity.
  assert (C : contains (lit "error") (lit "error_log") = true)
    by (vm_compute; reflexivity).
  split; [exact I|]. split; [exact C|].
  exact (proj2 (table_named_error_breaks_requests (env_of audited)
                  how_many_clients [] _ _ _ S I F C)).
Defined.

End CatalogueFacts.

(* ===================================================================== *)
(** * More facts about the summary and the handler *)
(* ===================================================================== *)

Module HandlerFacts.
Import Text Py Run Main Samples Notions TextFacts RunFacts QueryFacts.
Import SchemaFacts PipelineFacts ExecutorFacts CatalogueFacts.

(** X9.  For a result that carries an error, [build_answer] calls
    nothing: it returns the sentence about the database followed by the
    error. *)
Theorem build_answer_of_an_error (env : Env) (result question : value)
        (h : list event) :
  carries_error result = true ->
  exists e,
    getitem_str result (lit "error") = Ok e
    /\ build_answer env result question h = (Ok (database_failure env e), []).
Proof.
  intros C. destruct (carries_error_getitem _ C) as [e G].
  exists e. split; [exact G|].
  rewrite build_answer_eq, C, G. unfold database_failure. reflexivity.
Qed.

Lemma build_answer_of_an_error_witness :
  carries_error (error_record (exn_msg no_such_table)) = true
  /\ exists e,
       getitem_str (error_record (exn_msg no_such_table)) (lit "error") = Ok e
       /\ build_answer (env_of shop) (error_record (exn_msg no_such_table))
            (PyStr how_many_clients) []
          = (Ok (database_failure (env_of shop) e), []).
Proof.
  assert (C : carries_error (error_record (exn_msg no_such_table)) = true)
    by (vm_compute; reflexivity).
  split; [exact C|].
  exact (build_answer_of_an_error (env_of shop) _ (PyStr how_many_clients) []
           C).
Defined.

Lemma build_answer_tally env result question h :
  count is_generate (snd (build_answer env result question h)) <= 1
  /\ count is_database_call (snd (build_answer env result question h)) = 0.
Proof.
  rewrite build_answer_eq.
  destruct (carries_error result).
  - destruct (getitem_str result (lit "error")); split; cbn; auto.
  - destruct (json_dumps result); [|split; cbn; auto].
    cbn zeta. destruct (respond env h _); split; cbn; auto.
Qed.

(** X10.  [build_answer] calls the model at most once and the database
    never. *)
Theorem build_answer_calls (env : Env) (result question : value)
        (h : list event) :
  count is_generate (snd (build_answer env result question h)) <= 1
  /\ count is_database_call (snd (build_answer env result question h)) = 0.
Proof. exact (build_answer_tally env result question h). Qed.

Lemma query_no_model env sql_query :
  only (fun ev => negb (is_generate ev)) (query env sql_query).
Proof.
  unfold query, execute, get_db_connection.
  repeat first
    [ only_step
    | match goal with
      | |- only _ (if ?b then _ else _) => destruct b
      end ].
Qed.

Lemma to_sql_events env q h :
  exists extra,
    snd (human_query_to_sql env q h) = snd (get_schema env h) ++ extra
    /\ count is_connect extra = 0 /\ count is_generate extra <= 1.
Proof.
  unfold human_query_to_sql, bind.
  destruct (get_schema env h) as [[v|e] evs]; cbn [snd].
  2:{ exists []. rewrite app_nil_r. repeat split; auto. }
  unfold lift at 1.
  destruct (contains_str (lit "error") v) as [[|]|].
  - unfold bind, lift, ret. destruct (getitem_str v (lit "error"));
      exists []; repeat split; auto.
  - unfold try_except, translate, bind, call, lift, logger, ret.
    rewrite !app_nil_r.
    destruct (respond env (h ++ evs) _) as [t|e].
    + destruct (json_loads env (strip_fences t)); cbn [snd];
        eexists; (split; [reflexivity|]); split; cbn; auto.
    + cbn [snd]. eexists; (split; [reflexivity|]); split; cbn; auto.
  - exists []. repeat split; auto.
Qed.

Lemma count_generated_sql env sql :
  count is_connect [generated_sql env sql] = 0
  /\ count is_generate [generated_sql env sql] = 0.
Proof. unfold generated_sql. rewrite !count_cons. split; reflexivity. Qed.

(** X11.  A request attempts one or two connections to the database and
    calls the model at most twice. *)
Theorem request_resources (env : Env) (q : str) (h : list event) :
  1 <= count is_connect (snd (human_query_endpoint env q h)) <= 2
  /\ count is_generate (snd (human_query_endpoint env q h)) <= 2.
Proof.
  destruct (to_sql_events env q h) as [extra [E [X1 X2]]].
  pose proof (get_schema_connection env h) as G.
  pose proof (no_generate_count _ (get_schema_no_model env h)) as G2.
  rewrite endpoint_eq.
  destruct (human_query_to_sql env q h) as [r evs]. cbn [snd] in E.
  destruct (get_schema env h) as [r0 evs0]. cbn [snd] in *.
  destruct G as [G1 _].
  assert (A1 : count is_connect evs = 1) by (subst evs; rewrite count_app; lia).
  assert (A2 : count is_generate evs <= 1)
    by (subst evs; rewrite count_app; lia).
  clear E.
  destruct r as [v|e]; [|cbn [snd]; lia].
  destruct (getitem_str v (lit "sql_query")) as [sql|e]; [|cbn [snd]; lia].
  destruct (is_none sql).
  { destruct (get_str v (lit "error") _); cbn [snd]; lia. }
  destruct (get_str v (lit "original_query") _) as [original|e];
    [|cbn [snd]; lia].
  cbn zeta. destruct (count_generated_sql env sql) as [L1 L2].
  pose proof (query_connection env sql
                (h ++ evs ++ [generated_sql env sql])) as Q.
  pose proof (no_generate_count _
                (query_no_model env sql
                   (h ++ evs ++ [generated_sql env sql]))) as Q2.
  destruct (query env sql _) as [r2 evs2]. cbn [snd] in *.
  destruct Q as [Q1 _].
  destruct r2 as [result|e].
  2:{ cbn [snd]. rewrite !count_app, A1, Q1, Q2, L1, L2. lia. }
  unfold after_query.
  destruct (carries_error result).
  - destruct (getitem_str result (lit "error")); cbn [snd];
      rewrite ?app_nil_r, !count_app, A1, Q1, Q2, L1, L2; lia.
  - pose proof (build_answer_tally env result original
                  (h ++ (evs ++ [generated_sql env sql]) ++ evs2)) as [B1 B2].
    destruct (build_answer env result original _) as [a evs3].
    cbn [snd] in *.
    assert (B3 : count is_connect evs3 = 0).
    { clear - B2. induction evs3 as [|ev evs3 IH]; [reflexivity|].
      rewrite count_cons in *. destruct ev as [[] ?|]; cbn in *; try lia;
        apply IH; lia. }
    rewrite !count_app, A1, Q1, Q2, B3, L1, L2. lia.
Qed.

(** X12.  A translation whose [sql_query] is null and that has no
    [error] is reported as an unknown error. *)
Theorem declined_translation_is_reported (env : Env) (q : str)
        (h : list event) (d : dict) (evs : list event) :
  human_query_to_sql env q h = (Ok (PyDict d), evs) ->
  dict_lookup (PyStr (lit "sql_query")) d = Some PyNone ->
  dict_lookup (PyStr (lit "error")) d = None ->
  human_query_endpoint env q h
  = (Ok (translation_failure (lit "Error desconocido")), evs).
Proof.
  intros E S N. rewrite endpoint_eq, E.
  cbn [getitem_str get_str]. rewrite S, N. reflexivity.
Qed.

Lemma declined_translation_is_reported_witness :
  human_query_to_sql (env_of declining) how_many_clients []
  = (Ok (PyDict [(PyStr (lit "sql_query"), PyNone)]),
     snd (human_query_to_sql (env_of declining) how_many_clients []))
  /\ human_query_endpoint (env_of declining) how_many_clients []
     = (Ok (translation_failure (lit "Error desconocido")),
        snd (human_query_to_sql (env_of declining) how_many_clients [])).
Proof.
  assert (E : human_query_to_sql (env_of declining) how_many_clients []
              = (Ok (PyDict [(PyStr (lit "sql_query"), PyNone)]),
                 snd (human_query_to_sql (env_of declining)
                        how_many_clients [])))
    by (vm_compute; reflexivity).
  assert (S : dict_lookup (PyStr (lit "sql_query"))
                [(PyStr (lit "sql_query"), PyNone)] = Some PyNone)
    by (vm_compute; reflexivity).
  assert (N : dict_lookup (PyStr (lit "error"))
                [(PyStr (lit "sql_query"), PyNone)] = None)
    by (vm_compute; reflexivity).
  split; [exact E|].
  exact (declined_translation_is_reported (env_of declining)
           how_many_clients [] _ _ E S N).
Defined.

(** X13.  When the call to the translation model raises [e], the handler
    answers with the translation-failure message followed by [str(e)],
    and the run ends with that call and a log record, without any call
    to the database after the introspection. *)
Theorem model_failure_ends_the_request (env : Env) (q : str)
        (h : list event) (schema : str) (e : exn) :
  fst (get_schema env h) = Ok (PyStr schema) ->
  contains (lit "error") schema = false ->
  respond env (h ++ snd (get_schema env h))
    (translation_request (translation_prompt schema) q) = Raise e ->
  let after_schema :=
    [Called (translation_request (translation_prompt schema) q) (Raise e);
     translation_failed e] in
  human_query_endpoint env q h
  = (Ok (translation_failure (exn_msg e)),
     snd (get_schema env h) ++ after_schema)
  /\ count is_database_call after_schema = 0.
Proof.
  intros S C R after_schema. split; [|reflexivity].
  rewrite endpoint_eq, (to_sql_translate env q h schema S C). cbn zeta.
  rewrite R. crunch. reflexivity.
Qed.

Lemma model_failure_ends_the_request_witness :
  contains (lit "error") (schema_text offline) = false
  /\ fst (human_query_endpoint (env_of offline) how_many_clients [])
     = Ok (translation_failure (exn_msg quota_exceeded)).
Proof.
  assert (S : fst (get_schema (env_of offline) [])
              = Ok (PyStr (schema_text offline)))
    by (vm_compute; reflexivity).
  assert (C : contains (lit "error") (schema_text offline) = false)
    by (vm_compute; reflexivity).
  assert (R : respond (env_of offline)
                ([] ++ snd (get_schema (env_of offline) []))
                (translation_request
                   (translation_prompt (schema_text offline))
                   how_many_clients)
              = Raise quota_exceeded)
    by (vm_compute; reflexivity).
  split; [exact C|].
  pose proof (model_failure_ends_the_request (env_of offline)
                how_many_clients [] _ _ S C R) as [E _].
  rewrite E. reflexivity.
Defined.

(** X14.  When the executor returns the error record [{"error": m}], the
    handler answers with the execution-failure message followed by [m]
    and does not call the summarising model. *)
Theorem execution_failure_is_reported (env : Env) (q : str)
        (h : list event) (d : dict) (sql : value) (evs : list event)
        (message : str) :
  human_query_to_sql env q h = (Ok (PyDict d), evs) ->
  dict_lookup (PyStr (lit "sql_query")) d = Some sql ->
  is_none sql = false ->
  fst (query env sql (h ++ evs ++ [generated_sql env sql]))
  = Ok (error_record message) ->
  let evs2 := snd (query env sql (h ++ evs ++ [generated_sql env sql])) in
  human_query_endpoint env q h
  = (Ok (execution_failure message), evs ++ [generated_sql env sql] ++ evs2)
  /\ count is_generate ([generated_sql env sql] ++ evs2) = 0.
Proof.
  intros E S N Q evs2. subst evs2.
  pose proof (no_generate_count _
                (query_no_model env sql (h ++ evs ++ [generated_sql env sql])))
    as G.
  split.
  - rewrite endpoint_eq, E. cbn [getitem_str get_str]. rewrite S, N.
    cbn zeta.
    destruct (query env sql _) as [r2 evs2]. cbn [fst snd] in *. subst r2.
    unfold after_query. crunch. rewrite app_nil_r, <- app_assoc. reflexivity.
  - rewrite count_app, G. destruct (count_generated_sql env sql) as [_ ->].
    reflexivity.
Qed.

Lemma execution_failure_is_reported_witness :
  fst (query (env_of refusing) (PyStr count_clients)
         ([] ++ snd (human_query_to_sql (env_of refusing) how_many_clients [])
          ++ [generated_sql (env_of refusing) (PyStr count_clients)]))
  = Ok (error_record (exn_msg no_such_table))
  /\ fst (human_query_endpoint (env_of refusing) how_many_clients [])
     = Ok (execution_failure (exn_msg no_such_table)).
Proof.
  assert (E : human_query_to_sql (env_of refusing) how_many_clients []
              = (Ok (PyDict [(PyStr (lit "sql_query"), PyStr count_clients);
                             (PyStr (lit "original_query"),
                              PyStr how_many_clients)]),
                 snd (human_query_to_sql (env_of refusing)
                        how_many_clients [])))
    by (vm_compute; reflexivity).
  assert (S : dict_lookup (PyStr (lit "sql_query"))
                [(PyStr (lit "sql_query"), PyStr count_clients);
                 (PyStr (lit "original_query"), PyStr how_many_clients)]
              = Some (PyStr count_clients))
    by (vm_compute; reflexivity).
  assert (N : is_none (PyStr count_clients) = false) by reflexivity.
  assert (Q : fst (query (env_of refusing) (PyStr count_clients)
                     ([] ++ snd (human_query_to_sql (env_of refusing)
                                   how_many_clients [])
                      ++ [generated_sql (env_of refusing)
                            (PyStr count_clients)]))
              = Ok (error_record (exn_msg no_such_table)))
    by (vm_compute; reflexivity).
  split; [exact Q|].
  pose proof (execution_failure_is_reported (env_of refusing)
                how_many_clients [] _ _ _ _ E S N Q) as [A _].
  rewrite A. reflexivity.
Defined.

Lemma apology_cons e : exists c t, apology e = c :: t.
Proof.
  unfold apology.
  destruct (lit "Lo siento, no pude generar una respuesta. Error: ") eqn:L.
  - vm_compute in L. discriminate L.
  - cbn [app]. eauto.
Qed.

Lemma respond_with_final (reply : outcome str) :
  respond_with (match reply with Ok t => t | Raise e => apology e end)
  = answer_record (final_answer reply).
Proof.
  destruct reply as [[|c t]|e]; cbn [final_answer].
  - reflexivity.
  - reflexivity.
  - destruct (apology_cons e) as [c [t ->]]. reflexivity.
Qed.

(** X15.  After a query whose result is without error and serialisable,
    the answer is the reply of the summarising model, the fixed failure
    text when that reply is empty, and the apology with [str(e)] when the
    call raised [e]. *)
Theorem answer_after_query (env : Env) (q : str) (h : list event)
        (d : dict) (sql : value) (evs : list event) (result : value)
        (evs2 : list event) (dumped : str) :
  human_query_to_sql env q h = (Ok (PyDict d), evs) ->
  dict_lookup (PyStr (lit "sql_query")) d = Some sql ->
  is_none sql = false ->
  query env sql (h ++ evs ++ [generated_sql env sql]) = (Ok result, evs2) ->
  carries_error result = false ->
  json_dumps result = Ok dumped ->
  let question :=
    match dict_lookup (PyStr (lit "original_query")) d with
    | Some original_query => original_query
    | None => PyStr q
    end in
  let reply :=
    respond env (h ++ evs ++ [generated_sql env sql] ++ evs2)
      (summary_request (summary_prompt (format env question) dumped)) in
  fst (human_query_endpoint env q h) = Ok (answer_record (final_answer reply)).
Proof.
  intros E S N Q C J question reply.
  rewrite endpoint_eq, E. cbn [getitem_str get_str]. rewrite S, N.
  cbn zeta. rewrite Q. unfold after_query. rewrite C.
  rewrite build_answer_eq, C, J. cbn zeta.
  subst reply question. rewrite <- !app_assoc.
  destruct (respond env _ _) as [t|e] eqn:R; cbn [fst].
  - apply f_equal. exact (respond_with_final (Ok t)).
  - apply f_equal. exact (respond_with_final (Raise e)).
Qed.

Lemma answer_after_query_witness :
  json_dumps (PyList (map PyDict (selected shop)))
  = Ok (match json_dumps (PyList (map PyDict (selected shop))) with
        | Ok dumped => dumped
        | Raise _ => []
        end)
  /\ fst (human_query_endpoint (env_of speechless) how_many_clients [])
     = Ok (answer_record (apology quota_exceeded)).
Proof.
  assert (E : human_query_to_sql (env_of speechless) how_many_clients []
              = (Ok (PyDict [(PyStr (lit "sql_query"), PyStr count_clients);
                             (PyStr (lit "original_query"),
                              PyStr how_many_clients)]),
                 snd (human_query_to_sql (env_of speechless)
                        how_many_clients [])))
    by (vm_compute; reflexivity).
  assert (S : dict_lookup (PyStr (lit "sql_query"))
                [(PyStr (lit "sql_query"), PyStr count_clients);
                 (PyStr (lit "original_query"), PyStr how_many_clients)]
              = Some (PyStr count_clients))
    by (vm_compute; reflexivity).
  assert (N : is_none (PyStr count_clients) = false) by reflexivity.
  assert (Q : query (env_of speechless) (PyStr count_clients)
                ([] ++ snd (human_query_to_sql (env_of speechless)
                              how_many_clients [])
                 ++ [generated_sql (env_of speechless) (PyStr count_clients)])
              = (Ok (PyList (map PyDict (selected shop))),
                 snd (query (env_of shop) (PyStr count_clients) [])))
    by (vm_compute; reflexivity).
  assert (C : carries_error (PyList (map PyDict (selected shop))) = false)
    by reflexivity.
  assert (J : json_dumps (PyList (map PyDict (selected shop)))
              = Ok (match json_dumps (PyList (map PyDict (selected shop))) with
                    | Ok dumped => dumped
                    | Raise _ => []
                    end))
    by (vm_compute; reflexivity).
  split; [exact J|].
  pose proof (answer_after_query (env_of speechless) how_many_clients []
                _ _ _ _ _ _ E S N Q C J) as A.
  cbv zeta in A. rewrite A. vm_compute. reflexivity.
Defined.

End HandlerFacts.
